(** * linuxforhealth.x12: support functions, segment serialisation and the
      837 (005010X222A2) loop handlers, embedded shallowly.

    Python text is modelled as ASCII [string]s (X12 is an ASCII-framed
    format); [len] is [String.length].  Python exceptions are the
    constructors of [exn]; a fallible function returns [exn + A]. *)

From Stdlib Require Import Ascii String DecimalString ZArith Lia.
From Stdlib Require DecimalZ.
From stdpp Require Import gmap strings list fin_maps.

Local Open Scope nat_scope.

(** Exceptions raised by the modelled code. *)
Inductive exn : Type :=
  | KeyError (key : string)
  | IndexError
  | TypeError
  | AttributeError
  | ValueError.

(* ===================================================================== *)
(** ** support.py                                                         *)
(* ===================================================================== *)

Module Support.

(** maps a X12 transaction implementation version to the latest version
    in the "major" version *)
Definition X12_IMPLEMENTATION_VERSIONS : gmap string string :=
  list_to_map
    [ ("005010X220", "005010X220A1");
      ("005010X220A1", "005010X220A1");
      ("005010X212", "005010X212");
      ("005010X221", "005010X221A1");
      ("005010X221A1", "005010X221A1");
      ("005010X279", "005010X279A1");
      ("005010X279A1", "005010X279A1");
      ("004010X096", "004010X096A1");
      ("004010X096A1", "004010X096A1");
      ("005010X223", "005010X223A3");
      ("005010X223A1", "005010X223A3");
      ("005010X223A2", "005010X223A3");
      ("005010X223A3", "005010X223A3");
      ("004010X098", "004010X098A1");
      ("004010X098A1", "004010X098A1");
      ("005010X222", "005010X222A2");
      ("005010X222A1", "005010X222A2");
      ("005010X222A2", "005010X222A2") ].

Definition get_latest_implementation_version (requested_version : string)
  : exn + string :=
  match X12_IMPLEMENTATION_VERSIONS !! requested_version with
  | None => inl (KeyError requested_version)
  | Some v => inr v
  end.

(** [input_data.startswith("ISA") if input_data else False]; [None] and the
    empty string are falsy. *)
Definition is_x12_data (input_data : option string) : bool :=
  match input_data with
  | None => false
  | Some EmptyString => false
  | Some s => String.prefix "ISA" s
  end.

(** *** A model of [datetime.datetime.strptime]

    Each directive is the regular expression CPython's [_strptime] compiles
    it to, an ordered alternation of fixed-width character-class sequences;
    the directives of a format are concatenated and matched with the usual
    leftmost-alternative-first backtracking, and the whole input has to be
    consumed. *)

Inductive directive : Type :=
  | Dir_y   (* %y : \d\d *)
  | Dir_Y   (* %Y : \d\d\d\d *)
  | Dir_m   (* %m : 1[0-2]|0[1-9]|[1-9] *)
  | Dir_d   (* %d : 3[0-1]|[1-2]\d|0[1-9]|[1-9]| [1-9] *)
  | Dir_H   (* %H : 2[0-3]|[0-1]\d|\d *)
  | Dir_M.  (* %M : [0-5]\d|\d *)

(** A character class: the inclusive range of character codes it accepts. *)
Definition char_class : Type := (nat * nat)%type.

Definition cc_digit : char_class := (48, 57).
Definition cc_range (lo hi : nat) : char_class := (48 + lo, 48 + hi).
Definition cc_space : char_class := (32, 32).

Definition in_class (cc : char_class) (c : ascii) : bool :=
  (fst cc <=? nat_of_ascii c) && (nat_of_ascii c <=? snd cc).

Definition directive_regex (d : directive) : list (list char_class) :=
  match d with
  | Dir_y => [ [cc_digit; cc_digit] ]
  | Dir_Y => [ [cc_digit; cc_digit; cc_digit; cc_digit] ]
  | Dir_m => [ [cc_range 1 1; cc_range 0 2]; [cc_range 0 0; cc_range 1 9];
               [cc_range 1 9] ]
  | Dir_d => [ [cc_range 3 3; cc_range 0 1]; [cc_range 1 2; cc_digit];
               [cc_range 0 0; cc_range 1 9]; [cc_range 1 9];
               [cc_space; cc_range 1 9] ]
  | Dir_H => [ [cc_range 2 2; cc_range 0 3]; [cc_range 0 1; cc_digit];
               [cc_digit] ]
  | Dir_M => [ [cc_range 0 5; cc_digit]; [cc_digit] ]
  end.

(** Match one alternative at the head of the input; returns the matched
    text and the remaining input. *)
Fixpoint match_classes (ccs : list char_class) (s : string)
  : option (string * string) :=
  match ccs with
  | [] => Some (EmptyString, s)
  | cc :: ccs' =>
      match s with
      | String c s' =>
          if in_class cc c then
            match match_classes ccs' s' with
            | Some (m, r) => Some (String c m, r)
            | None => None
            end
          else None
      | EmptyString => None
      end
  end.

(** [int(text)] on a matched group: decimal digits, blanks ignored. *)
Fixpoint int_of_digits (acc : Z) (s : string) : Z :=
  match s with
  | EmptyString => acc
  | String c s' =>
      if in_class cc_digit c
      then int_of_digits (10 * acc + Z.of_nat (nat_of_ascii c - 48))%Z s'
      else int_of_digits acc s'
  end.

Fixpoint first_alternative {A} (k : string -> string -> option A)
  (alts : list (list char_class)) (s : string) : option A :=
  match alts with
  | [] => None
  | ccs :: alts' =>
      match match_classes ccs s with
      | Some (m, r) =>
          match k m r with
          | Some a => Some a
          | None => first_alternative k alts' s
          end
      | None => first_alternative k alts' s
      end
  end.

(** The values of the groups, in format order, and the unconsumed input. *)
Fixpoint match_format (fmt : list directive) (s : string)
  : option (list Z * string) :=
  match fmt with
  | [] => Some ([], s)
  | d :: fmt' =>
      first_alternative
        (fun m r =>
           match match_format fmt' r with
           | Some (vs, r') => Some (int_of_digits 0 m :: vs, r')
           | None => None
           end)
        (directive_regex d) s
  end.

Local Open Scope Z_scope.

Record date : Type := mk_date { d_year : Z; d_month : Z; d_day : Z }.
Record datetime : Type :=
  mk_datetime { dt_date : date; dt_hour : Z; dt_minute : Z }.

Definition is_leap (y : Z) : bool :=
  ((y mod 4 =? 0) && negb (y mod 100 =? 0)) || (y mod 400 =? 0).

Definition days_in_month (y m : Z) : Z :=
  match m with
  | 2 => if is_leap y then 29 else 28
  | 4 | 6 | 9 | 11 => 30
  | _ => 31
  end.

(** The range checks of the [datetime.date] constructor. *)
Definition make_date (y m d : Z) : exn + date :=
  if (1 <=? y) && (y <=? 9999) && (1 <=? m) && (m <=? 12)
     && (1 <=? d) && (d <=? days_in_month y m)
  then inr (mk_date y m d) else inl ValueError.

(** [%y]: values 69-99 map to 1969-1999 and values 0-68 to 2000-2068. *)
Definition two_digit_year (yy : Z) : Z :=
  if yy <=? 68 then yy + 2000 else yy + 1900.

Local Close Scope Z_scope.

(** The fields [strptime] collects; a directive absent from the format
    leaves its default (1900-01-01 00:00). *)
Definition set_group (d : directive) (v : Z) (dt : datetime) : datetime :=
  let dd := dt_date dt in
  match d with
  | Dir_y => mk_datetime (mk_date (two_digit_year v) (d_month dd) (d_day dd))
               (dt_hour dt) (dt_minute dt)
  | Dir_Y => mk_datetime (mk_date v (d_month dd) (d_day dd))
               (dt_hour dt) (dt_minute dt)
  | Dir_m => mk_datetime (mk_date (d_year dd) v (d_day dd))
               (dt_hour dt) (dt_minute dt)
  | Dir_d => mk_datetime (mk_date (d_year dd) (d_month dd) v)
               (dt_hour dt) (dt_minute dt)
  | Dir_H => mk_datetime dd v (dt_minute dt)
  | Dir_M => mk_datetime dd (dt_hour dt) v
  end.

Fixpoint set_groups (fmt : list directive) (vs : list Z) (dt : datetime)
  : datetime :=
  match fmt, vs with
  | d :: fmt', v :: vs' => set_groups fmt' vs' (set_group d v dt)
  | _, _ => dt
  end.

(** [datetime.datetime.strptime(s, fmt)]: [ValueError] when the input does
    not match, when unconverted data remains, and when the fields do not
    form a date. *)
Definition strptime (s : string) (fmt : list directive) : exn + datetime :=
  match match_format fmt s with
  | Some (vs, EmptyString) =>
      let dt := set_groups fmt vs (mk_datetime (mk_date 1900 1 1) 0 0) in
      match make_date (d_year (dt_date dt)) (d_month (dt_date dt))
                      (d_day (dt_date dt)) with
      | inr dd => inr (mk_datetime dd (dt_hour dt) (dt_minute dt))
      | inl e => inl e
      end
  | _ => inl ValueError
  end.

(** Parses a datetime.date from date fields in the ISA (interchange)
    segment: [strptime(date_string, "%y%m%d").date()]. *)
Definition parse_interchange_date (date_string : string) : exn + date :=
  match strptime date_string [Dir_y; Dir_m; Dir_d] with
  | inr dt => inr (dt_date dt)
  | inl e => inl e
  end.

(** What [parse_x12_date] returns: [None], a date, a datetime, or the input
    string itself. *)
Inductive x12_date : Type :=
  | ParsedNone
  | ParsedDate (d : date)
  | ParsedDateTime (dt : datetime)
  | ParsedStr (s : string).

Definition parse_x12_date (date_string : option string) : exn + x12_date :=
  match date_string with
  | None => inr ParsedNone
  | Some EmptyString => inr ParsedNone
  | Some s =>
      if String.length s =? 8 then
        match strptime s [Dir_Y; Dir_m; Dir_d] with
        | inr dt => inr (ParsedDate (dt_date dt))
        | inl e => inl e
        end
      else if String.length s =? 12 then
        match strptime s [Dir_Y; Dir_m; Dir_d; Dir_H; Dir_M] with
        | inr dt => inr (ParsedDateTime dt)
        | inl e => inl e
        end
      else if (String.length s =? 4) || (String.length s =? 6) then
        inr (ParsedStr s)
      else inr ParsedNone
  end.

(** [x12_implementation_version[2:6]], or the empty string for [None] and
    for inputs shorter than six characters. *)
Definition parse_x12_major_version (v : option string) : string :=
  match v with
  | None => EmptyString
  | Some s => if String.length s <? 6 then EmptyString else String.substring 2 4 s
  end.

(** The reading of the detector that skips white space: the first three
    characters of the input that are not white space ([str.isspace] on
    ASCII). *)
Definition is_whitespace (c : ascii) : bool :=
  let n := nat_of_ascii c in
  ((9 <=? n) && (n <=? 13)) || ((28 <=? n) && (n <=? 32)).

Fixpoint non_whitespace (s : string) : string :=
  match s with
  | EmptyString => EmptyString
  | String c s' =>
      if is_whitespace c then non_whitespace s' else String c (non_whitespace s')
  end.

Definition first_three_non_whitespace_are_ISA (s : string) : bool :=
  String.eqb (String.substring 0 3 (non_whitespace s)) "ISA".

(** The reading of the interchange date with the century pivot at 50. *)
Definition year_with_pivot_50 (yy : Z) : Z :=
  (if yy <? 50 then 2000 + yy else 1900 + yy)%Z.

(** *** Facts the properties below are stated with *)

(** A requested version and its latest version name the same guide. *)
Definition same_guide (requested latest : string) : bool :=
  String.prefix (String.substring 0 10 requested) latest
  && (String.length requested <=? String.length latest)
  && String.eqb (parse_x12_major_version (Some latest))
                (parse_x12_major_version (Some requested))
  && (String.eqb (parse_x12_major_version (Some requested)) "4010"
      || String.eqb (parse_x12_major_version (Some requested)) "5010").

(** The largest value a directive's group can take. *)
Definition directive_max (d : directive) : Z :=
  match d with
  | Dir_y => 99
  | Dir_Y => 9999
  | Dir_m => 12
  | Dir_d => 31
  | Dir_H => 23
  | Dir_M => 59
  end.

(** The smallest value [strftime] renders for a directive. *)
Definition directive_min (d : directive) : Z :=
  match d with
  | Dir_y => 0
  | Dir_Y => 1000
  | Dir_m => 1
  | Dir_d => 1
  | Dir_H => 0
  | Dir_M => 0
  end.

(** The width [strftime] zero-fills a directive to. *)
Definition directive_width (d : directive) : nat :=
  match d with
  | Dir_Y => 4
  | _ => 2
  end.

End Support.

(* ===================================================================== *)
(** ** models.py                                                          *)
(* ===================================================================== *)

Module Models.
Import Support.

(** X12Delimiters models the message delimiters used within a X12
    transaction; every field holds exactly one character. *)
Record X12Delimiters : Type := mk_delimiters {
  element_separator : ascii;
  repetition_separator : ascii;
  segment_terminator : ascii;
  component_separator : ascii
}.

(** [X12Delimiters()]: the field defaults. *)
Definition default_delimiters : X12Delimiters :=
  mk_delimiters "*" "^" "~" ":".

(** A finite [decimal.Decimal]: sign, coefficient and exponent. *)
Record decimal : Type := mk_decimal {
  dec_negative : bool;
  dec_coefficient : Z;
  dec_exponent : Z
}.

(** The values a segment field holds after validation. *)
Inductive field_value : Type :=
  | FStr (s : string)
  | FList (items : list string)
  | FDateTime (dt : datetime)
  | FDate (d : date)
  | FTime (hour minute : Z)
  | FDecimal (d : decimal)
  | FNone
  | FInt (z : Z).

(** [field_info.extra] of a model field, as far as serialisation reads it. *)
Record field_info : Type := mk_field_info { extra_is_component : option bool }.

(** An instance of a segment model: [__fields__] is the metadata of the
    model class, [data_fields] the instance's fields after [segment_name],
    in declaration order. *)
Record X12Segment : Type := mk_segment {
  delimiters : option X12Delimiters;
  segment_name : string;
  data_fields : list (string * field_value);
  model_fields : gmap string field_info
}.

(** [self.dict(exclude={"delimiters"}).items()] *)
Definition dict_exclude_delimiters (self : X12Segment)
  : list (string * field_value) :=
  ("segment_name", FStr (segment_name self)) :: data_fields self.

(** [custom_delimiters or X12Delimiters()]: a model instance is truthy. *)
Definition or_default (custom_delimiters : option X12Delimiters)
  : X12Delimiters :=
  match custom_delimiters with
  | Some d => d
  | None => default_delimiters
  end.

Definition join (sep : ascii) (parts : list string) : string :=
  String.concat (String sep EmptyString) parts.

(** [s.rstrip(c)] for a one-character [c]. *)
Fixpoint rstrip (c : ascii) (s : string) : string :=
  match s with
  | EmptyString => EmptyString
  | String a s' =>
      match rstrip c s' with
      | EmptyString => if Ascii.eqb a c then EmptyString else String a EmptyString
      | r => String a r
      end
  end.

Definition str_of_int (z : Z) : string := NilZero.string_of_int (Z.to_int z).

Fixpoint zeros (n : nat) : string :=
  match n with
  | O => EmptyString
  | S n' => String "0" (zeros n')
  end.

(** A non-negative number zero-filled to [width] digits, as [strftime]
    renders date and time fields. *)
Definition zero_filled (width : nat) (z : Z) : string :=
  let digits := str_of_int z in
  zeros (width - String.length digits) +:+ digits.

Definition strftime_YmdHM (dt : datetime) : string :=
  zero_filled 4 (d_year (dt_date dt)) +:+ zero_filled 2 (d_month (dt_date dt))
  +:+ zero_filled 2 (d_day (dt_date dt)) +:+ zero_filled 2 (dt_hour dt)
  +:+ zero_filled 2 (dt_minute dt).

Definition strftime_Ymd (d : date) : string :=
  zero_filled 4 (d_year d) +:+ zero_filled 2 (d_month d)
  +:+ zero_filled 2 (d_day d).

Definition strftime_HM (hour minute : Z) : string :=
  zero_filled 2 hour +:+ zero_filled 2 minute.

(** [n / d] rounded to the nearest integer, ties to even. *)
Definition div_half_even (n d : Z) : Z :=
  let q := (n / d)%Z in
  let r := (n mod d)%Z in
  if (2 * r <? d)%Z then q
  else if (d <? 2 * r)%Z then (q + 1)%Z
  else if Z.even q then q else (q + 1)%Z.

(** ["{:.2f}".format(v)] for a finite Decimal [v]. *)
Definition format_2f (v : decimal) : string :=
  let e := (dec_exponent v + 2)%Z in
  let hundredths :=
    if (0 <=? e)%Z then (dec_coefficient v * 10 ^ e)%Z
    else div_half_even (dec_coefficient v) (10 ^ (- e))%Z in
  (if dec_negative v then "-" else "")
  +:+ str_of_int (hundredths / 100)%Z +:+ "."
  +:+ zero_filled 2 (hundredths mod 100)%Z.

(** Converts a X12 multi-value (list) field into a a single delimited
    string. *)
Definition _process_multivalue_field (self : X12Segment) (field_name : string)
  (field_value : list string) (custom_delimiters : option X12Delimiters)
  : exn + string :=
  let delimiters := or_default custom_delimiters in
  match model_fields self !! field_name with
  | None => inl (KeyError field_name)
  | Some info =>
      let is_component_field := default false (extra_is_component info) in
      let join_character :=
        if is_component_field then component_separator delimiters
        else repetition_separator delimiters in
      inr (join join_character field_value)
  end.

(** The loop of [x12] that fills [x12_values]. *)
Fixpoint x12_values (self : X12Segment) (delimiters : X12Delimiters)
  (items : list (string * field_value)) : exn + list string :=
  match items with
  | [] => inr []
  | (k, v) :: items' =>
      let rendered :=
        match v with
        | FStr s => inr s
        | FList l =>
            _process_multivalue_field self k l (Some delimiters)
        | FDateTime dt => inr (strftime_YmdHM dt)
        | FDate d => inr (strftime_Ymd d)
        | FTime h m => inr (strftime_HM h m)
        | FDecimal d => inr (format_2f d)
        | FNone => inr EmptyString
        | FInt z => inr (str_of_int z)
        end in
      match rendered with
      | inl e => inl e
      | inr x =>
          match x12_values self delimiters items' with
          | inl e => inl e
          | inr xs => inr (x :: xs)
          end
      end
  end.

(** Generates a X12 formatted string for the segment. *)
Definition x12 (self : X12Segment) (custom_delimiters : option X12Delimiters)
  : exn + string :=
  let delimiters := or_default custom_delimiters in
  match x12_values self delimiters (dict_exclude_delimiters self) with
  | inl e => inl e
  | inr values =>
      let x12_str :=
        rstrip (element_separator delimiters)
               (join (element_separator delimiters) values) in
      inr (x12_str +:+ String (segment_terminator delimiters) EmptyString)
  end.

(** The reading in which a segment serialises itself with the delimiters
    it carries. *)
Definition x12_with_carried_delimiters (self : X12Segment) : exn + string :=
  x12 self (delimiters self).

(** *** Facts the properties below are stated with *)

(** The decimal numeral [u] with the digit [k] in front. *)
Definition digit_uint (k : nat) (u : Decimal.uint) : Decimal.uint :=
  match k with
  | 0 => Decimal.D0 u
  | 1 => Decimal.D1 u
  | 2 => Decimal.D2 u
  | 3 => Decimal.D3 u
  | 4 => Decimal.D4 u
  | 5 => Decimal.D5 u
  | 6 => Decimal.D6 u
  | 7 => Decimal.D7 u
  | 8 => Decimal.D8 u
  | _ => Decimal.D9 u
  end.

(** Fields that render as the empty string. *)
Definition renders_empty (v : field_value) : Prop :=
  v = FNone \/ v = FStr EmptyString.

(** Every list-valued field of the instance is a field of the model. *)
Definition list_fields_declared (self : X12Segment) : Prop :=
  Forall (fun kv => match snd kv with
                    | FList _ => is_Some (model_fields self !! fst kv)
                    | _ => True
                    end) (data_fields self).

(** *** Segment groups *)

#[local] Set Warnings "-register-all".

(** What a field of a segment group holds: nothing, a segment, a nested
    group (the fields of its model that have an [x12] method, in
    declaration order), or a list of segments and groups. *)
Inductive field_instance : Type :=
  | INone
  | ISegment (s : X12Segment)
  | IGroup (fields : list field_instance)
  | IList (items : list field_instance).

(** [item.x12(...)] for a segment or a group; the body of the [IGroup]
    case is the loop of X12SegmentGroup.x12 over its fields.  Nothing but a
    segment or a group has an [x12] method. *)
Fixpoint item_x12 (use_new_lines : bool) (delimiters : X12Delimiters)
  (item : field_instance) : exn + string :=
  match item with
  | ISegment s => x12 s (Some delimiters)
  | IGroup fields =>
      match
        (fix walk (fs : list field_instance) : exn + list string :=
           match fs with
           | [] => inr []
           | INone :: fs' => walk fs'
           | IList items :: fs' =>
               match
                 (fix each (l : list field_instance) : exn + list string :=
                    match l with
                    | [] => inr []
                    | i :: l' =>
                        match item_x12 use_new_lines delimiters i with
                        | inl e => inl e
                        | inr x =>
                            match each l' with
                            | inl e => inl e
                            | inr xs => inr (x :: xs)
                            end
                        end
                    end) items
               with
               | inl e => inl e
               | inr xs =>
                   match walk fs' with
                   | inl e => inl e
                   | inr ys => inr (xs ++ ys)
                   end
               end
           | f :: fs' =>
               match item_x12 use_new_lines delimiters f with
               | inl e => inl e
               | inr x =>
                   match walk fs' with
                   | inl e => inl e
                   | inr ys => inr (x :: ys)
                   end
               end
           end) fields
      with
      | inl e => inl e
      | inr x12_segments =>
          inr (String.concat
                 (if use_new_lines then String "010" EmptyString
                  else EmptyString)
                 x12_segments)
      end
  | INone | IList _ => inl AttributeError
  end.

(** X12SegmentGroup.x12: generates a X12 representation of the loop using
    its segments. *)
Definition group_x12 (fields : list field_instance) (use_new_lines : bool)
  (custom_delimiters : option X12Delimiters) : exn + string :=
  item_x12 use_new_lines (or_default custom_delimiters) (IGroup fields).

(** The segments of a field in document order. *)
Fixpoint segments_of (item : field_instance) : list X12Segment :=
  match item with
  | INone => []
  | ISegment s => [s]
  | IGroup fields =>
      (fix walk (fs : list field_instance) : list X12Segment :=
         match fs with
         | [] => []
         | f :: fs' => segments_of f ++ walk fs'
         end) fields
  | IList items =>
      (fix walk (fs : list field_instance) : list X12Segment :=
         match fs with
         | [] => []
         | f :: fs' => segments_of f ++ walk fs'
         end) items
  end.

(** A field of a model class: whether it is required, and its default
    ([FNone] for None). *)
Record model_field : Type := mk_model_field {
  field_required : bool;
  field_default : field_value
}.

(** The loop of [unvalidated] over [__fields__]: a field missing from the
    keyword arguments raises when it is required and takes its default
    otherwise. *)
Fixpoint fill_defaults (fields : list (string * model_field))
  (data : gmap string field_value) : exn + gmap string field_value :=
  match fields with
  | [] => inr data
  | (name, field) :: fields' =>
      match data !! name with
      | Some _ => fill_defaults fields' data
      | None =>
          if field_required field then inl TypeError
          else fill_defaults fields' (<[name := field_default field]> data)
      end
  end.

(** X12Segment.unvalidated and X12SegmentGroup.unvalidated: the [__dict__]
    and the [__fields_set__] of the instance built without validation. *)
Definition unvalidated (fields : list (string * model_field))
  (data : gmap string field_value)
  : exn + (gmap string field_value * gset string) :=
  match fill_defaults fields data with
  | inl e => inl e
  | inr filled => inr (filled, dom filled)
  end.

(** The loops of [item_x12] and [segments_of] over the fields of a group
    and over the items of a list. *)
Fixpoint fields_x12 (use_new_lines : bool) (delimiters : X12Delimiters)
  (fs : list field_instance) : exn + list string :=
  match fs with
  | [] => inr []
  | INone :: fs' => fields_x12 use_new_lines delimiters fs'
  | IList items :: fs' =>
      match
        (fix each (l : list field_instance) : exn + list string :=
           match l with
           | [] => inr []
           | i :: l' =>
               match item_x12 use_new_lines delimiters i with
               | inl e => inl e
               | inr x =>
                   match each l' with
                   | inl e => inl e
                   | inr xs => inr (x :: xs)
                   end
               end
           end) items
      with
      | inl e => inl e
      | inr xs =>
          match fields_x12 use_new_lines delimiters fs' with
          | inl e => inl e
          | inr ys => inr (xs ++ ys)
          end
      end
  | f :: fs' =>
      match item_x12 use_new_lines delimiters f with
      | inl e => inl e
      | inr x =>
          match fields_x12 use_new_lines delimiters fs' with
          | inl e => inl e
          | inr ys => inr (x :: ys)
          end
      end
  end.

Fixpoint items_x12 (use_new_lines : bool) (delimiters : X12Delimiters)
  (l : list field_instance) : exn + list string :=
  match l with
  | [] => inr []
  | i :: l' =>
      match item_x12 use_new_lines delimiters i with
      | inl e => inl e
      | inr x =>
          match items_x12 use_new_lines delimiters l' with
          | inl e => inl e
          | inr xs => inr (x :: xs)
          end
      end
  end.

Definition segments_of_all (fs : list field_instance) : list X12Segment :=
  flat_map segments_of fs.

(** The outputs of the segments of a field, one by one. *)
Definition rendered (d : X12Delimiters) (segments : list X12Segment)
  (outs : list string) : Prop :=
  Forall2 (fun s out => x12 s (Some d) = inr out) segments outs.

(** What the induction carries: the statement for an item, and for a list
    field the statement about its items. *)
Definition flat_statement (d : X12Delimiters) (item : field_instance) : Prop :=
  (forall out,
     item_x12 false d item = inr out ->
     exists outs, rendered d (segments_of item) outs
                  /\ out = String.concat "" outs)
  /\ match item with
     | IList items =>
         forall xs,
           items_x12 false d items = inr xs ->
           exists outs, rendered d (segments_of_all items) outs
                        /\ String.concat "" xs = String.concat "" outs
     | _ => True
     end.

End Models.

(* ===================================================================== *)
(** ** v5010/x12_837_005010X222A2/parsing.py                              *)
(* ===================================================================== *)

Module Parsing.

(** The loops used to support the 837 005010X222A2 format. *)
Inductive TransactionLoops : Type :=
  | HEADER
  | SUBMITTER_NAME
  | RECEIVER_NAME
  | BILLING_PROVIDER
  | BILLING_PROVIDER_NAME
  | BILLING_PROVIDER_PAY_TO_ADDRESS
  | BILLING_PROVIDER_PAY_TO_PLAN_NAME
  | SUBSCRIBER
  | SUBSCRIBER_NAME
  | SUBSCRIBER_PAYER_NAME
  | PATIENT_LOOP
  | PATIENT_LOOP_NAME
  | CLAIM_INFORMATION
  | CLAIM_REFERRING_PROVIDER_NAME
  | CLAIM_RENDERING_PROVIDER_NAME
  | CLAIM_SERVICE_FACILITY_LOCATION_NAME
  | CLAIM_SUPERVISING_PROVIDER_NAME
  | CLAIM_AMBULANCE_PICKUP_LOCATION
  | CLAIM_AMBULANCE_DROPOFF_LOCATION
  | CLAIM_OTHER_SUBSCRIBER_INFORMATION
  | CLAIM_OTHER_SUBSCRIBER_NAME
  | CLAIM_OTHER_SUBSCRIBER_OTHER_PAYER_NAME
  | CLAIM_OTHER_SUBSCRIBER_OTHER_PAYER_REFERRING_PROVIDER_NAME
  | CLAIM_OTHER_SUBSCRIBER_OTHER_PAYER_RENDERING_PROVIDER_NAME
  | CLAIM_OTHER_SUBSCRIBER_OTHER_PAYER_SERVICE_FACILITY_LOCATION
  | CLAIM_OTHER_SUBSCRIBER_OTHER_PAYER_SUPERVISING_PROVIDER_NAME
  | CLAIM_OTHER_SUBSCRIBER_OTHER_PAYER_BILLING_PROVIDER_NAME
  | CLAIM_SERVICE_LINE
  | CLAIM_SERVICE_LINE_DRUG_IDENTIFICATION_NAME
  | CLAIM_SERVICE_LINE_RENDERING_PROVIDER_NAME
  | CLAIM_SERVICE_LINE_PURCHASED_SERVICE_PROVIDER_NAME
  | CLAIM_SERVICE_LINE_SERVICE_FACILITY_LOCATION_NAME
  | CLAIM_SERVICE_LINE_SUPERVISING_PROVIDER_NAME
  | CLAIM_SERVICE_LINE_ORDERING_PROVIDER_NAME
  | CLAIM_SERVICE_LINE_REFERRING_PROVIDER_NAME
  | CLAIM_SERVICE_LINE_AMBULANCE_PICKUP_LOCATION
  | CLAIM_SERVICE_LINE_AMBULANCE_DROPOFF_LOCATION
  | CLAIM_SERVICE_LINE_LINE_ADJUDICATION_INFORMATION
  | CLAIM_SERVICE_LINE_LINE_FORM_IDENTIFICATION
  | FOOTER.

(** The string a member of the [str]-based enumeration is; it is what the
    member hashes and compares as when used as a dictionary key. *)
Definition loop_id (l : TransactionLoops) : string :=
  match l with
  | HEADER => "header"
  | SUBMITTER_NAME => "loop_1000a"
  | RECEIVER_NAME => "loop_1000b"
  | BILLING_PROVIDER => "loop_2000a"
  | BILLING_PROVIDER_NAME => "loop_2010aa"
  | BILLING_PROVIDER_PAY_TO_ADDRESS => "loop_2010ab"
  | BILLING_PROVIDER_PAY_TO_PLAN_NAME => "loop_2010ac"
  | SUBSCRIBER => "loop_2000b"
  | SUBSCRIBER_NAME => "loop_2010ba"
  | SUBSCRIBER_PAYER_NAME => "loop_2010bb"
  | PATIENT_LOOP => "loop_2000c"
  | PATIENT_LOOP_NAME => "loop_2010ca"
  | CLAIM_INFORMATION => "loop_2300"
  | CLAIM_REFERRING_PROVIDER_NAME => "loop_2310a"
  | CLAIM_RENDERING_PROVIDER_NAME => "loop_2310b"
  | CLAIM_SERVICE_FACILITY_LOCATION_NAME => "loop_2310c"
  | CLAIM_SUPERVISING_PROVIDER_NAME => "loop_2310d"
  | CLAIM_AMBULANCE_PICKUP_LOCATION => "loop_2310e"
  | CLAIM_AMBULANCE_DROPOFF_LOCATION => "loop_2310f"
  | CLAIM_OTHER_SUBSCRIBER_INFORMATION => "loop_2320"
  | CLAIM_OTHER_SUBSCRIBER_NAME => "loop_2330a"
  | CLAIM_OTHER_SUBSCRIBER_OTHER_PAYER_NAME => "loop_2330b"
  | CLAIM_OTHER_SUBSCRIBER_OTHER_PAYER_REFERRING_PROVIDER_NAME => "loop_2330c"
  | CLAIM_OTHER_SUBSCRIBER_OTHER_PAYER_RENDERING_PROVIDER_NAME => "loop_2330d"
  | CLAIM_OTHER_SUBSCRIBER_OTHER_PAYER_SERVICE_FACILITY_LOCATION => "loop_2330e"
  | CLAIM_OTHER_SUBSCRIBER_OTHER_PAYER_SUPERVISING_PROVIDER_NAME => "loop_2330f"
  | CLAIM_OTHER_SUBSCRIBER_OTHER_PAYER_BILLING_PROVIDER_NAME => "loop_2330g"
  | CLAIM_SERVICE_LINE => "loop_2400"
  | CLAIM_SERVICE_LINE_DRUG_IDENTIFICATION_NAME => "loop_2410"
  | CLAIM_SERVICE_LINE_RENDERING_PROVIDER_NAME => "loop_2420a"
  | CLAIM_SERVICE_LINE_PURCHASED_SERVICE_PROVIDER_NAME => "loop_2420b"
  | CLAIM_SERVICE_LINE_SERVICE_FACILITY_LOCATION_NAME => "loop_2420c"
  | CLAIM_SERVICE_LINE_SUPERVISING_PROVIDER_NAME => "loop_2420d"
  | CLAIM_SERVICE_LINE_ORDERING_PROVIDER_NAME => "loop_2420e"
  | CLAIM_SERVICE_LINE_REFERRING_PROVIDER_NAME => "loop_2420f"
  | CLAIM_SERVICE_LINE_AMBULANCE_PICKUP_LOCATION => "loop_2420g"
  | CLAIM_SERVICE_LINE_AMBULANCE_DROPOFF_LOCATION => "loop_2420h"
  | CLAIM_SERVICE_LINE_LINE_ADJUDICATION_INFORMATION => "loop_2430"
  | CLAIM_SERVICE_LINE_LINE_FORM_IDENTIFICATION => "loop_2440"
  | FOOTER => "footer"
  end.

(** *** Python objects

    Dictionaries and lists are mutable and shared, so they live in a store
    and are held by reference.  A store is the list of the objects
    allocated so far; a location is an index into it, and allocation
    appends. *)

Abbreviation loc := nat (only parsing).

Inductive value : Type :=
  | VNone
  | VStr (s : string)
  | VRef (l : loc).

Inductive object : Type :=
  | ODict (entries : gmap string value)
  | OList (items : list value).

Global Instance value_eq_dec : EqDecision value.
Proof. solve_decision. Defined.

(** Modelled from the spec: the class X12ParserContext of
    linuxforhealth/x12/parsing.py, which is not among the sources.  The
    spec gives the cursor a current loop id and a pointer to the current
    loop node, late-bound shortcuts to the open subscriber and patient
    records, the most recent HL segment, and the transaction's document
    tree. *)
Record X12ParserContext : Type := mk_context {
  loop_name : value;
  loop_container : value;
  transaction_data : value;
  subscriber_record : value;
  patient_record : value;
  hl_segment : value
}.

Record state : Type := mk_state {
  context : X12ParserContext;
  store : list object
}.

(** A computation reads and updates the state or raises. *)
Definition M (A : Type) : Type := state -> exn + (A * state).

Definition ret {A} (a : A) : M A := fun st => inr (a, st).

Definition raise {A} (e : exn) : M A := fun _ => inl e.

Definition bind {A B} (m : M A) (k : A -> M B) : M B :=
  fun st =>
    match m st with
    | inl e => inl e
    | inr (a, st') => k a st'
    end.

Notation "'let*' x ':=' m 'in' k" := (bind m (fun x => k))
  (at level 10, x name, m at level 100, k at level 200).
Notation "m ';;' k" := (bind m (fun _ => k))
  (at level 100, k at level 200, right associativity).

Definition get_context : M X12ParserContext := fun st => inr (context st, st).

Definition put_context (c : X12ParserContext) : M unit :=
  fun st => inr (tt, mk_state c (store st)).

(** Modelled from the spec: X12ParserContext.set_loop_context, which moves
    the cursor: it records the current loop id and the current loop node. *)
Definition set_loop_context (name : TransactionLoops) (container : value)
  : M unit :=
  let* c := get_context in
  put_context (mk_context (VStr (loop_id name)) container (transaction_data c)
                 (subscriber_record c) (patient_record c) (hl_segment c)).

Definition set_subscriber_record (v : value) : M unit :=
  let* c := get_context in
  put_context (mk_context (loop_name c) (loop_container c) (transaction_data c)
                 v (patient_record c) (hl_segment c)).

Definition set_patient_record (v : value) : M unit :=
  let* c := get_context in
  put_context (mk_context (loop_name c) (loop_container c) (transaction_data c)
                 (subscriber_record c) v (hl_segment c)).

(** Allocation of a fresh object: [{...}] and [[...]] displays. *)
Definition alloc (o : object) : M value :=
  fun st => inr (VRef (length (store st)),
                 mk_state (context st) (store st ++ [o])).

Definition new_dict (entries : list (string * value)) : M value :=
  alloc (ODict (list_to_map entries)).

Definition new_list (items : list value) : M value := alloc (OList items).

Definition deref (l : loc) : M object :=
  fun st =>
    match store st !! l with
    | Some o => inr (o, st)
    | None => inl TypeError
    end.

Definition update (l : loc) (o : object) : M unit :=
  fun st => inr (tt, mk_state (context st) (<[l := o]> (store st))).

Fixpoint is_substring (needle hay : string) : bool :=
  String.prefix needle hay
  || match hay with
     | EmptyString => false
     | String _ hay' => is_substring needle hay'
     end.

Fixpoint last_char (s : string) : option string :=
  match s with
  | EmptyString => None
  | String c EmptyString => Some (String c EmptyString)
  | String _ s' => last_char s'
  end.

(** [container[key]] for a string key. *)
Definition getitem (container : value) (key : string) : M value :=
  match container with
  | VRef l =>
      let* o := deref l in
      match o with
      | ODict d =>
          match d !! key with
          | Some v => ret v
          | None => raise (KeyError key)
          end
      | OList _ => raise TypeError
      end
  | _ => raise TypeError
  end.

(** [container[-1]] *)
Definition getitem_last (container : value) : M value :=
  match container with
  | VRef l =>
      let* o := deref l in
      match o with
      | OList xs =>
          match last xs with
          | Some v => ret v
          | None => raise IndexError
          end
      | ODict _ => raise (KeyError "-1")
      end
  | VStr s =>
      match last_char s with
      | Some c => ret (VStr c)
      | None => raise IndexError
      end
  | VNone => raise TypeError
  end.

(** [container[key] = v] *)
Definition setitem (container : value) (key : string) (v : value) : M unit :=
  match container with
  | VRef l =>
      let* o := deref l in
      match o with
      | ODict d => update l (ODict (<[key := v]> d))
      | OList _ => raise TypeError
      end
  | _ => raise TypeError
  end.

(** [key in container] for a string key: a key of a dictionary, an element
    of a list, a substring of a string. *)
Definition contains (key : string) (container : value) : M bool :=
  match container with
  | VRef l =>
      let* o := deref l in
      match o with
      | ODict d => ret (bool_decide (is_Some (d !! key)))
      | OList xs => ret (bool_decide (VStr key ∈ xs))
      end
  | VStr s => ret (is_substring key s)
  | VNone => raise TypeError
  end.

(** [container.append(v)] *)
Definition append (container : value) (v : value) : M unit :=
  match container with
  | VRef l =>
      let* o := deref l in
      match o with
      | OList xs => update l (OList (xs ++ [v]))
      | ODict _ => raise AttributeError
      end
  | _ => raise AttributeError
  end.

(** [container.get(key)], and [container.get(key, default)] through
    [default]. *)
Definition dict_get (container : value) (key : string) : M (option value) :=
  match container with
  | VRef l =>
      let* o := deref l in
      match o with
      | ODict d => ret (d !! key)
      | OList _ => raise AttributeError
      end
  | _ => raise AttributeError
  end.

(** [v == s] for a string [s]. *)
Definition eq_str (v : value) (s : string) : bool :=
  match v with
  | VStr s' => String.eqb s' s
  | _ => false
  end.

(** Truth value of a string: the empty string is falsy. *)
Definition truthy_str (s : string) : bool := negb (String.eqb s EmptyString).

(** Returns the current billing provider record *)
Definition _get_billing_provider : M value :=
  let* c := get_context in
  let* providers := getitem (transaction_data c) (loop_id BILLING_PROVIDER) in
  getitem_last providers.

(** Returns true if the patient is a dependent record:
    [patient_record.get("hl_segment", {}).get("hierarchical_level_code") == "23"];
    the empty default has no level code. *)
Definition _is_patient_a_dependent (patient_record : value) : M bool :=
  let* hl := dict_get patient_record "hl_segment" in
  match hl with
  | None => ret false
  | Some hl =>
      let* code := dict_get hl "hierarchical_level_code" in
      ret (eq_str (default VNone code) "23")
  end.

(** Returns the current claim record for the patient (either subscriber or
    dependent) *)
Definition _get_claim : M value :=
  let* c := get_context in
  let* dependent := _is_patient_a_dependent (patient_record c) in
  let* from_patient :=
    (if dependent then ret true
     else let* present :=
            contains (loop_id CLAIM_INFORMATION) (subscriber_record c) in
          ret (negb present)) in
  if from_patient then
    let* claims := getitem (patient_record c) (loop_id CLAIM_INFORMATION) in
    getitem_last claims
  else
    let* claims := getitem (subscriber_record c) (loop_id CLAIM_INFORMATION) in
    getitem_last claims.

(** Returns the current claim service line for the patient (either
    subscriber or dependent) *)
Definition _get_service_line : M value :=
  let* claim := _get_claim in
  let* lines := getitem claim (loop_id CLAIM_SERVICE_LINE) in
  getitem_last lines.

(** Sets the Billing Provider Loop 2000A; matches HL with
    hierarchical_level_code 20. *)
Definition set_billing_provider_loop (segment_data : value) : M unit :=
  let* c := get_context in
  let* present := contains (loop_id BILLING_PROVIDER) (transaction_data c) in
  (if negb present then
     let* providers := new_list [] in
     setitem (transaction_data c) (loop_id BILLING_PROVIDER) providers
   else ret tt) ;;
  let* providers := getitem (transaction_data c) (loop_id BILLING_PROVIDER) in
  let* fresh := new_dict [] in
  append providers fresh ;;
  let* providers := getitem (transaction_data c) (loop_id BILLING_PROVIDER) in
  let* billing_provider_loop := getitem_last providers in
  set_loop_context BILLING_PROVIDER billing_provider_loop.

(** Sets the Billing Provider Name Loop 2010AA; matches NM1 with
    entity_identifier_code 85. *)
Definition set_billing_provider_name_loop (segment_data : value) : M unit :=
  let* c := get_context in
  if eq_str (loop_name c) (loop_id BILLING_PROVIDER) then
    let* billing_provider := _get_billing_provider in
    let* present :=
      contains (loop_id BILLING_PROVIDER_NAME) billing_provider in
    (if negb present then
       let* refs := new_list [] in
       let* pers := new_list [] in
       let* fresh := new_dict [("ref_segment", refs); ("per_segment", pers)] in
       setitem billing_provider (loop_id BILLING_PROVIDER_NAME) fresh
     else ret tt) ;;
    let* billing_provider_name_loop :=
      getitem billing_provider (loop_id BILLING_PROVIDER_NAME) in
    set_loop_context BILLING_PROVIDER_NAME billing_provider_name_loop
  else ret tt.

(** Sets the Billing Provider Pay to Address Name Loop 2010AB; matches NM1
    with entity_identifier_code 87. *)
Definition set_pay_to_address_name_loop (segment_data : value) : M unit :=
  let* c := get_context in
  let* in_2010a := contains "loop_2010a" (loop_name c) in
  if in_2010a then
    let* billing_provider := _get_billing_provider in
    let* present :=
      contains (loop_id BILLING_PROVIDER_PAY_TO_ADDRESS) billing_provider in
    if negb present then
      let* refs := new_list [] in
      let* pers := new_list [] in
      let* fresh := new_dict [("ref_segment", refs); ("per_segment", pers)] in
      setitem billing_provider (loop_id BILLING_PROVIDER_PAY_TO_ADDRESS) fresh ;;
      let* pay_to_address_loop :=
        getitem billing_provider (loop_id BILLING_PROVIDER_PAY_TO_ADDRESS) in
      set_loop_context BILLING_PROVIDER_PAY_TO_ADDRESS pay_to_address_loop
    else ret tt
  else ret tt.

(** Sets the subscriber loop 2000B; matches HL with
    hierarchical_level_code 22. *)
Definition set_subscriber_loop (segment_data : value) : M unit :=
  let* billing_provider := _get_billing_provider in
  let* present := contains (loop_id SUBSCRIBER) billing_provider in
  (if negb present then
     let* subscribers := new_list [] in
     setitem billing_provider (loop_id SUBSCRIBER) subscribers
   else ret tt) ;;
  let* subscribers := getitem billing_provider (loop_id SUBSCRIBER) in
  let* fresh := new_dict [] in
  append subscribers fresh ;;
  let* subscribers := getitem billing_provider (loop_id SUBSCRIBER) in
  let* subscriber := getitem_last subscribers in
  set_subscriber_record subscriber ;;
  let* c := get_context in
  set_loop_context SUBSCRIBER (subscriber_record c) ;;
  let* c := get_context in
  let* child_code := dict_get (hl_segment c) "hierarchical_child_code" in
  if eq_str (default (VStr "0") child_code) "0" then
    set_patient_record (subscriber_record c)
  else ret tt.

(** Sets the subscriber name loop 2010BA; matches NM1 with
    entity_identifier_code IL. *)
Definition set_subscriber_name_loop (segment_data : value) : M unit :=
  let* c := get_context in
  if eq_str (loop_name c) (loop_id SUBSCRIBER) then
    let* present := contains (loop_id SUBSCRIBER_NAME) (subscriber_record c) in
    (if negb present then
       let* refs := new_list [] in
       let* fresh := new_dict [("ref_segment", refs)] in
       setitem (subscriber_record c) (loop_id SUBSCRIBER_NAME) fresh
     else ret tt) ;;
    let* subscriber_name_loop :=
      getitem (subscriber_record c) (loop_id SUBSCRIBER_NAME) in
    set_loop_context SUBSCRIBER_NAME subscriber_name_loop
  else ret tt.

(** Sets the subscriber payer name loop 2010BB; matches NM1 with
    entity_identifier_code PR. *)
Definition set_subscriber_payer_name_loop (segment_data : value) : M unit :=
  let* c := get_context in
  if eq_str (loop_name c) (loop_id SUBSCRIBER_NAME) then
    let* present :=
      contains (loop_id SUBSCRIBER_PAYER_NAME) (subscriber_record c) in
    (if negb present then
       let* refs := new_list [] in
       let* fresh := new_dict [("ref_segment", refs)] in
       setitem (subscriber_record c) (loop_id SUBSCRIBER_PAYER_NAME) fresh
     else ret tt) ;;
    let* subscriber_payer_name_loop :=
      getitem (subscriber_record c) (loop_id SUBSCRIBER_PAYER_NAME) in
    set_loop_context SUBSCRIBER_NAME subscriber_payer_name_loop
  else ret tt.

(** Sets the patient loop 2000C; matches HL with
    hierarchical_level_code 23. *)
Definition set_patient_loop (segment_data : value) : M unit :=
  let* c := get_context in
  let* present := contains (loop_id PATIENT_LOOP) (subscriber_record c) in
  (if negb present then
     let* patients := new_list [] in
     setitem (subscriber_record c) (loop_id PATIENT_LOOP) patients
   else ret tt) ;;
  let* patients := getitem (subscriber_record c) (loop_id PATIENT_LOOP) in
  let* fresh := new_dict [] in
  append patients fresh ;;
  let* patients := getitem (subscriber_record c) (loop_id PATIENT_LOOP) in
  let* patient := getitem_last patients in
  set_patient_record patient ;;
  let* c := get_context in
  set_loop_context PATIENT_LOOP (patient_record c).

(** Sets the claim loop 2300; matches CLM. *)
Definition set_claim_loop (segment_data : value) : M unit :=
  let* c := get_context in
  let* present := contains (loop_id CLAIM_INFORMATION) (patient_record c) in
  (if negb present then
     let* claims := new_list [] in
     setitem (patient_record c) (loop_id CLAIM_INFORMATION) claims
   else ret tt) ;;
  let* claims := getitem (patient_record c) (loop_id CLAIM_INFORMATION) in
  let* dtp := new_list [] in
  let* pwk := new_list [] in
  let* refs := new_list [] in
  let* k3 := new_list [] in
  let* crc := new_list [] in
  let* hi := new_list [] in
  let* fresh :=
    new_dict [("dtp_segment", dtp); ("pwk_segment", pwk); ("ref_segment", refs);
              ("k3_segment", k3); ("crc_segment", crc); ("hi_segment", hi)] in
  append claims fresh ;;
  let* claims := getitem (patient_record c) (loop_id CLAIM_INFORMATION) in
  let* claim_loop := getitem_last claims in
  set_loop_context CLAIM_INFORMATION claim_loop.

(** [a != b] on members of the enumeration compares their strings. *)
Definition loop_eqb (a b : TransactionLoops) : bool :=
  String.eqb (loop_id a) (loop_id b).

(** Sets the "entity" loops within the 2300 claims loop; matches NM1 with
    entity_identifier_code DN, P3, 82, 77 or DQ. *)
Definition set_claim_entity_loop (segment_data : value) : M unit :=
  let* c := get_context in
  let* in_2300 := contains "loop_2300" (loop_name c) in
  let* guard :=
    (if in_2300 then ret true else contains "loop_2310" (loop_name c)) in
  if guard then
    let* found := dict_get segment_data "entity_identifier_code" in
    let identifier := default VNone found in
    let loop_name :=
      if eq_str identifier "DN" || eq_str identifier "P3"
      then Some CLAIM_REFERRING_PROVIDER_NAME
      else if eq_str identifier "82" then Some CLAIM_RENDERING_PROVIDER_NAME
      else if eq_str identifier "77"
      then Some CLAIM_SERVICE_FACILITY_LOCATION_NAME
      else if eq_str identifier "DQ" then Some CLAIM_SUPERVISING_PROVIDER_NAME
      else None in
    match loop_name with
    | None => raise ValueError
    | Some loop_name =>
        if negb (truthy_str (loop_id loop_name)) then raise ValueError else
        let* claim := _get_claim in
        let* present := contains (loop_id loop_name) claim in
        (if negb present then
           if negb (loop_eqb loop_name CLAIM_REFERRING_PROVIDER_NAME) then
             let* refs := new_list [] in
             let* fresh := new_dict [("ref_segment", refs)] in
             setitem claim (loop_id loop_name) fresh
           else
             let* nm1s := new_list [] in
             let* refs := new_list [] in
             let* fresh :=
               new_dict [("nm1_segment", nm1s); ("ref_segment", refs)] in
             setitem claim (loop_id loop_name) fresh
         else ret tt) ;;
        let* loop_record := getitem claim (loop_id loop_name) in
        set_loop_context loop_name loop_record
    end
  else ret tt.

(** Sets the claim service line loop 2400; matches LX. *)
Definition set_service_line_loop (segment_data : value) : M unit :=
  let* claim := _get_claim in
  let* present := contains (loop_id CLAIM_SERVICE_LINE) claim in
  (if negb present then
     let* lines := new_list [] in
     setitem claim (loop_id CLAIM_SERVICE_LINE) lines
   else ret tt) ;;
  let* lines := getitem claim (loop_id CLAIM_SERVICE_LINE) in
  let* pwk := new_list [] in
  let* crc := new_list [] in
  let* dtp := new_list [] in
  let* qty := new_list [] in
  let* mea := new_list [] in
  let* refs := new_list [] in
  let* amt := new_list [] in
  let* k3 := new_list [] in
  let* nte := new_list [] in
  let* fresh :=
    new_dict [("pwk_segment", pwk); ("crc_segment", crc); ("dtp_segment", dtp);
              ("qty_segment", qty); ("mea_segment", mea); ("ref_segment", refs);
              ("amt_segment", amt); ("k3_segment", k3); ("nte_segment", nte)] in
  append lines fresh ;;
  let* lines := getitem claim (loop_id CLAIM_SERVICE_LINE) in
  let* service_line_loop := getitem_last lines in
  set_loop_context CLAIM_SERVICE_LINE service_line_loop.

(** Sets the entities within the service line loop 2400; matches NM1 with
    entity_identifier_code 82, QB, 77, DQ, DK, DN or P3. *)
Definition set_service_line_entities_loop (segment_data : value) : M unit :=
  let* c := get_context in
  let* in_24 := contains "loop_24" (loop_name c) in
  if in_24 then
    let* found := dict_get segment_data "entity_identifier_code" in
    let identifier := default VNone found in
    let loop_name :=
      if eq_str identifier "82"
      then Some CLAIM_SERVICE_LINE_RENDERING_PROVIDER_NAME
      else if eq_str identifier "QB"
      then Some CLAIM_SERVICE_LINE_PURCHASED_SERVICE_PROVIDER_NAME
      else if eq_str identifier "77"
      then Some CLAIM_SERVICE_LINE_SERVICE_FACILITY_LOCATION_NAME
      else if eq_str identifier "DQ"
      then Some CLAIM_SERVICE_LINE_SUPERVISING_PROVIDER_NAME
      else if eq_str identifier "DK"
      then Some CLAIM_SERVICE_LINE_ORDERING_PROVIDER_NAME
      else if eq_str identifier "DN" || eq_str identifier "P3"
      then Some CLAIM_SERVICE_LINE_REFERRING_PROVIDER_NAME
      else None in
    match loop_name with
    | None => raise ValueError
    | Some loop_name =>
        if negb (truthy_str (loop_id loop_name)) then raise ValueError else
        let* service_line := _get_service_line in
        let* refs := new_list [] in
        let* fresh := new_dict [("ref_segment", refs)] in
        setitem service_line (loop_id loop_name) fresh ;;
        let* loop_record := getitem service_line (loop_id loop_name) in
        set_loop_context loop_name loop_record
    end
  else ret tt.

(** Sets service line adjudication loop 2430; matches SVD.  The condition
    of the source's [if] is the enumeration member itself. *)
Definition set_service_line_adjudication_loop (segment_data : value) : M unit :=
  let* service_line := _get_service_line in
  (if truthy_str (loop_id CLAIM_SERVICE_LINE_LINE_ADJUDICATION_INFORMATION) then
     let* adjudications := new_list [] in
     setitem service_line
       (loop_id CLAIM_SERVICE_LINE_LINE_ADJUDICATION_INFORMATION) adjudications
   else ret tt) ;;
  let* adjudications :=
    getitem service_line
      (loop_id CLAIM_SERVICE_LINE_LINE_ADJUDICATION_INFORMATION) in
  let* cas := new_list [] in
  let* fresh := new_dict [("cas_segment", cas)] in
  append adjudications fresh ;;
  let* adjudications :=
    getitem service_line
      (loop_id CLAIM_SERVICE_LINE_LINE_ADJUDICATION_INFORMATION) in
  let* adjudication_loop := getitem_last adjudications in
  set_loop_context CLAIM_SERVICE_LINE_LINE_ADJUDICATION_INFORMATION
    adjudication_loop.

(** Handle [n] consecutive segments with the same handler. *)
Fixpoint repeat_handler (n : nat) (handler : value -> M unit)
  (segment_data : value) : M unit :=
  match n with
  | O => ret tt
  | S n' => handler segment_data ;; repeat_handler n' handler segment_data
  end.

(** The number of entries of the list held under [key] in the dictionary
    [container]. *)
Definition entries_under (container : value) (key : string) (st : state)
  : option nat :=
  match container with
  | VRef l =>
      match store st !! l with
      | Some (ODict d) =>
          match d !! key with
          | Some (VRef l') =>
              match store st !! l' with
              | Some (OList xs) => Some (length xs)
              | _ => None
              end
          | _ => None
          end
      | _ => None
      end
  | _ => None
  end.

(** The guards of the two handlers an NM1 segment with the qualifier DN
    reaches, as conditions on the current loop name. *)
Definition claim_entity_guard (name : string) : bool :=
  is_substring "loop_2300" name || is_substring "loop_2310" name.

Definition service_line_entity_guard (name : string) : bool :=
  is_substring "loop_24" name.

(** The body of [_get_claim] once the two shortcuts are read. *)
Definition claim_of (patient subscriber : value) : M value :=
  let* dependent := _is_patient_a_dependent patient in
  let* from_patient :=
    (if dependent then ret true
     else let* present := contains (loop_id CLAIM_INFORMATION) subscriber in
          ret (negb present)) in
  if from_patient then
    let* claims := getitem patient (loop_id CLAIM_INFORMATION) in
    getitem_last claims
  else
    let* claims := getitem subscriber (loop_id CLAIM_INFORMATION) in
    getitem_last claims.

(** [frame k h h']: every list of [h] is unchanged in [h'], and every
    dictionary of [h] is still a dictionary that agrees with it on all keys
    but [k]. *)
Definition frame (k : string) (h h' : list object) : Prop :=
  forall l o, h !! l = Some o ->
    match o with
    | OList xs => h' !! l = Some (OList xs)
    | ODict d =>
        exists d', h' !! l = Some (ODict d')
                   /\ forall k', k' <> k -> d' !! k' = d !! k'
    end.

(** [m] leaves the state alone, and gives the same result in any state
    whose store frames the one it ran in. *)
Definition stable_read {A} (k : string) (m : M A) : Prop :=
  forall c h a st', m (mk_state c h) = inr (a, st') ->
    st' = mk_state c h
    /\ forall c' h', frame k h h' ->
         m (mk_state c' h') = inr (a, mk_state c' h').

(** *** A document tree in the middle of a transaction

    One billing provider with its name and pay-to-address loops, one
    subscriber who is the patient, one claim with one service line, and the
    NM1 segment being handled. *)
Definition example_store : list object :=
  [ (* 0: transaction data *)
    ODict (list_to_map [("loop_2000a", VRef 1)]);
    (* 1: billing providers *)
    OList [VRef 2];
    (* 2: billing provider *)
    ODict (list_to_map [("loop_2010aa", VRef 3); ("loop_2010ab", VRef 4);
                        ("loop_2000b", VRef 5)]);
    (* 3: billing provider name, 4: pay-to address *)
    ODict ∅;
    ODict ∅;
    (* 5: subscribers *)
    OList [VRef 6];
    (* 6: subscriber *)
    ODict (list_to_map [("hl_segment", VRef 7); ("loop_2010ba", VRef 8);
                        ("loop_2300", VRef 9)]);
    (* 7: the HL segment of the subscriber *)
    ODict (list_to_map [("hierarchical_id_number", VStr "2");
                        ("hierarchical_parent_id_number", VStr "1");
                        ("hierarchical_level_code", VStr "22");
                        ("hierarchical_child_code", VStr "0")]);
    (* 8: subscriber name *)
    ODict ∅;
    (* 9: claims *)
    OList [VRef 10];
    (* 10: claim *)
    ODict (list_to_map [("loop_2400", VRef 11)]);
    (* 11: service lines *)
    OList [VRef 12];
    (* 12: service line *)
    ODict ∅;
    (* 13: NM1*DN segment *)
    ODict (list_to_map [("entity_identifier_code", VStr "DN")]) ].

(** The cursor on loop [name], whose node is at [container]. *)
Definition example_state (name : TransactionLoops) (container : loc) : state :=
  mk_state
    (mk_context (VStr (loop_id name)) (VRef container) (VRef 0) (VRef 6)
       (VRef 6) (VRef 7))
    example_store.

(** The state after ST: an empty header and footer, no shortcut set; the
    cached HL segment is the one of a subscriber without dependents. *)
Definition initial_state : state :=
  mk_state
    (mk_context (VStr (loop_id HEADER)) (VRef 1) (VRef 0) VNone VNone (VRef 3))
    [ ODict (list_to_map [("header", VRef 1); ("footer", VRef 2)]);
      ODict ∅;
      ODict ∅;
      ODict (list_to_map [("hierarchical_level_code", VStr "22");
                          ("hierarchical_child_code", VStr "0")]) ].

(** *** The other handlers of the module *)

(** Returns the 837 transaction header *)
Definition _get_header : M value :=
  let* c := get_context in
  getitem (transaction_data c) (loop_id HEADER).

(** Returns the other subscriber record for the current healthcare claim:
    [claim.get(loop_2320, [{}])[-1]]; the default list and its dictionary
    are built before the lookup. *)
Definition _get_other_subscriber : M value :=
  let* claim := _get_claim in
  let* empty := new_dict [] in
  let* fallback := new_list [empty] in
  let* found :=
    dict_get claim (loop_id CLAIM_OTHER_SUBSCRIBER_INFORMATION) in
  getitem_last (default fallback found).

(** Sets the transaction set header loop; matches ST. *)
Definition set_header_loop (segment_data : value) : M unit :=
  let* c := get_context in
  let* header := getitem (transaction_data c) (loop_id HEADER) in
  set_loop_context HEADER header.

(** Set the Header Submitter Name Loop 1000A; matches NM1 with
    entity_identifier_code 41. *)
Definition set_submitter_name_loop (segment_data : value) : M unit :=
  let* c := get_context in
  if eq_str (loop_name c) (loop_id HEADER) then
    let* pers := new_list [] in
    let* fresh := new_dict [("per_segment", pers)] in
    setitem (transaction_data c) (loop_id SUBMITTER_NAME) fresh ;;
    let* submitter_loop :=
      getitem (transaction_data c) (loop_id SUBMITTER_NAME) in
    set_loop_context SUBMITTER_NAME submitter_loop
  else ret tt.

(** Set the Header Receiver Name Loop 1000B; matches NM1 with
    entity_identifier_code 40. *)
Definition set_receiver_name_loop (segment_data : value) : M unit :=
  let* c := get_context in
  if eq_str (loop_name c) (loop_id SUBMITTER_NAME) then
    let* fresh := new_dict [] in
    setitem (transaction_data c) (loop_id RECEIVER_NAME) fresh ;;
    let* receiver_loop :=
      getitem (transaction_data c) (loop_id RECEIVER_NAME) in
    set_loop_context RECEIVER_NAME receiver_loop
  else ret tt.

(** Sets the Billing Provider Pay to Plan Name Loop 2010AC; matches NM1
    with entity_identifier_code PE. *)
Definition set_pay_to_plan_name_loop (segment_data : value) : M unit :=
  let* c := get_context in
  let* in_2010a := contains "loop_2010a" (loop_name c) in
  if in_2010a then
    let* billing_provider := _get_billing_provider in
    let* present :=
      contains (loop_id BILLING_PROVIDER_PAY_TO_PLAN_NAME) billing_provider in
    if negb present then
      let* refs := new_list [] in
      let* fresh := new_dict [("ref_segment", refs)] in
      setitem billing_provider (loop_id BILLING_PROVIDER_PAY_TO_PLAN_NAME)
        fresh ;;
      let* pay_to_plan_loop :=
        getitem billing_provider (loop_id BILLING_PROVIDER_PAY_TO_PLAN_NAME) in
      set_loop_context BILLING_PROVIDER_PAY_TO_PLAN_NAME pay_to_plan_loop
    else ret tt
  else ret tt.

(** Sets the patient name loop 2010CA; matches NM1 with
    entity_identifier_code QC. *)
Definition set_patient_name_loop (segment_data : value) : M unit :=
  let* c := get_context in
  let* refs := new_list [] in
  let* fresh := new_dict [("ref_segment", refs)] in
  setitem (patient_record c) (loop_id PATIENT_LOOP_NAME) fresh ;;
  let* patient_name_loop :=
    getitem (patient_record c) (loop_id PATIENT_LOOP_NAME) in
  set_loop_context PATIENT_LOOP_NAME patient_name_loop.

(** Sets the claim (loop 2300) ambulance loops 2310E and 2310F; matches NM1
    with entity_identifier_code PW or 45. *)
Definition set_ambulance_loop (segment_data : value) : M unit :=
  let* c := get_context in
  let* in_23 := contains "loop_23" (loop_name c) in
  if in_23 then
    let* claim := _get_claim in
    let* found := dict_get segment_data "entity_identifier_code" in
    let identifier := default VNone found in
    let loop_name :=
      if eq_str identifier "PW" then CLAIM_AMBULANCE_PICKUP_LOCATION
      else CLAIM_AMBULANCE_DROPOFF_LOCATION in
    let* fresh := new_dict [] in
    setitem claim (loop_id loop_name) fresh ;;
    let* loop_record := getitem claim (loop_id loop_name) in
    set_loop_context loop_name loop_record
  else ret tt.

(** Sets the claim other subscriber loop 2320; matches SBR. *)
Definition set_other_subscriber_loop (segment_data : value) : M unit :=
  let* c := get_context in
  let* in_23 := contains "loop_23" (loop_name c) in
  if in_23 then
    let* claim := _get_claim in
    let* present :=
      contains (loop_id CLAIM_OTHER_SUBSCRIBER_INFORMATION) claim in
    (if negb present then
       let* others := new_list [] in
       setitem claim (loop_id CLAIM_OTHER_SUBSCRIBER_INFORMATION) others
     else ret tt) ;;
    let* others :=
      getitem claim (loop_id CLAIM_OTHER_SUBSCRIBER_INFORMATION) in
    let* cas := new_list [] in
    let* amt := new_list [] in
    let* fresh := new_dict [("cas_segment", cas); ("amt_segment", amt)] in
    append others fresh ;;
    let* others :=
      getitem claim (loop_id CLAIM_OTHER_SUBSCRIBER_INFORMATION) in
    let* other_subscriber_loop := getitem_last others in
    set_loop_context CLAIM_OTHER_SUBSCRIBER_INFORMATION other_subscriber_loop
  else ret tt.

(** Sets the claim other subscriber name loop 2330A; matches NM1 with
    entity_identifier_code IL. *)
Definition set_other_subscriber_name_loop (segment_data : value) : M unit :=
  let* c := get_context in
  if eq_str (loop_name c) (loop_id CLAIM_OTHER_SUBSCRIBER_INFORMATION) then
    let* other_subscriber := _get_other_subscriber in
    let* fresh := new_dict [] in
    setitem other_subscriber (loop_id CLAIM_OTHER_SUBSCRIBER_NAME) fresh ;;
    let* other_subscriber_name :=
      getitem other_subscriber (loop_id CLAIM_OTHER_SUBSCRIBER_NAME) in
    set_loop_context CLAIM_OTHER_SUBSCRIBER_NAME other_subscriber_name
  else ret tt.

(** Sets the other subscriber entities within the claim 2300 loop; matches
    NM1 with entity_identifier_code PR, DN, P3, 82, 77, DQ or 85. *)
Definition set_other_subscriber_entities_loop (segment_data : value)
  : M unit :=
  let* c := get_context in
  let* in_2320 := contains "loop_2320" (loop_name c) in
  let* guard :=
    (if in_2320 then ret true else contains "loop_2330" (loop_name c)) in
  if guard then
    let* found := dict_get segment_data "entity_identifier_code" in
    let identifier := default VNone found in
    let loop_name :=
      if eq_str identifier "PR"
      then Some CLAIM_OTHER_SUBSCRIBER_OTHER_PAYER_NAME
      else if eq_str identifier "DN" || eq_str identifier "P3"
      then Some CLAIM_OTHER_SUBSCRIBER_OTHER_PAYER_REFERRING_PROVIDER_NAME
      else if eq_str identifier "82"
      then Some CLAIM_OTHER_SUBSCRIBER_OTHER_PAYER_RENDERING_PROVIDER_NAME
      else if eq_str identifier "77"
      then Some CLAIM_OTHER_SUBSCRIBER_OTHER_PAYER_SERVICE_FACILITY_LOCATION
      else if eq_str identifier "DQ"
      then Some CLAIM_OTHER_SUBSCRIBER_OTHER_PAYER_SUPERVISING_PROVIDER_NAME
      else if eq_str identifier "85"
      then Some CLAIM_OTHER_SUBSCRIBER_OTHER_PAYER_BILLING_PROVIDER_NAME
      else None in
    match loop_name with
    | None => raise ValueError
    | Some loop_name =>
        if negb (truthy_str (loop_id loop_name)) then raise ValueError else
        let* other_subscriber := _get_other_subscriber in
        let* refs := new_list [] in
        let* fresh := new_dict [("ref_segment", refs)] in
        setitem other_subscriber (loop_id loop_name) fresh ;;
        let* loop_record := getitem other_subscriber (loop_id loop_name) in
        set_loop_context loop_name loop_record
    end
  else ret tt.

(** Sets the service line drug identification loop 2410; matches LIN. *)
Definition set_drug_identification_loop (segment_data : value) : M unit :=
  let* c := get_context in
  let* in_24 := contains "loop_24" (loop_name c) in
  if in_24 then
    let* service_line := _get_service_line in
    let* fresh := new_dict [] in
    setitem service_line
      (loop_id CLAIM_SERVICE_LINE_DRUG_IDENTIFICATION_NAME) fresh ;;
    let* loop_record :=
      getitem service_line
        (loop_id CLAIM_SERVICE_LINE_DRUG_IDENTIFICATION_NAME) in
    set_loop_context CLAIM_SERVICE_LINE_DRUG_IDENTIFICATION_NAME loop_record
  else ret tt.

(** Sets the service line (loop 2400) ambulance loops 2420G and 2420H;
    matches NM1 with entity_identifier_code PW or 45. *)
Definition set_ambulance_service_line_loop (segment_data : value) : M unit :=
  let* c := get_context in
  let* in_24 := contains "loop_24" (loop_name c) in
  if in_24 then
    let* service_line := _get_service_line in
    let* found := dict_get segment_data "entity_identifier_code" in
    let identifier := default VNone found in
    let loop_name :=
      if eq_str identifier "PW"
      then CLAIM_SERVICE_LINE_AMBULANCE_PICKUP_LOCATION
      else CLAIM_SERVICE_LINE_AMBULANCE_DROPOFF_LOCATION in
    let* fresh := new_dict [] in
    setitem service_line (loop_id loop_name) fresh ;;
    let* loop_record := getitem service_line (loop_id loop_name) in
    set_loop_context loop_name loop_record
  else ret tt.

(** Sets the form identification loop; matches LQ. *)
Definition set_form_identification_loop (segment_data : value) : M unit :=
  let* service_line := _get_service_line in
  let loop_name := CLAIM_SERVICE_LINE_LINE_FORM_IDENTIFICATION in
  let* frm := new_list [] in
  let* loop_data := new_dict [("frm_segment", frm)] in
  let* present := contains (loop_id loop_name) service_line in
  (if negb present then
     let* forms := new_list [loop_data] in
     setitem service_line (loop_id loop_name) forms
   else
     let* forms := getitem service_line (loop_id loop_name) in
     append forms loop_data) ;;
  let* forms := getitem service_line (loop_id loop_name) in
  let* loop_record := getitem_last forms in
  set_loop_context loop_name loop_record.

(** Sets the transaction set footer loop; matches SE. *)
Definition set_se_loop (segment_data : value) : M unit :=
  let* c := get_context in
  let* footer := getitem (transaction_data c) "footer" in
  set_loop_context FOOTER footer.

(** The guards of the remaining handlers an NM1 segment reaches. *)
Definition other_subscriber_entity_guard (name : string) : bool :=
  is_substring "loop_2320" name || is_substring "loop_2330" name.

Definition claim_ambulance_guard (name : string) : bool :=
  is_substring "loop_23" name.

(** The loop each qualifier opens on the claim, with the segment lists its
    record starts with. *)
Definition claim_entity_loops : list (string * TransactionLoops) :=
  [ ("DN", CLAIM_REFERRING_PROVIDER_NAME);
    ("P3", CLAIM_REFERRING_PROVIDER_NAME);
    ("82", CLAIM_RENDERING_PROVIDER_NAME);
    ("77", CLAIM_SERVICE_FACILITY_LOCATION_NAME);
    ("DQ", CLAIM_SUPERVISING_PROVIDER_NAME) ].

(** The loop each qualifier opens on the service line. *)
Definition service_line_entity_loops : list (string * TransactionLoops) :=
  [ ("82", CLAIM_SERVICE_LINE_RENDERING_PROVIDER_NAME);
    ("QB", CLAIM_SERVICE_LINE_PURCHASED_SERVICE_PROVIDER_NAME);
    ("77", CLAIM_SERVICE_LINE_SERVICE_FACILITY_LOCATION_NAME);
    ("DQ", CLAIM_SERVICE_LINE_SUPERVISING_PROVIDER_NAME);
    ("DK", CLAIM_SERVICE_LINE_ORDERING_PROVIDER_NAME);
    ("DN", CLAIM_SERVICE_LINE_REFERRING_PROVIDER_NAME);
    ("P3", CLAIM_SERVICE_LINE_REFERRING_PROVIDER_NAME) ].

(** The loop each qualifier opens on the current other subscriber. *)
Definition other_subscriber_entity_loops : list (string * TransactionLoops) :=
  [ ("PR", CLAIM_OTHER_SUBSCRIBER_OTHER_PAYER_NAME);
    ("DN", CLAIM_OTHER_SUBSCRIBER_OTHER_PAYER_REFERRING_PROVIDER_NAME);
    ("P3", CLAIM_OTHER_SUBSCRIBER_OTHER_PAYER_REFERRING_PROVIDER_NAME);
    ("82", CLAIM_OTHER_SUBSCRIBER_OTHER_PAYER_RENDERING_PROVIDER_NAME);
    ("77", CLAIM_OTHER_SUBSCRIBER_OTHER_PAYER_SERVICE_FACILITY_LOCATION);
    ("DQ", CLAIM_OTHER_SUBSCRIBER_OTHER_PAYER_SUPERVISING_PROVIDER_NAME);
    ("85", CLAIM_OTHER_SUBSCRIBER_OTHER_PAYER_BILLING_PROVIDER_NAME) ].

(** The segment's entity_identifier_code is none of the qualifiers of
    [table]: it is missing, not a string, or another string. *)
Definition unmapped_identifier (table : list (string * TransactionLoops))
  (segment : gmap string value) : Prop :=
  forall q, In q (map fst table) ->
            segment !! "entity_identifier_code" <> Some (VStr q).

(** What [_is_patient_a_dependent] answers for a patient record, read off
    the store: [None] where it raises. *)
Definition dependent_flag (h : list object) (record : gmap string value)
  : option bool :=
  match record !! "hl_segment" with
  | None => Some false
  | Some (VRef hl) =>
      match h !! hl with
      | Some (ODict hd) =>
          Some (eq_str (default VNone (hd !! "hierarchical_level_code")) "23")
      | _ => None
      end
  | Some _ => None
  end.

(** *** A document tree with a dependent patient

    One billing provider, a subscriber with a dependent, and the
    dependent's claim. *)
Definition dependent_store : list object :=
  [ (* 0: transaction data *)
    ODict (list_to_map [("loop_2000a", VRef 1)]);
    (* 1: billing providers, 2: billing provider *)
    OList [VRef 2];
    ODict (list_to_map [("loop_2000b", VRef 3)]);
    (* 3: subscribers, 4: subscriber *)
    OList [VRef 4];
    ODict (list_to_map [("hl_segment", VRef 5); ("loop_2000c", VRef 6)]);
    (* 5: the HL segment of the subscriber *)
    ODict (list_to_map [("hierarchical_level_code", VStr "22");
                        ("hierarchical_child_code", VStr "1")]);
    (* 6: patients, 7: patient *)
    OList [VRef 7];
    ODict (list_to_map [("hl_segment", VRef 8); ("loop_2300", VRef 9)]);
    (* 8: the HL segment of the patient *)
    ODict (list_to_map [("hierarchical_level_code", VStr "23");
                        ("hierarchical_child_code", VStr "0")]);
    (* 9: claims of the patient, 10: claim *)
    OList [VRef 10];
    ODict ∅ ].

(** The cursor on loop [name] at [container], with [hl] the cached HL
    segment. *)
Definition dependent_state (name : TransactionLoops) (container hl : loc)
  : state :=
  mk_state
    (mk_context (VStr (loop_id name)) (VRef container) (VRef 0) (VRef 4)
       (VRef 7) (VRef hl))
    dependent_store.

(** *** A document tree with a claim in progress

    A subscriber who is the patient, with one claim that already has a
    rendering provider, two other subscribers and one service line; the
    last four objects are NM1 segments. *)
Definition claim_store : list object :=
  [ (* 0: transaction data *)
    ODict (list_to_map [("header", VRef 21); ("loop_2000a", VRef 1)]);
    (* 1: billing providers, 2: billing provider *)
    OList [VRef 2];
    ODict (list_to_map [("loop_2000b", VRef 3)]);
    (* 3: subscribers, 4: subscriber *)
    OList [VRef 4];
    ODict (list_to_map [("hl_segment", VRef 5); ("loop_2300", VRef 6)]);
    (* 5: the HL segment of the subscriber *)
    ODict (list_to_map [("hierarchical_level_code", VStr "22");
                        ("hierarchical_child_code", VStr "0")]);
    (* 6: claims, 7: claim *)
    OList [VRef 7];
    ODict (list_to_map [("loop_2310b", VRef 8); ("loop_2320", VRef 9);
                        ("loop_2400", VRef 12)]);
    (* 8: rendering provider of the claim *)
    ODict (list_to_map [("ref_segment", VRef 16)]);
    (* 9: other subscribers, 10 and 11: other subscriber *)
    OList [VRef 10; VRef 11];
    ODict ∅;
    ODict ∅;
    (* 12: service lines, 13: service line *)
    OList [VRef 13];
    ODict (list_to_map [("loop_2420a", VRef 14); ("loop_2440", VRef 15)]);
    (* 14: rendering provider of the service line *)
    ODict ∅;
    (* 15: form identifications, 16: REF segments of the rendering provider *)
    OList [];
    OList [VStr "REF"];
    (* 17: NM1*82, 18: NM1*ZZ, 19: NM1 without a qualifier, 20: NM1*PW *)
    ODict (list_to_map [("entity_identifier_code", VStr "82")]);
    ODict (list_to_map [("entity_identifier_code", VStr "ZZ")]);
    ODict ∅;
    ODict (list_to_map [("entity_identifier_code", VStr "PW")]);
    (* 21: header *)
    ODict ∅ ].

(** The cursor on loop [name], whose node is at [container]. *)
Definition claim_state (name : TransactionLoops) (container : loc) : state :=
  mk_state
    (mk_context (VStr (loop_id name)) (VRef container) (VRef 0) (VRef 4)
       (VRef 4) (VRef 5))
    claim_store.

End Parsing.

(** *** Segments produced under the delimiters | ~ # > *)

Definition nm1_with_bar_delimiters : Models.X12Segment :=
  Models.mk_segment (Some (Models.mk_delimiters "|" "~" "#" ">")) "NM1"
    [ ("entity_identifier_code", Models.FStr "IL");
      ("entity_type_qualifier", Models.FStr "1");
      ("name_last_or_organization_name", Models.FStr "DOE");
      ("name_first", Models.FStr "JOHN");
      ("name_middle", Models.FNone);
      ("name_prefix", Models.FNone);
      ("name_suffix", Models.FNone);
      ("identification_code_qualifier", Models.FNone);
      ("identification_code", Models.FNone) ]
    (list_to_map
       [ ("segment_name", Models.mk_field_info None);
         ("entity_identifier_code", Models.mk_field_info None);
         ("entity_type_qualifier", Models.mk_field_info None);
         ("name_last_or_organization_name", Models.mk_field_info None);
         ("name_first", Models.mk_field_info None);
         ("name_middle", Models.mk_field_info None);
         ("name_prefix", Models.mk_field_info None);
         ("name_suffix", Models.mk_field_info None);
         ("identification_code_qualifier", Models.mk_field_info None);
         ("identification_code", Models.mk_field_info None) ]).

Definition sv1_with_bar_delimiters : Models.X12Segment :=
  Models.mk_segment (Some (Models.mk_delimiters "|" "~" "#" ">")) "SV1"
    [ ("product_service_id_qualifier", Models.FList ["HC"; "99213"]);
      ("line_item_charge_amount",
       Models.FDecimal (Models.mk_decimal false 40 0));
      ("unit_basis_measurement_code", Models.FStr "UN");
      ("service_unit_count", Models.FInt 1) ]
    (list_to_map
       [ ("segment_name", Models.mk_field_info None);
         ("product_service_id_qualifier", Models.mk_field_info (Some true));
         ("line_item_charge_amount", Models.mk_field_info None);
         ("unit_basis_measurement_code", Models.mk_field_info None);
         ("service_unit_count", Models.mk_field_info None) ]).

(* ===================================================================== *)
(** ** Properties of support.py                                           *)
(* ===================================================================== *)

Section SupportProperties.
Import Support.

Lemma versions_table_fixpoints :
  map_Forall (fun _ latest => X12_IMPLEMENTATION_VERSIONS !! latest = Some latest)
    X12_IMPLEMENTATION_VERSIONS.
Proof. apply (bool_decide_unpack _). vm_compute. exact I. Qed.

(** C8: version canonicalization through the alias table is idempotent: the
    latest version of a supported version is its own latest version; and
    the latest version of 005010X221 is 005010X221A1. *)
Theorem get_latest_implementation_version_idempotent (v latest : string) :
  get_latest_implementation_version v = inr latest ->
  get_latest_implementation_version latest = inr latest
  /\ get_latest_implementation_version "005010X221" = inr "005010X221A1".
Proof.
  unfold get_latest_implementation_version. intros Hv. split.
  - destruct (X12_IMPLEMENTATION_VERSIONS !! v) as [w|] eqn:Hlook; [|discriminate].
    injection Hv as ->.
    now rewrite (versions_table_fixpoints _ _ Hlook).
  - vm_compute. reflexivity.
Qed.

Lemma get_latest_implementation_version_idempotent_witness :
  get_latest_implementation_version "005010X222" = inr "005010X222A2"
  /\ get_latest_implementation_version "005010X222A2" = inr "005010X222A2".
Proof.
  split; [vm_compute; reflexivity|].
  apply (get_latest_implementation_version_idempotent "005010X222" "005010X222A2").
  vm_compute. reflexivity.
Defined.

Lemma prefix_ISA (s : string) :
  String.prefix "ISA" s = true <-> exists rest, s = "ISA" +:+ rest.
Proof.
  split.
  - destruct s as [|c1 [|c2 [|c3 rest]]]; cbn [String.prefix];
      try discriminate;
      repeat (destruct (ascii_dec _ _); try discriminate); subst.
    intros _. now exists rest.
  - intros [rest ->]. cbn [String.append String.prefix].
    repeat (destruct (ascii_dec _ _); try congruence).
    now destruct rest.
Qed.

(** C6, as the code has it: is_x12_data returns True exactly when the input
    starts with the three characters ISA, white space not being skipped;
    for None and for the empty string it returns False. *)
Theorem is_x12_data_iff_starts_with_ISA (s : string) :
  (is_x12_data (Some s) = true <-> exists rest, s = "ISA" +:+ rest)
  /\ is_x12_data None = false
  /\ is_x12_data (Some "") = false.
Proof.
  repeat split; try reflexivity.
  - destruct s; [discriminate|]. apply prefix_ISA.
  - intros H. destruct s.
    + destruct H as [rest H]. discriminate.
    + now apply prefix_ISA.
Qed.

(** C6 fails as stated: the first three characters of " ISA" that are not
    white space are ISA, and is_x12_data returns False on it. *)
Lemma is_x12_data_leading_space_counterexample :
  ~ (is_x12_data (Some " ISA") = true
     <-> first_three_non_whitespace_are_ISA " ISA" = true).
Proof. intros [_ H]. specialize (H eq_refl). discriminate H. Qed.

Lemma digit_class_bounds (c : ascii) :
  in_class cc_digit c = true -> 48 <= nat_of_ascii c <= 57.
Proof.
  unfold in_class, cc_digit. simpl fst. simpl snd.
  rewrite andb_true_iff, !Nat.leb_le. lia.
Qed.

(** What [%y] reads off an accepted input: two leading digits. *)
Lemma match_format_y (fmt : list directive) (s : string) (vs : list Z)
  (r : string) :
  match_format (Dir_y :: fmt) s = Some (vs, r) ->
  exists c1 c2 s' vs',
    s = String c1 (String c2 s')
    /\ in_class cc_digit c1 = true /\ in_class cc_digit c2 = true
    /\ vs = int_of_digits 0 (String c1 (String c2 EmptyString)) :: vs'
    /\ match_format fmt s' = Some (vs', r).
Proof.
  cbn [match_format directive_regex first_alternative].
  destruct s as [|c1 [|c2 s']]; cbn [match_classes].
  - discriminate.
  - destruct (in_class cc_digit c1); discriminate.
  - destruct (in_class cc_digit c1) eqn:H1; [|discriminate].
    destruct (in_class cc_digit c2) eqn:H2; [|discriminate].
    destruct (match_format fmt s') as [[vs' r']|] eqn:Hrest; [|discriminate].
    intros [= <- <-]. now exists c1, c2, s', vs'.
Qed.

Lemma two_digits_range (c1 c2 : ascii) :
  in_class cc_digit c1 = true -> in_class cc_digit c2 = true ->
  (0 <= int_of_digits 0 (String c1 (String c2 EmptyString)) < 100)%Z.
Proof.
  intros H1 H2. cbn [int_of_digits]. rewrite H1, H2.
  apply digit_class_bounds in H1, H2. lia.
Qed.

Lemma make_date_year (y m d : Z) (dd : date) :
  make_date y m d = inr dd -> d_year dd = y.
Proof.
  unfold make_date. destruct (_ && _); [|discriminate]. now intros [= <-].
Qed.

(** C7, as the code has it: an accepted six-character interchange date has
    its two-digit year resolved to 20xx when the year value is at most 68
    and to 19xx otherwise (the pivot is 69); 490101 parses to the year 2049
    and 500101 to the year 2050. *)
Theorem parse_interchange_date_century (s : string) (d : date) :
  String.length s = 6 ->
  parse_interchange_date s = inr d ->
  (let yy := int_of_digits 0 (String.substring 0 2 s) in
   (0 <= yy < 100)%Z
   /\ d_year d = if (yy <=? 68)%Z then (2000 + yy)%Z else (1900 + yy)%Z)
  /\ parse_interchange_date "490101" = inr (mk_date 2049 1 1)
  /\ parse_interchange_date "500101" = inr (mk_date 2050 1 1).
Proof.
  intros _ Hparse. split; [|split; reflexivity].
  unfold parse_interchange_date, strptime in Hparse.
  destruct (match_format [Dir_y; Dir_m; Dir_d] s) as [[vs r]|] eqn:Hm;
    [|discriminate].
  apply match_format_y in Hm as (c1 & c2 & s' & vs' & -> & H1 & H2 & -> & Hrest).
  destruct r; [|discriminate].
  assert (Hsub : String.substring 0 2 (String c1 (String c2 s'))
                 = String c1 (String c2 EmptyString)).
  { cbn [String.substring]. now destruct s'. }
  rewrite Hsub. cbv zeta.
  split; [now apply two_digits_range|].
  cbn [match_format directive_regex] in Hrest.
  set (yy := int_of_digits 0 (String c1 (String c2 EmptyString))) in *.
  assert (Hyear : forall vm vd, d_year (dt_date (set_groups [Dir_y; Dir_m; Dir_d]
            (yy :: vm :: vd :: []) (mk_datetime (mk_date 1900 1 1) 0 0)))
            = two_digit_year yy) by reflexivity.
  destruct vs' as [|vm [|vd [|? ?]]];
    cbn [set_groups set_group dt_date d_year d_month d_day dt_hour dt_minute]
      in Hparse;
    match type of Hparse with
    | context [make_date ?y ?m ?dd] =>
        destruct (make_date y m dd) as [e|dd'] eqn:Hmk; [discriminate|];
        apply make_date_year in Hmk
    end;
    injection Hparse as <-; cbn [dt_date] in *; rewrite Hmk;
    unfold two_digit_year; try (destruct (yy <=? 68)%Z; lia).
Qed.

Lemma parse_interchange_date_century_witness :
  (let yy := int_of_digits 0 (String.substring 0 2 "490101") in
   (0 <= yy < 100)%Z
   /\ d_year (mk_date 2049 1 1)
      = if (yy <=? 68)%Z then (2000 + yy)%Z else (1900 + yy)%Z)
  /\ parse_interchange_date "490101" = inr (mk_date 2049 1 1)
  /\ parse_interchange_date "500101" = inr (mk_date 2050 1 1).
Proof.
  apply (parse_interchange_date_century "490101" (mk_date 2049 1 1));
    reflexivity.
Defined.

(** C7 fails as stated: with the pivot at 50 the input 500101 would be the
    year 1950; the code parses it to the year 2050. *)
Lemma parse_interchange_date_pivot_50_counterexample :
  exists d, parse_interchange_date "500101" = inr d
            /\ year_with_pivot_50 50 = 1950%Z
            /\ d_year d <> year_with_pivot_50 50.
Proof. exists (mk_date 2050 1 1). repeat split. discriminate. Qed.

(** C9: parse_x12_date does not raise on ill-sized input: None and the
    empty string give None, a string whose length is none of 4, 6, 8 and 12
    gives None, and a string of length 4 or 6 is returned unchanged. *)
Theorem parse_x12_date_ill_sized (s : string) :
  parse_x12_date None = inr ParsedNone
  /\ parse_x12_date (Some "") = inr ParsedNone
  /\ (String.length s <> 4 -> String.length s <> 6 ->
      String.length s <> 8 -> String.length s <> 12 ->
      parse_x12_date (Some s) = inr ParsedNone)
  /\ (String.length s = 4 \/ String.length s = 6 ->
      parse_x12_date (Some s) = inr (ParsedStr s)).
Proof.
  split; [reflexivity|]. split; [reflexivity|]. split.
  - intros H4 H6 H8 H12. unfold parse_x12_date.
    destruct s as [|c s']; [reflexivity|].
    apply Nat.eqb_neq in H4, H6, H8, H12. now rewrite H4, H6, H8, H12.
  - intros H. unfold parse_x12_date.
    destruct s as [|c s']; [simpl in H; lia|].
    destruct H as [H|H]; rewrite H; reflexivity.
Qed.

Lemma parse_x12_date_ill_sized_witness :
  parse_x12_date (Some "12345") = inr ParsedNone
  /\ parse_x12_date (Some "1200") = inr (ParsedStr "1200")
  /\ parse_x12_date (Some "120000") = inr (ParsedStr "120000").
Proof.
  split; [|split].
  - apply (parse_x12_date_ill_sized "12345"); simpl; lia.
  - apply (parse_x12_date_ill_sized "1200"). left. reflexivity.
  - apply (parse_x12_date_ill_sized "120000"). right. reflexivity.
Defined.

End SupportProperties.

(* --------------------------------------------------------------------- *)
(** *** String facts *)
(* --------------------------------------------------------------------- *)

Section StringFacts.

Lemma append_cons (x : ascii) (a b : string) :
  String x a +:+ b = String x (a +:+ b).
Proof. reflexivity. Qed.

Lemma append_empty_l (a : string) : "" +:+ a = a.
Proof. reflexivity. Qed.

Lemma append_empty_r (a : string) : a +:+ "" = a.
Proof.
  induction a as [|x a IH]; [reflexivity|]. now rewrite append_cons, IH.
Qed.

Lemma append_assoc (a b c : string) : (a +:+ b) +:+ c = a +:+ b +:+ c.
Proof.
  induction a as [|x a IH]; [reflexivity|]. rewrite !append_cons. now f_equal.
Qed.

Lemma length_append (a b : string) :
  String.length (a +:+ b) = String.length a + String.length b.
Proof.
  induction a as [|c a IH]; [reflexivity|].
  rewrite append_cons. cbn [String.length]. now rewrite IH.
Qed.

End StringFacts.

(* --------------------------------------------------------------------- *)
(** *** Versions *)
(* --------------------------------------------------------------------- *)

Section VersionProperties.
Import Support.

Lemma versions_table_same_guide :
  map_Forall (fun requested latest => same_guide requested latest = true)
    X12_IMPLEMENTATION_VERSIONS.
Proof. apply (bool_decide_unpack _). vm_compute. exact I. Qed.

(** X1: Whenever get_latest_implementation_version returns, the latest
    version names the same guide as the requested one: it starts with the
    first ten characters of the requested version, is at least as long, and
    has the same major version, which is 4010 or 5010. *)
Theorem latest_version_keeps_guide (requested latest : string) :
  get_latest_implementation_version requested = inr latest ->
  String.prefix (String.substring 0 10 requested) latest = true
  /\ String.length requested <= String.length latest
  /\ parse_x12_major_version (Some latest)
     = parse_x12_major_version (Some requested)
  /\ (parse_x12_major_version (Some requested) = "4010"
      \/ parse_x12_major_version (Some requested) = "5010").
Proof.
  unfold get_latest_implementation_version. intros H.
  destruct (X12_IMPLEMENTATION_VERSIONS !! requested) as [w|] eqn:Hlook;
    [|discriminate].
  injection H as ->.
  pose proof (versions_table_same_guide _ _ Hlook) as Hg.
  unfold same_guide in Hg.
  apply andb_true_iff in Hg as [Hg Hmajor].
  apply andb_true_iff in Hg as [Hg Heq].
  apply andb_true_iff in Hg as [Hpre Hlen].
  split; [exact Hpre|]. split; [now apply Nat.leb_le|].
  split; [now apply String.eqb_eq|].
  apply orb_true_iff in Hmajor as [Hm|Hm]; apply String.eqb_eq in Hm; auto.
Qed.

Lemma latest_version_keeps_guide_witness :
  String.prefix (String.substring 0 10 "005010X223A1") "005010X223A3" = true
  /\ String.length "005010X223A1" <= String.length "005010X223A3"
  /\ parse_x12_major_version (Some "005010X223A3")
     = parse_x12_major_version (Some "005010X223A1")
  /\ (parse_x12_major_version (Some "005010X223A1") = "4010"
      \/ parse_x12_major_version (Some "005010X223A1") = "5010").
Proof.
  apply (latest_version_keeps_guide "005010X223A1" "005010X223A3").
  vm_compute. reflexivity.
Defined.

Lemma substring_whole (s rest : string) (n : nat) :
  String.length s = n -> String.substring 0 n (s +:+ rest) = s.
Proof.
  intros <-. induction s as [|c s IH]; [now destruct rest|].
  simpl. now f_equal.
Qed.

Lemma substring_skip (a s : string) (k n : nat) :
  String.length a = k ->
  String.substring k n (a +:+ s) = String.substring 0 n s.
Proof.
  intros <-. induction a as [|c a IH]; [reflexivity|]. simpl. exact IH.
Qed.

(** X2: For a version made of two leading characters, four characters and
    any rest, parse_x12_major_version returns exactly the four characters
    (positions 2 to 5), whatever the rest is. *)
Theorem parse_x12_major_version_slice (lead major rest : string) :
  String.length lead = 2 ->
  String.length major = 4 ->
  parse_x12_major_version (Some (lead +:+ major +:+ rest)) = major.
Proof.
  intros Hlead Hmajor. unfold parse_x12_major_version.
  rewrite !length_append, Hlead, Hmajor. cbn [Nat.ltb Nat.leb Nat.add].
  rewrite (substring_skip _ _ _ _ Hlead). now apply substring_whole.
Qed.

Lemma parse_x12_major_version_slice_witness :
  parse_x12_major_version (Some ("00" +:+ "5010" +:+ "X279A1")) = "5010".
Proof.
  apply (parse_x12_major_version_slice "00" "5010" "X279A1"); reflexivity.
Defined.

End VersionProperties.

(* --------------------------------------------------------------------- *)
(** *** What the date parsers return *)
(* --------------------------------------------------------------------- *)

Section DateProperties.
Import Support.

Lemma in_class_bounds (lo hi : nat) (c : ascii) :
  in_class (lo, hi) c = true -> lo <= nat_of_ascii c <= hi.
Proof.
  unfold in_class. cbn [fst snd]. rewrite andb_true_iff, !Nat.leb_le. lia.
Qed.

Lemma in_class_digit_iff (c : ascii) :
  in_class cc_digit c = true <-> 48 <= nat_of_ascii c <= 57.
Proof.
  unfold in_class, cc_digit. cbn [fst snd].
  rewrite andb_true_iff, !Nat.leb_le. lia.
Qed.

Lemma first_alternative_inv {A} (k : string -> string -> option A)
  (alts : list (list char_class)) (s : string) (a : A) :
  first_alternative k alts s = Some a ->
  exists ccs m r, In ccs alts /\ match_classes ccs s = Some (m, r)
                  /\ k m r = Some a.
Proof.
  induction alts as [|ccs alts IH]; [discriminate|].
  cbn [first_alternative].
  destruct (match_classes ccs s) as [[m r]|] eqn:Hm.
  - destruct (k m r) as [a'|] eqn:Hk.
    + intros [= <-]. exists ccs, m, r. repeat split; auto. now left.
    + intros H. destruct (IH H) as (ccs' & m' & r' & Hin & H1 & H2).
      exists ccs', m', r'. repeat split; auto. now right.
  - intros H. destruct (IH H) as (ccs' & m' & r' & Hin & H1 & H2).
    exists ccs', m', r'. repeat split; auto. now right.
Qed.

Lemma match_format_cons_inv (d : directive) (fmt : list directive)
  (s r : string) (vs : list Z) :
  match_format (d :: fmt) s = Some (vs, r) ->
  exists ccs m r1 vs',
    In ccs (directive_regex d) /\ match_classes ccs s = Some (m, r1)
    /\ match_format fmt r1 = Some (vs', r)
    /\ vs = int_of_digits 0 m :: vs'.
Proof.
  cbn [match_format]. intros H.
  apply first_alternative_inv in H as (ccs & m & r1 & Hin & Hm & Hk).
  destruct (match_format fmt r1) as [[vs' r']|] eqn:Hrest; [|discriminate].
  injection Hk as <- <-. now exists ccs, m, r1, vs'.
Qed.

Lemma match_classes_cons_inv (cc : char_class) (ccs : list char_class)
  (s m r : string) :
  match_classes (cc :: ccs) s = Some (m, r) ->
  exists c s' m',
    s = String c s' /\ in_class cc c = true
    /\ match_classes ccs s' = Some (m', r) /\ m = String c m'.
Proof.
  cbn [match_classes]. destruct s as [|c s']; [discriminate|].
  destruct (in_class cc c) eqn:Hc; [|discriminate].
  destruct (match_classes ccs s') as [[m' r']|] eqn:Hrest; [|discriminate].
  intros [= <- <-]. now exists c, s', m'.
Qed.

Ltac invert_match_classes H :=
  repeat match type of H with
         | match_classes (_ :: _) _ = Some _ =>
             let c := fresh "c" in
             let E := fresh "E" in
             apply match_classes_cons_inv in H as (c & ? & ? & -> & E & H & ->)
         | match_classes [] _ = Some _ =>
             cbn [match_classes] in H; injection H as <- <-
         end.

Lemma group_value_bound (d : directive) (ccs : list char_class)
  (s m r : string) :
  In ccs (directive_regex d) -> match_classes ccs s = Some (m, r) ->
  (0 <= int_of_digits 0 m <= directive_max d)%Z.
Proof.
  intros Hin Hm.
  destruct d; cbn [directive_regex In] in Hin;
    repeat (destruct Hin as [<-|Hin]); try contradiction;
    invert_match_classes Hm; cbn [int_of_digits directive_max];
    repeat match goal with
           | E : in_class cc_digit ?c = true
             |- context [in_class cc_digit ?c] => rewrite E
           | E : in_class ?cc ?c = true |- context [in_class cc_digit ?c] =>
               let F := fresh "F" in
               destruct (in_class cc_digit c) eqn:F;
               [ apply in_class_digit_iff in F
               | apply in_class_bounds in E;
                 assert (~ (48 <= nat_of_ascii c <= 57))
                   by (rewrite <- in_class_digit_iff; congruence) ]
           end;
    repeat match goal with
           | E : in_class _ _ = true |- _ => apply in_class_bounds in E
           end;
    cbn [Nat.add] in *; lia.
Qed.

Lemma make_date_inv (y m d : Z) (dd : date) :
  make_date y m d = inr dd ->
  dd = mk_date y m d
  /\ (1 <= y <= 9999 /\ 1 <= m <= 12 /\ 1 <= d <= days_in_month y m)%Z.
Proof.
  unfold make_date.
  destruct (_ && _) eqn:Hok; [|discriminate]. intros [= <-].
  repeat (apply andb_true_iff in Hok as [Hok ?]).
  split; [reflexivity|]. lia.
Qed.

(** The groups a format of [n] directives yields on an accepted input. *)
Ltac invert_match_format H :=
  repeat match type of H with
         | match_format (_ :: _) _ = Some _ =>
             let Hin := fresh "Hin" in
             let Hm := fresh "Hm" in
             apply match_format_cons_inv in H
               as (? & ? & ? & ? & Hin & Hm & H & ->);
             pose proof (group_value_bound _ _ _ _ _ Hin Hm);
             clear Hin Hm
         | match_format [] _ = Some _ =>
             cbn [match_format] in H; injection H as <- <-
         end.

(** X3: Every date parse_interchange_date returns lies in the years 1969 to
    2068 and is a valid calendar date: month 1 to 12, day 1 to the number of
    days of that month in that year. *)
Theorem parse_interchange_date_window (s : string) (d : date) :
  parse_interchange_date s = inr d ->
  (1969 <= d_year d <= 2068
   /\ 1 <= d_month d <= 12
   /\ 1 <= d_day d <= days_in_month (d_year d) (d_month d))%Z.
Proof.
  unfold parse_interchange_date, strptime. intros H.
  destruct (match_format [Dir_y; Dir_m; Dir_d] s) as [[vs r]|] eqn:Hm;
    [|discriminate].
  destruct r; [|discriminate].
  invert_match_format Hm.
  cbn [set_groups set_group dt_date d_year d_month d_day dt_hour dt_minute
         directive_max] in *.
  match type of H with
  | context [make_date ?y ?m ?dd] =>
      destruct (make_date y m dd) as [e|dd'] eqn:Hmk; [discriminate|];
      apply make_date_inv in Hmk as [-> Hrange]
  end.
  injection H as <-. cbn [dt_date d_year d_month d_day] in *.
  unfold two_digit_year in *.
  destruct (_ <=? 68)%Z eqn:Hpivot; lia.
Qed.

Lemma parse_interchange_date_window_witness :
  (1969 <= d_year (mk_date 2024 1 1) <= 2068
   /\ 1 <= d_month (mk_date 2024 1 1) <= 12
   /\ 1 <= d_day (mk_date 2024 1 1)
      <= days_in_month (d_year (mk_date 2024 1 1))
           (d_month (mk_date 2024 1 1)))%Z.
Proof.
  apply (parse_interchange_date_window "240101" (mk_date 2024 1 1)).
  reflexivity.
Defined.

(** X4: When parse_x12_date returns for a string, the kind of result is
    fixed by the length: a date for 8 characters, a date and time for 12,
    the string itself for 4 or 6, None for any other length; a returned date
    is a valid calendar date of the years 1 to 9999, and a returned time has
    hour at most 23 and minute at most 59. *)
Theorem parse_x12_date_results (s : string) (r : x12_date) :
  parse_x12_date (Some s) = inr r ->
  match r with
  | ParsedNone =>
      String.length s <> 4 /\ String.length s <> 6
      /\ String.length s <> 8 /\ String.length s <> 12
  | ParsedStr s' => s' = s /\ (String.length s = 4 \/ String.length s = 6)
  | ParsedDate d =>
      String.length s = 8
      /\ (1 <= d_year d <= 9999 /\ 1 <= d_month d <= 12
          /\ 1 <= d_day d <= days_in_month (d_year d) (d_month d))%Z
  | ParsedDateTime dt =>
      String.length s = 12
      /\ (1 <= d_year (dt_date dt) <= 9999 /\ 1 <= d_month (dt_date dt) <= 12
          /\ 1 <= d_day (dt_date dt)
             <= days_in_month (d_year (dt_date dt)) (d_month (dt_date dt))
          /\ 0 <= dt_hour dt <= 23 /\ 0 <= dt_minute dt <= 59)%Z
  end.
Proof.
  unfold parse_x12_date.
  destruct s as [|c0 s0] eqn:Hs; [intros [= <-]; cbn; lia|].
  rewrite <- Hs. clear Hs c0 s0.
  destruct (String.length s =? 8) eqn:H8.
  { apply Nat.eqb_eq in H8. unfold strptime.
    destruct (match_format [Dir_Y; Dir_m; Dir_d] s) as [[vs rest]|] eqn:Hm;
      [|discriminate].
    destruct rest; [|discriminate].
    invert_match_format Hm.
    cbn [set_groups set_group dt_date d_year d_month d_day dt_hour dt_minute
           directive_max] in *.
    match goal with
    | |- context [make_date ?y ?m ?dd] =>
        destruct (make_date y m dd) as [e|dd'] eqn:Hmk; [discriminate|];
        apply make_date_inv in Hmk as [-> Hrange]
    end.
    intros [= <-]. cbn [dt_date d_year d_month d_day] in *. lia. }
  destruct (String.length s =? 12) eqn:H12.
  { apply Nat.eqb_eq in H12. unfold strptime.
    destruct (match_format [Dir_Y; Dir_m; Dir_d; Dir_H; Dir_M] s)
      as [[vs rest]|] eqn:Hm; [|discriminate].
    destruct rest; [|discriminate].
    invert_match_format Hm.
    cbn [set_groups set_group dt_date d_year d_month d_day dt_hour dt_minute
           directive_max] in *.
    match goal with
    | |- context [make_date ?y ?m ?dd] =>
        destruct (make_date y m dd) as [e|dd'] eqn:Hmk; [discriminate|];
        apply make_date_inv in Hmk as [-> Hrange]
    end.
    intros [= <-].
    cbn [dt_date d_year d_month d_day dt_hour dt_minute] in *. lia. }
  apply Nat.eqb_neq in H8, H12.
  destruct ((String.length s =? 4) || (String.length s =? 6)) eqn:H46;
    intros [= <-].
  - split; [reflexivity|].
    apply orb_true_iff in H46 as [H|H]; apply Nat.eqb_eq in H; auto.
  - apply orb_false_iff in H46 as [H4 H6].
    apply Nat.eqb_neq in H4, H6. auto.
Qed.

Lemma parse_x12_date_results_witness :
  String.length "202401011230" = 12
  /\ (1 <= 2024 <= 9999 /\ 1 <= 1 <= 12
      /\ 1 <= 1 <= days_in_month 2024 1
      /\ 0 <= 12 <= 23 /\ 0 <= 30 <= 59)%Z.
Proof.
  apply (parse_x12_date_results "202401011230"
           (ParsedDateTime (mk_datetime (mk_date 2024 1 1) 12 30))).
  reflexivity.
Defined.

End DateProperties.

(* --------------------------------------------------------------------- *)
(** *** Round trips with the dates x12 writes *)
(* --------------------------------------------------------------------- *)

Section DateRoundTrips.
Import Support Models.

Ltac each_digit k tac :=
  do 10 (destruct k as [|k]; [tac|]); lia.

Lemma of_uint_acc_digit (k : nat) (u : Decimal.uint) (acc : positive) :
  k < 10 ->
  exists acc',
    Pos.of_uint_acc (digit_uint k u) acc = Pos.of_uint_acc u acc'
    /\ Z.pos acc' = (Z.of_nat k + 10 * Z.pos acc)%Z.
Proof.
  intros Hk.
  each_digit k ltac:(eexists; split; [reflexivity|lia]).
Qed.

Lemma of_uint_digit (k : nat) (u : Decimal.uint) :
  1 <= k < 10 ->
  Pos.of_uint (digit_uint k u) = Npos (Pos.of_uint_acc u (Pos.of_nat k))
  /\ Decimal.unorm (digit_uint k u) = digit_uint k u
  /\ digit_uint k u <> Decimal.Nil.
Proof.
  intros Hk. destruct k as [|k]; [lia|].
  do 9 (destruct k as [|k];
        [split; [reflexivity|split; [reflexivity|discriminate]]|]).
  lia.
Qed.

Lemma string_of_uint_digit (k : nat) (u : Decimal.uint) :
  k < 10 ->
  exists c,
    NilEmpty.string_of_uint (digit_uint k u)
    = String c (NilEmpty.string_of_uint u)
    /\ in_class cc_digit c = true
    /\ Z.of_nat (nat_of_ascii c - 48) = Z.of_nat k.
Proof.
  intros Hk.
  each_digit k ltac:(eexists; split; [reflexivity|split; reflexivity]).
Qed.

Lemma year_numeral (y : Z) :
  (1000 <= y <= 9999)%Z ->
  exists a b c d,
    1 <= a < 10 /\ b < 10 /\ c < 10 /\ d < 10
    /\ (y = 1000 * Z.of_nat a + 100 * Z.of_nat b + 10 * Z.of_nat c
            + Z.of_nat d)%Z
    /\ Z.to_int y
       = Decimal.Pos
           (digit_uint a (digit_uint b (digit_uint c
              (digit_uint d Decimal.Nil)))).
Proof.
  intros Hy.
  pose proof (Z.div_mod y 1000 ltac:(lia)) as E3.
  pose proof (Z.mod_pos_bound y 1000 ltac:(lia)) as B3.
  pose proof (Z.div_mod (y mod 1000) 100 ltac:(lia)) as E2.
  pose proof (Z.mod_pos_bound (y mod 1000) 100 ltac:(lia)) as B2.
  pose proof (Z.div_mod ((y mod 1000) mod 100) 10 ltac:(lia)) as E1.
  pose proof (Z.mod_pos_bound ((y mod 1000) mod 100) 10 ltac:(lia)) as B1.
  set (qa := (y / 1000)%Z) in *.
  set (ra := (y mod 1000)%Z) in *.
  set (qb := (ra / 100)%Z) in *.
  set (rb := (ra mod 100)%Z) in *.
  set (qc := (rb / 10)%Z) in *.
  set (qd := (rb mod 10)%Z) in *.
  exists (Z.to_nat qa), (Z.to_nat qb), (Z.to_nat qc), (Z.to_nat qd).
  assert (Ha : 1 <= Z.to_nat qa < 10) by lia.
  assert (Hb : Z.to_nat qb < 10) by lia.
  assert (Hc : Z.to_nat qc < 10) by lia.
  assert (Hd : Z.to_nat qd < 10) by lia.
  assert (Hsum : (y = 1000 * Z.of_nat (Z.to_nat qa)
                      + 100 * Z.of_nat (Z.to_nat qb)
                      + 10 * Z.of_nat (Z.to_nat qc)
                      + Z.of_nat (Z.to_nat qd))%Z) by lia.
  repeat (split; [assumption|]).
  set (U := digit_uint (Z.to_nat qa)
              (digit_uint (Z.to_nat qb)
                 (digit_uint (Z.to_nat qc)
                    (digit_uint (Z.to_nat qd) Decimal.Nil)))).
  assert (Hof : Z.of_int (Decimal.Pos U) = y).
  { cbn [Z.of_int]. unfold Z.of_uint, U.
    destruct (of_uint_digit (Z.to_nat qa)
                (digit_uint (Z.to_nat qb)
                   (digit_uint (Z.to_nat qc)
                      (digit_uint (Z.to_nat qd) Decimal.Nil))) Ha)
      as (-> & _ & _).
    destruct (of_uint_acc_digit (Z.to_nat qb)
                (digit_uint (Z.to_nat qc) (digit_uint (Z.to_nat qd) Decimal.Nil))
                (Pos.of_nat (Z.to_nat qa)) Hb) as (p1 & -> & Hp1).
    destruct (of_uint_acc_digit (Z.to_nat qc)
                (digit_uint (Z.to_nat qd) Decimal.Nil) p1 Hc)
      as (p2 & -> & Hp2).
    destruct (of_uint_acc_digit (Z.to_nat qd) Decimal.Nil p2 Hd)
      as (p3 & -> & Hp3).
    cbn [Pos.of_uint_acc Z.of_N].
    assert (Hpa : Z.pos (Pos.of_nat (Z.to_nat qa)) = Z.of_nat (Z.to_nat qa)).
    { rewrite <- positive_nat_Z, Nat2Pos.id by lia. reflexivity. }
    lia. }
  rewrite <- Hof at 1. rewrite Stdlib.Numbers.DecimalZ.to_of. cbn [Decimal.norm].
  unfold U.
  destruct (of_uint_digit (Z.to_nat qa)
              (digit_uint (Z.to_nat qb)
                 (digit_uint (Z.to_nat qc)
                    (digit_uint (Z.to_nat qd) Decimal.Nil))) Ha)
    as (_ & -> & _).
  reflexivity.
Qed.

Lemma year_digits (y : Z) :
  (1000 <= y <= 9999)%Z ->
  exists c1 c2 c3 c4,
    zero_filled 4 y = String c1 (String c2 (String c3 (String c4 EmptyString)))
    /\ in_class cc_digit c1 = true /\ in_class cc_digit c2 = true
    /\ in_class cc_digit c3 = true /\ in_class cc_digit c4 = true
    /\ int_of_digits 0 (zero_filled 4 y) = y.
Proof.
  intros Hy.
  destruct (year_numeral y Hy)
    as (a & b & c & d & Ha & Hb & Hc & Hd & Hsum & Hint).
  destruct (string_of_uint_digit a
              (digit_uint b (digit_uint c (digit_uint d Decimal.Nil)))
              ltac:(lia)) as (c1 & E1 & I1 & V1).
  destruct (string_of_uint_digit b (digit_uint c (digit_uint d Decimal.Nil)) Hb)
    as (c2 & E2 & I2 & V2).
  destruct (string_of_uint_digit c (digit_uint d Decimal.Nil) Hc)
    as (c3 & E3 & I3 & V3).
  destruct (string_of_uint_digit d Decimal.Nil Hd) as (c4 & E4 & I4 & V4).
  assert (Hstr : str_of_int y
                 = String c1 (String c2 (String c3 (String c4 EmptyString)))).
  { unfold str_of_int. rewrite Hint. cbn [NilZero.string_of_int].
    unfold NilZero.string_of_uint.
    destruct (of_uint_digit a
                (digit_uint b (digit_uint c (digit_uint d Decimal.Nil))) Ha)
      as (_ & _ & Hnil).
    change (String c4 EmptyString)
      with (String c4 (NilEmpty.string_of_uint Decimal.Nil)).
    rewrite <- E4, <- E3, <- E2, <- E1.
    destruct (digit_uint a
                (digit_uint b (digit_uint c (digit_uint d Decimal.Nil))));
      [contradiction|reflexivity..]. }
  assert (Hz : zero_filled 4 y
               = String c1 (String c2 (String c3 (String c4 EmptyString)))).
  { unfold zero_filled. rewrite Hstr. reflexivity. }
  exists c1, c2, c3, c4. rewrite Hz.
  repeat (split; [assumption || reflexivity|]).
  cbn [int_of_digits]. rewrite I1, I2, I3, I4, V1, V2, V3, V4. lia.
Qed.

Ltac render_numeral :=
  match goal with
  | |- context [zero_filled 2 ?z] =>
      let s := eval vm_compute in (zero_filled 2 z) in
      change (zero_filled 2 z) with s
  end.

(** A two-digit field in range is read back by its directive, whatever
    follows it. *)
Lemma two_digit_group (d : directive) (v : Z) :
  directive_width d = 2 -> d <> Dir_y ->
  (directive_min d <= v <= directive_max d)%Z ->
  String.length (zero_filled 2 v) = 2
  /\ forall (fmt : list directive) (rest r : string) (vs : list Z),
       match_format fmt rest = Some (vs, r) ->
       match_format (d :: fmt) (zero_filled 2 v +:+ rest) = Some (v :: vs, r).
Proof.
  intros Hw Hy Hv.
  assert (Hn : exists n, v = Z.of_nat n /\ n < 60).
  { exists (Z.to_nat v).
    destruct d; try discriminate; try congruence; cbn in Hv; lia. }
  destruct Hn as (n & -> & Hn).
  destruct d; try discriminate; try congruence;
    cbn [directive_min directive_max] in Hv;
    do 60 (destruct n as [|n];
           [ first [ lia
                   | split; [reflexivity|];
                     intros fmt rest r vs Hrest; cbn [match_format];
                     render_numeral; simpl; rewrite append_empty_l, Hrest;
                     reflexivity ] | ]);
    lia.
Qed.

Lemma four_digit_year (y : Z) :
  (1000 <= y <= 9999)%Z ->
  String.length (zero_filled 4 y) = 4
  /\ forall (fmt : list directive) (rest r : string) (vs : list Z),
       match_format fmt rest = Some (vs, r) ->
       match_format (Dir_Y :: fmt) (zero_filled 4 y +:+ rest)
       = Some (y :: vs, r).
Proof.
  intros Hy.
  destruct (year_digits y Hy) as (c1 & c2 & c3 & c4 & Hs & H1 & H2 & H3 & H4 & Hv).
  rewrite Hs in Hv |- *. split; [reflexivity|].
  intros fmt rest r vs Hrest.
  cbn [match_format directive_regex first_alternative].
  rewrite !append_cons, append_empty_l. cbn [match_classes].
  rewrite H1, H2, H3, H4, Hrest, Hv. reflexivity.
Qed.

Lemma make_date_valid (y m d : Z) :
  (1 <= y <= 9999)%Z -> (1 <= m <= 12)%Z -> (1 <= d <= days_in_month y m)%Z ->
  make_date y m d = inr (mk_date y m d).
Proof.
  intros Hy Hm Hd. unfold make_date.
  replace (_ && _) with true; [reflexivity|]. symmetry.
  repeat (apply andb_true_iff; split); apply Z.leb_le; lia.
Qed.

Lemma days_in_month_le_31 (y m : Z) : (days_in_month y m <= 31)%Z.
Proof.
  unfold days_in_month.
  destruct m as [|p|p]; try lia;
    do 4 (try destruct p as [p|p|]); try destruct (is_leap y); lia.
Qed.

(** X5: Round trip of a date field: for every valid date of the years 1000
    to 9999, parse_x12_date applied to the %Y%m%d text that X12Segment.x12
    writes for it returns that date. *)
Theorem parse_x12_date_strftime_round_trip (d : date) :
  (1000 <= d_year d <= 9999)%Z ->
  (1 <= d_month d <= 12)%Z ->
  (1 <= d_day d <= days_in_month (d_year d) (d_month d))%Z ->
  parse_x12_date (Some (strftime_Ymd d)) = inr (ParsedDate d).
Proof.
  destruct d as [y m dd]. cbn [d_year d_month d_day]. intros Hy Hm Hd.
  pose proof (days_in_month_le_31 y m) as H31.
  destruct (four_digit_year y Hy) as [Hly Hfy].
  destruct (two_digit_group Dir_m m eq_refl ltac:(discriminate) Hm)
    as [Hlm Hfm].
  destruct (two_digit_group Dir_d dd eq_refl ltac:(discriminate)
              ltac:(cbn; lia)) as [Hld Hfd].
  assert (Hparse :
            match_format [Dir_Y; Dir_m; Dir_d]
              (strftime_Ymd (mk_date y m dd)) = Some ([y; m; dd], "")).
  { unfold strftime_Ymd. cbn [d_year d_month d_day].
    apply Hfy, Hfm. rewrite <- (append_empty_r (zero_filled 2 dd)).
    now apply Hfd. }
  assert (Hlen : String.length (strftime_Ymd (mk_date y m dd)) = 8).
  { unfold strftime_Ymd. cbn [d_year d_month d_day].
    rewrite !length_append, Hly, Hlm, Hld. reflexivity. }
  unfold parse_x12_date.
  destruct (strftime_Ymd (mk_date y m dd)) as [|c0 s0] eqn:Hs;
    [discriminate|].
  rewrite <- Hs in *. rewrite Hlen. cbn [Nat.eqb].
  unfold strptime. rewrite Hparse.
  cbn [set_groups set_group dt_date d_year d_month d_day dt_hour dt_minute].
  rewrite make_date_valid by lia. reflexivity.
Qed.

Lemma parse_x12_date_strftime_round_trip_witness :
  parse_x12_date (Some (strftime_Ymd (mk_date 2024 2 29)))
  = inr (ParsedDate (mk_date 2024 2 29)).
Proof.
  apply (parse_x12_date_strftime_round_trip (mk_date 2024 2 29));
    simpl; lia.
Defined.

(** X6: Round trip of a date-time field: for every valid date of the years
    1000 to 9999 with hour 0 to 23 and minute 0 to 59, parse_x12_date
    applied to the %Y%m%d%H%M text that X12Segment.x12 writes for it returns
    that date and time. *)
Theorem parse_x12_date_strftime_datetime_round_trip (dt : datetime) :
  (1000 <= d_year (dt_date dt) <= 9999)%Z ->
  (1 <= d_month (dt_date dt) <= 12)%Z ->
  (1 <= d_day (dt_date dt)
   <= days_in_month (d_year (dt_date dt)) (d_month (dt_date dt)))%Z ->
  (0 <= dt_hour dt <= 23)%Z ->
  (0 <= dt_minute dt <= 59)%Z ->
  parse_x12_date (Some (strftime_YmdHM dt)) = inr (ParsedDateTime dt).
Proof.
  destruct dt as [[y m dd] hh mm].
  cbn [dt_date d_year d_month d_day dt_hour dt_minute].
  intros Hy Hm Hd Hh Hmin.
  pose proof (days_in_month_le_31 y m) as H31.
  destruct (four_digit_year y Hy) as [Hly Hfy].
  destruct (two_digit_group Dir_m m eq_refl ltac:(discriminate) Hm)
    as [Hlm Hfm].
  destruct (two_digit_group Dir_d dd eq_refl ltac:(discriminate)
              ltac:(cbn; lia)) as [Hld Hfd].
  destruct (two_digit_group Dir_H hh eq_refl ltac:(discriminate) Hh)
    as [Hlh Hfh].
  destruct (two_digit_group Dir_M mm eq_refl ltac:(discriminate) Hmin)
    as [Hlmin Hfmin].
  set (s := strftime_YmdHM (mk_datetime (mk_date y m dd) hh mm)).
  assert (Hparse :
            match_format [Dir_Y; Dir_m; Dir_d; Dir_H; Dir_M] s
            = Some ([y; m; dd; hh; mm], "")).
  { unfold s, strftime_YmdHM.
    cbn [dt_date d_year d_month d_day dt_hour dt_minute].
    apply Hfy, Hfm, Hfd, Hfh. rewrite <- (append_empty_r (zero_filled 2 mm)).
    now apply Hfmin. }
  assert (Hlen : String.length s = 12).
  { unfold s, strftime_YmdHM.
    cbn [dt_date d_year d_month d_day dt_hour dt_minute].
    rewrite !length_append, Hly, Hlm, Hld, Hlh, Hlmin. reflexivity. }
  unfold parse_x12_date.
  destruct s as [|c0 s0] eqn:Hs; [discriminate|].
  rewrite <- Hs in *. rewrite Hlen. cbn [Nat.eqb].
  unfold strptime. rewrite Hparse.
  cbn [set_groups set_group dt_date d_year d_month d_day dt_hour dt_minute].
  rewrite make_date_valid by lia. reflexivity.
Qed.

Lemma parse_x12_date_strftime_datetime_round_trip_witness :
  parse_x12_date
    (Some (strftime_YmdHM (mk_datetime (mk_date 2024 1 1) 12 0)))
  = inr (ParsedDateTime (mk_datetime (mk_date 2024 1 1) 12 0)).
Proof.
  apply (parse_x12_date_strftime_datetime_round_trip
           (mk_datetime (mk_date 2024 1 1) 12 0)); simpl; lia.
Defined.

End DateRoundTrips.

(* ===================================================================== *)
(** ** Properties of models.py                                            *)
(* ===================================================================== *)

Section ModelsProperties.
Import Models.

Lemma x12_values_ignores_carried (self : X12Segment)
  (carried : option X12Delimiters) (d : X12Delimiters)
  (items : list (string * field_value)) :
  x12_values
    (mk_segment carried (segment_name self) (data_fields self)
       (model_fields self)) d items
  = x12_values self d items.
Proof.
  induction items as [|[k v] items IH]; [reflexivity|].
  cbn [x12_values]. rewrite IH. reflexivity.
Qed.

(** C5, as the code has it: x12() called with no custom_delimiters
    serialises with the default delimiters, whatever delimiters the segment
    carries: the output is the one obtained by passing the defaults, its
    fields are joined by the element separator of the delimiters in use
    and it ends with their segment terminator. *)
Theorem x12_without_custom_delimiters_uses_defaults (self : X12Segment)
  (carried : option X12Delimiters) :
  x12 (mk_segment carried (segment_name self) (data_fields self)
         (model_fields self)) None
  = x12 self (Some default_delimiters)
  /\ forall custom : option X12Delimiters,
       x12 self custom
       = match x12_values self (or_default custom)
                 (dict_exclude_delimiters self) with
         | inl e => inl e
         | inr values =>
             inr (rstrip (element_separator (or_default custom))
                    (join (element_separator (or_default custom)) values)
                  +:+ String (segment_terminator (or_default custom))
                        EmptyString)
         end.
Proof.
  split; [|reflexivity].
  unfold x12, dict_exclude_delimiters.
  cbn [segment_name data_fields or_default].
  now rewrite x12_values_ignores_carried.
Qed.

(** C5 fails as stated: a segment carrying the delimiters | ~ # > is
    serialised by x12() with * and ~, not with the delimiters it carries;
    likewise the composite field of a segment is joined with the default
    component separator. *)
Lemma x12_carried_delimiters_counterexample :
  x12 nm1_with_bar_delimiters None = inr "NM1*IL*1*DOE*JOHN~"
  /\ x12_with_carried_delimiters nm1_with_bar_delimiters
     = inr "NM1|IL|1|DOE|JOHN#"
  /\ x12 sv1_with_bar_delimiters None = inr "SV1*HC:99213*40.00*UN*1~"
  /\ x12_with_carried_delimiters sv1_with_bar_delimiters
     = inr "SV1|HC>99213|40.00|UN|1#"
  /\ x12 nm1_with_bar_delimiters None
     <> x12_with_carried_delimiters nm1_with_bar_delimiters.
Proof. repeat split; try (vm_compute; reflexivity). vm_compute. discriminate. Qed.

End ModelsProperties.

(* --------------------------------------------------------------------- *)
(** *** Serialisation of a segment *)
(* --------------------------------------------------------------------- *)

Section SegmentProperties.
Import Support Models.

Lemma rstrip_snoc (c : ascii) (s : string) :
  rstrip c (s +:+ String c EmptyString) = rstrip c s.
Proof.
  induction s as [|a s IH].
  - change ("" +:+ String c EmptyString) with (String c EmptyString).
    cbn [rstrip]. now rewrite Ascii.eqb_refl.
  - change (String a s +:+ String c EmptyString)
      with (String a (s +:+ String c EmptyString)).
    cbn [rstrip]. now rewrite IH.
Qed.

Lemma rstrip_idempotent (c : ascii) (s : string) :
  rstrip c (rstrip c s) = rstrip c s.
Proof.
  induction s as [|a s IH]; [reflexivity|].
  cbn [rstrip]. destruct (rstrip c s) as [|b r] eqn:Hr.
  - destruct (Ascii.eqb a c) eqn:Hac; [reflexivity|].
    cbn [rstrip]. now rewrite Hac.
  - cbn [rstrip]. cbn [rstrip] in IH. now rewrite IH.
Qed.

Lemma join_snoc (sep : ascii) (xs : list string) (y : string) :
  xs <> [] ->
  join sep (xs ++ [y]) = join sep xs +:+ String sep EmptyString +:+ y.
Proof.
  unfold join. induction xs as [|x xs IH]; [congruence|]. intros _.
  destruct xs as [|x' xs].
  - reflexivity.
  - change ((x :: x' :: xs) ++ [y]) with (x :: ((x' :: xs) ++ [y])).
    change (String.concat (String sep "") (x :: (x' :: xs) ++ [y]))
      with (x +:+ String sep "" +:+
            String.concat (String sep "") ((x' :: xs) ++ [y])).
    rewrite IH by discriminate.
    change (String.concat (String sep "") (x :: x' :: xs))
      with (x +:+ String sep "" +:+ String.concat (String sep "") (x' :: xs)).
    now rewrite !append_assoc.
Qed.

Lemma x12_values_model_fields (self self' : X12Segment) (d : X12Delimiters)
  (items : list (string * field_value)) :
  model_fields self' = model_fields self ->
  x12_values self' d items = x12_values self d items.
Proof.
  intros Hm. induction items as [|[k v] items IH]; [reflexivity|].
  cbn [x12_values]. rewrite IH.
  destruct v; try reflexivity.
  unfold _process_multivalue_field. now rewrite Hm.
Qed.

Lemma x12_values_app (self : X12Segment) (d : X12Delimiters)
  (a b : list (string * field_value)) :
  x12_values self d (a ++ b)
  = match x12_values self d a with
    | inl e => inl e
    | inr xs =>
        match x12_values self d b with
        | inl e => inl e
        | inr ys => inr (xs ++ ys)
        end
    end.
Proof.
  induction a as [|[k v] a IH].
  - cbn. now destruct (x12_values self d b).
  - change (((k, v) :: a) ++ b) with ((k, v) :: (a ++ b)).
    cbn [x12_values]. rewrite IH.
    destruct v; try (destruct (x12_values self d a) as [e|xs];
                     [reflexivity|];
                     destruct (x12_values self d b); reflexivity).
    destruct (_process_multivalue_field self k items (Some d));
      [reflexivity|].
    destruct (x12_values self d a) as [e|xs]; [reflexivity|].
    destruct (x12_values self d b); reflexivity.
Qed.

(** The segment with one more trailing field. *)
Lemma x12_trailing_empty_field (self : X12Segment) (k : string)
  (v : field_value) (custom : option X12Delimiters) :
  renders_empty v ->
  x12 (mk_segment (delimiters self) (segment_name self)
         (data_fields self ++ [(k, v)]) (model_fields self)) custom
  = x12 self custom.
Proof.
  intros Hv. unfold x12, dict_exclude_delimiters.
  cbn [segment_name data_fields].
  rewrite (x12_values_model_fields self) by reflexivity.
  change (("segment_name", FStr (segment_name self))
            :: data_fields self ++ [(k, v)])
    with ((("segment_name", FStr (segment_name self)) :: data_fields self)
            ++ [(k, v)]).
  rewrite x12_values_app.
  destruct (x12_values self (or_default custom)
              (("segment_name", FStr (segment_name self)) :: data_fields self))
    as [e|xs] eqn:Hxs; [reflexivity|].
  assert (Hne : xs <> []).
  { cbn [x12_values] in Hxs.
    destruct (x12_values self (or_default custom) (data_fields self));
      [discriminate|]. injection Hxs as <-. discriminate. }
  assert (Hlast : x12_values self (or_default custom) [(k, v)]
                  = inr [EmptyString])
    by (destruct Hv as [-> | ->]; reflexivity).
  rewrite Hlast, (join_snoc _ _ _ Hne).
  change (String (element_separator (or_default custom)) "" +:+ "")
    with (String (element_separator (or_default custom)) "").
  now rewrite rstrip_snoc.
Qed.

(** X7: Trailing fields that are None or the empty string do not show in the
    output of X12Segment.x12: a segment with any number of such fields added
    at its end serialises (or fails) exactly as the segment without them. *)
Theorem x12_drops_trailing_empty_fields (self : X12Segment)
  (extra : list (string * field_value)) (custom : option X12Delimiters) :
  Forall (fun kv => renders_empty (snd kv)) extra ->
  x12 (mk_segment (delimiters self) (segment_name self)
         (data_fields self ++ extra) (model_fields self)) custom
  = x12 self custom.
Proof.
  revert self. induction extra as [|[k v] extra IH]; intros self Hall.
  - rewrite app_nil_r. now destruct self.
  - inversion Hall as [|? ? Hv Hrest]; subst.
    change ((k, v) :: extra) with ([(k, v)] ++ extra).
    rewrite app_assoc.
    specialize (IH (mk_segment (delimiters self) (segment_name self)
                      (data_fields self ++ [(k, v)]) (model_fields self))
                   Hrest).
    cbn [delimiters segment_name data_fields model_fields] in IH.
    rewrite IH. now apply x12_trailing_empty_field.
Qed.

Lemma x12_drops_trailing_empty_fields_witness :
  x12 (mk_segment (delimiters sv1_with_bar_delimiters)
         (segment_name sv1_with_bar_delimiters)
         (data_fields sv1_with_bar_delimiters
          ++ [("product_service_id", FNone); ("composite_diagnosis", FStr "")])
         (model_fields sv1_with_bar_delimiters)) None
  = x12 sv1_with_bar_delimiters None.
Proof.
  apply (x12_drops_trailing_empty_fields sv1_with_bar_delimiters
           [("product_service_id", FNone); ("composite_diagnosis", FStr "")]
           None).
  constructor; [left; reflexivity|].
  constructor; [right; reflexivity|]. constructor.
Defined.

Lemma rstrip_length (c : ascii) (s : string) :
  String.length (rstrip c s) <= String.length s.
Proof.
  induction s as [|a s IH]; [reflexivity|].
  cbn [rstrip]. destruct (rstrip c s) as [|b r].
  - destruct (Ascii.eqb a c); cbn [String.length]; lia.
  - cbn [String.length] in *. lia.
Qed.

Lemma rstrip_fixed_no_trailing (c : ascii) (s : string) :
  rstrip c s = s -> forall t, s <> t +:+ String c EmptyString.
Proof.
  intros Hfix t ->. rewrite rstrip_snoc in Hfix.
  pose proof (rstrip_length c t) as Hlen.
  rewrite Hfix, length_append in Hlen. cbn [String.length] in Hlen. lia.
Qed.

(** X8: Whenever X12Segment.x12 returns, its output is a body followed by
    the segment terminator of the delimiters in use, and the body never ends
    with their element separator. *)
Theorem x12_output_shape (self : X12Segment)
  (custom : option X12Delimiters) (out : string) :
  x12 self custom = inr out ->
  exists body,
    out = body +:+ String (segment_terminator (or_default custom)) EmptyString
    /\ forall t,
         body
         <> t +:+ String (element_separator (or_default custom)) EmptyString.
Proof.
  unfold x12.
  destruct (x12_values self (or_default custom) (dict_exclude_delimiters self))
    as [e|values]; [discriminate|].
  intros [= <-]. eexists. split; [reflexivity|].
  apply rstrip_fixed_no_trailing, rstrip_idempotent.
Qed.

Lemma x12_output_shape_witness :
  exists body,
    "NM1*IL*1*DOE*JOHN~" = body +:+ "~"
    /\ forall t, body <> t +:+ "*".
Proof.
  apply (x12_output_shape nm1_with_bar_delimiters None "NM1*IL*1*DOE*JOHN~").
  reflexivity.
Defined.

Lemma x12_values_succeeds_iff (self : X12Segment) (d : X12Delimiters)
  (items : list (string * field_value)) :
  (exists xs, x12_values self d items = inr xs)
  <-> Forall (fun kv => match snd kv with
                        | FList _ => is_Some (model_fields self !! fst kv)
                        | _ => True
                        end) items.
Proof.
  induction items as [|[k v] items IH].
  - split; [constructor|]. intros _. now exists [].
  - split.
    + intros [xs Hxs]. cbn [x12_values] in Hxs.
      constructor.
      * cbn [fst snd]. destruct v; try exact I.
        unfold _process_multivalue_field in Hxs.
        destruct (model_fields self !! k); [eauto|discriminate].
      * apply IH.
        destruct (x12_values self d items) as [e|ys]; [|eauto].
        destruct v; try discriminate.
        destruct (_process_multivalue_field self k items0 (Some d));
          discriminate.
    + intros Hall. inversion Hall as [|? ? Hhead Hrest]; subst.
      apply IH in Hrest as [ys Hys]. cbn [x12_values fst snd] in *.
      rewrite Hys.
      destruct v; try (eexists; reflexivity).
      unfold _process_multivalue_field.
      destruct Hhead as [info ->]. eexists; reflexivity.
Qed.

(** X9: X12Segment.x12 returns a string if and only if every list-valued
    entry of the instance is a declared field of the model; a list-valued
    entry that is not declared makes it raise (the KeyError of the field
    lookup in _process_multivalue_field). *)
Theorem x12_succeeds_iff_list_fields_declared (self : X12Segment)
  (custom : option X12Delimiters) :
  (exists out, x12 self custom = inr out) <-> list_fields_declared self.
Proof.
  unfold list_fields_declared, x12, dict_exclude_delimiters.
  rewrite <- (x12_values_succeeds_iff self (or_default custom)).
  split.
  - intros [out Hout]. cbn [x12_values] in Hout.
    destruct (x12_values self (or_default custom) (data_fields self))
      as [e|xs]; [discriminate|eauto].
  - intros [xs Hxs]. cbn [x12_values]. rewrite Hxs. eexists; reflexivity.
Qed.

End SegmentProperties.

(* --------------------------------------------------------------------- *)
(** *** Decimal fields *)
(* --------------------------------------------------------------------- *)

Section DecimalProperties.
Import Support Models.





End DecimalProperties.

(* --------------------------------------------------------------------- *)
(** *** Instances built without validation *)
(* --------------------------------------------------------------------- *)

Section UnvalidatedProperties.
Import Support Models.

Lemma fill_defaults_spec (fields : list (string * model_field))
  (data filled : gmap string field_value) :
  fill_defaults fields data = inr filled ->
  data ⊆ filled
  /\ (forall name field, In (name, field) fields -> is_Some (filled !! name))
  /\ (forall name, is_Some (filled !! name) ->
        is_Some (data !! name) \/ In name (map fst fields))
  /\ (forall name field,
        In (name, field) fields -> NoDup (map fst fields) ->
        data !! name = None -> filled !! name = Some (field_default field)).
Proof.
  revert data. induction fields as [|[n f] fields IH]; intros data.
  - intros [= <-]. repeat split; auto.
    + intros ? ? [].
    + intros ? ? [].
  - cbn [fill_defaults].
    destruct (data !! n) as [v|] eqn:Hn.
    + intros H. destruct (IH _ H) as (Hsub & Hall & Hdom & Hdef).
      split; [exact Hsub|]. split; [|split].
      * intros name field [[= <- <-]|Hin]; [|eauto].
        exists v. eapply lookup_weaken; eauto.
      * intros name Hs. destruct (Hdom name Hs); [auto|].
        right. now right.
      * intros name field [[= <- <-]|Hin] Hnd Hnone; [congruence|].
        inversion Hnd; subst. eauto.
    + destruct (field_required f); [discriminate|].
      intros H. destruct (IH _ H) as (Hsub & Hall & Hdom & Hdef).
      assert (Hins : data ⊆ <[n := field_default f]> data)
        by now apply insert_subseteq.
      split; [etrans; eauto|]. split; [|split].
      * intros name field [[= <- <-]|Hin]; [|eauto].
        exists (field_default f). eapply lookup_weaken; [|exact Hsub].
        apply lookup_insert_eq.
      * intros name Hs. destruct (Hdom name Hs) as [Hd|Hd].
        -- destruct (decide (n = name)) as [->|Hne].
           ++ right. now left.
           ++ rewrite lookup_insert_ne in Hd by exact Hne. now left.
        -- right. now right.
      * intros name field [[= <- <-]|Hin] Hnd Hnone.
        -- eapply lookup_weaken; [|exact Hsub]. apply lookup_insert_eq.
        -- inversion Hnd as [|? ? Hnotin Hnd']; subst.
           apply Hdef; auto.
           rewrite lookup_insert_ne; [exact Hnone|].
           intros ->. apply Hnotin. apply list_elem_of_In, in_map_iff.
           now exists (name, field).
Qed.

Lemma fill_defaults_succeeds_iff (fields : list (string * model_field))
  (data : gmap string field_value) :
  NoDup (map fst fields) ->
  (exists filled, fill_defaults fields data = inr filled)
  <-> (forall name field, In (name, field) fields ->
         field_required field = true -> is_Some (data !! name)).
Proof.
  revert data. induction fields as [|[n f] fields IH]; intros data Hnd.
  - split; [intros _ ? ? []|]. intros _. now exists data.
  - inversion Hnd as [|? ? Hnotin Hnd']; subst. cbn [fill_defaults]. split.
    + intros [filled H] name field [[= <- <-]|Hin] Hreq.
      * destruct (data !! n); [eauto|]. rewrite Hreq in H. discriminate.
      * destruct (data !! n) as [v|] eqn:Hn.
        -- apply (proj1 (IH data Hnd')) with (field := field); eauto.
        -- destruct (field_required f); [discriminate|].
           assert (Hs : is_Some (<[n := field_default f]> data !! name)).
           { apply (proj1 (IH _ Hnd')) with (field := field); eauto. }
           rewrite lookup_insert_ne in Hs; [exact Hs|].
           intros ->. apply Hnotin. apply list_elem_of_In, in_map_iff.
           now exists (name, field).
    + intros Hreq. destruct (data !! n) as [v|] eqn:Hn.
      * apply IH; [exact Hnd'|]. intros name field Hin. apply Hreq. now right.
      * destruct (field_required f) eqn:Hf.
        -- destruct (Hreq n f (or_introl eq_refl) Hf) as [? Hsome].
           congruence.
        -- apply IH; [exact Hnd'|]. intros name field Hin Hr.
           destruct (Hreq name field (or_intror Hin) Hr) as [v Hv].
           exists v. rewrite lookup_insert_ne; [exact Hv|]. congruence.
Qed.

(** X11: unvalidated succeeds if and only if every required field is among
    the keyword arguments (it raises TypeError otherwise); on success the
    instance keeps every argument as given, gives each missing optional
    field its default, has exactly the arguments' names and the field names
    as keys, and its fields-set is that key set. *)
Theorem unvalidated_fills_defaults (fields : list (string * model_field))
  (data : gmap string field_value) :
  NoDup (map fst fields) ->
  ((exists result, unvalidated fields data = inr result)
   <-> (forall name field, In (name, field) fields ->
          field_required field = true -> is_Some (data !! name)))
  /\ (forall dict fields_set,
        unvalidated fields data = inr (dict, fields_set) ->
        data ⊆ dict
        /\ fields_set = dom dict
        /\ dom dict = dom data ∪ list_to_set (map fst fields)
        /\ (forall name field, In (name, field) fields ->
              data !! name = None -> dict !! name = Some (field_default field))).
Proof.
  intros Hnd. split.
  - rewrite <- (fill_defaults_succeeds_iff fields data Hnd).
    unfold unvalidated. split.
    + intros [r H]. destruct (fill_defaults fields data); [discriminate|eauto].
    + intros [filled ->]. eauto.
  - intros dict fields_set. unfold unvalidated.
    destruct (fill_defaults fields data) as [e|filled] eqn:Hfill;
      [discriminate|].
    intros [= <- <-].
    destruct (fill_defaults_spec _ _ _ Hfill) as (Hsub & Hall & Hdom & Hdef).
    split; [exact Hsub|]. split; [reflexivity|]. split; [|eauto].
    apply set_eq. intros name.
    rewrite elem_of_union, !elem_of_dom, elem_of_list_to_set, list_elem_of_In.
    split.
    + apply Hdom.
    + intros [[v Hv]|Hin].
      * exists v. eapply lookup_weaken; eauto.
      * apply in_map_iff in Hin as [[n f] [<- Hin]]. eauto.
Qed.

Lemma unvalidated_fills_defaults_witness :
  (exists result,
     unvalidated
       [("delimiters", mk_model_field false FNone);
        ("segment_name", mk_model_field true FNone);
        ("entity_identifier_code", mk_model_field true FNone);
        ("name_suffix", mk_model_field false FNone)]
       (list_to_map [("segment_name", FStr "NM1");
                     ("entity_identifier_code", FStr "IL")]) = inr result)
  /\ (forall dict fields_set,
        unvalidated
          [("delimiters", mk_model_field false FNone);
           ("segment_name", mk_model_field true FNone);
           ("entity_identifier_code", mk_model_field true FNone);
           ("name_suffix", mk_model_field false FNone)]
          (list_to_map [("segment_name", FStr "NM1");
                        ("entity_identifier_code", FStr "IL")])
        = inr (dict, fields_set) ->
        dict !! "segment_name" = Some (FStr "NM1")
        /\ dict !! "name_suffix" = Some FNone
        /\ fields_set = dom dict).
Proof.
  assert (Hnd : NoDup (map fst
                         [("delimiters", mk_model_field false FNone);
                          ("segment_name", mk_model_field true FNone);
                          ("entity_identifier_code", mk_model_field true FNone);
                          ("name_suffix", mk_model_field false FNone)])).
  { apply (bool_decide_unpack _). vm_compute. exact I. }
  destruct (unvalidated_fills_defaults _
              (list_to_map [("segment_name", FStr "NM1");
                            ("entity_identifier_code", FStr "IL")]) Hnd)
    as [Hiff Hpost].
  split.
  - apply Hiff. intros name field Hin Hreq.
    cbn [In] in Hin.
    destruct Hin as [E|[E|[E|[E|[]]]]]; inversion E; subst;
      first [discriminate Hreq | eexists; reflexivity].
  - intros dict fields_set Hrun.
    destruct (Hpost dict fields_set Hrun) as (Hsub & Hset & _ & Hdef).
    split; [|split; [|exact Hset]].
    + eapply lookup_weaken; [|exact Hsub]. reflexivity.
    + apply (Hdef "name_suffix" (mk_model_field false FNone));
        [cbn; tauto|reflexivity].
Defined.

End UnvalidatedProperties.

(* --------------------------------------------------------------------- *)
(** *** Serialisation of a segment group *)
(* --------------------------------------------------------------------- *)

Section GroupProperties.
Import Support Models.

Lemma field_instance_nested_ind (P : field_instance -> Prop) :
  P INone ->
  (forall s, P (ISegment s)) ->
  (forall fields, Forall P fields -> P (IGroup fields)) ->
  (forall items, Forall P items -> P (IList items)) ->
  forall i, P i.
Proof.
  intros HNone HSegment HGroup HList. fix rec 1.
  intros [| s | fields | items].
  - exact HNone.
  - apply HSegment.
  - apply HGroup. induction fields as [|f fs IHfs]; constructor;
      [apply rec | exact IHfs].
  - apply HList. induction items as [|f fs IHfs]; constructor;
      [apply rec | exact IHfs].
Qed.

Lemma item_x12_group (unl : bool) (d : X12Delimiters)
  (fields : list field_instance) :
  item_x12 unl d (IGroup fields)
  = match fields_x12 unl d fields with
    | inl e => inl e
    | inr x12_segments =>
        inr (String.concat (if unl then String "010" EmptyString
                            else EmptyString) x12_segments)
    end.
Proof.
  cbn [item_x12].
  match goal with
  | |- match ?w fields with _ => _ end = _ =>
      assert (Hw : forall fs, w fs = fields_x12 unl d fs)
  end.
  { induction fs as [|f fs IH]; [reflexivity|].
    cbn [fields_x12]. destruct f; rewrite ?IH; reflexivity. }
  now rewrite Hw.
Qed.

Lemma fields_x12_list (unl : bool) (d : X12Delimiters)
  (items fs : list field_instance) :
  fields_x12 unl d (IList items :: fs)
  = match items_x12 unl d items with
    | inl e => inl e
    | inr xs =>
        match fields_x12 unl d fs with
        | inl e => inl e
        | inr ys => inr (xs ++ ys)
        end
    end.
Proof.
  cbn [fields_x12].
  match goal with
  | |- match ?w items with _ => _ end = _ =>
      assert (Hw : forall l, w l = items_x12 unl d l)
  end.
  { induction l as [|i l IH]; [reflexivity|].
    cbn [items_x12]. now rewrite IH. }
  now rewrite Hw.
Qed.

Lemma segments_of_group (fields : list field_instance) :
  segments_of (IGroup fields) = segments_of_all fields.
Proof.
  cbn [segments_of]. unfold segments_of_all.
  induction fields as [|f fs IH]; [reflexivity|].
  cbn [flat_map]. now rewrite <- IH.
Qed.

Lemma segments_of_list (items : list field_instance) :
  segments_of (IList items) = segments_of_all items.
Proof.
  cbn [segments_of]. unfold segments_of_all.
  induction items as [|f fs IH]; [reflexivity|].
  cbn [flat_map]. now rewrite <- IH.
Qed.

Lemma concat_empty_app (xs ys : list string) :
  String.concat "" (xs ++ ys) = String.concat "" xs +:+ String.concat "" ys.
Proof.
  induction xs as [|x xs IH]; [reflexivity|].
  change ((x :: xs) ++ ys) with (x :: (xs ++ ys)).
  assert (Hc : forall l, String.concat "" (x :: l) = x +:+ String.concat "" l).
  { intros [|y l]; [now rewrite append_empty_r|reflexivity]. }
  now rewrite !Hc, IH, append_assoc.
Qed.

Lemma concat_empty_cons (x : string) (l : list string) :
  String.concat "" (x :: l) = x +:+ String.concat "" l.
Proof. destruct l; [now rewrite append_empty_r|reflexivity]. Qed.

Lemma rendered_app (d : X12Delimiters) (s1 s2 : list X12Segment)
  (o1 o2 : list string) :
  rendered d s1 o1 -> rendered d s2 o2 -> rendered d (s1 ++ s2) (o1 ++ o2).
Proof. apply Forall2_app. Qed.

Lemma items_x12_flat (d : X12Delimiters) (items : list field_instance) :
  Forall (flat_statement d) items ->
  forall xs,
    items_x12 false d items = inr xs ->
    exists outs, rendered d (segments_of_all items) outs
                 /\ String.concat "" xs = String.concat "" outs.
Proof.
  induction 1 as [|i items [Hi _] _ IH]; intros xs Hxs.
  - injection Hxs as <-. exists []. split; [constructor|reflexivity].
  - cbn [items_x12] in Hxs.
    destruct (item_x12 false d i) as [e|x] eqn:Hx; [discriminate|].
    destruct (items_x12 false d items) as [e|ys] eqn:Hys; [discriminate|].
    injection Hxs as <-.
    destruct (Hi _ eq_refl) as (o1 & Hr1 & ->).
    destruct (IH _ eq_refl) as (o2 & Hr2 & Heq).
    exists (o1 ++ o2). split.
    + unfold segments_of_all. cbn [flat_map]. now apply rendered_app.
    + now rewrite concat_empty_cons, concat_empty_app, Heq.
Qed.

Lemma fields_x12_flat (d : X12Delimiters) (fields : list field_instance) :
  Forall (flat_statement d) fields ->
  forall parts,
    fields_x12 false d fields = inr parts ->
    exists outs, rendered d (segments_of_all fields) outs
                 /\ String.concat "" parts = String.concat "" outs.
Proof.
  induction 1 as [|f fs [Hf Hl] _ IH]; intros parts Hparts.
  - injection Hparts as <-. exists []. split; [constructor|reflexivity].
  - destruct f as [| s | gfields | items].
    + cbn [fields_x12] in Hparts. now apply IH in Hparts.
    + cbn [fields_x12] in Hparts.
      destruct (item_x12 false d (ISegment s)) as [e|x] eqn:Hx;
        [discriminate|].
      destruct (fields_x12 false d fs) as [e|ys] eqn:Hys; [discriminate|].
      injection Hparts as <-.
      destruct (Hf _ eq_refl) as (o1 & Hr1 & ->).
      destruct (IH _ eq_refl) as (o2 & Hr2 & Heq).
      exists (o1 ++ o2). split.
      * unfold segments_of_all. cbn [flat_map]. now apply rendered_app.
      * now rewrite concat_empty_cons, concat_empty_app, Heq.
    + cbn [fields_x12] in Hparts.
      destruct (item_x12 false d (IGroup gfields)) as [e|x] eqn:Hx;
        [discriminate|].
      destruct (fields_x12 false d fs) as [e|ys] eqn:Hys; [discriminate|].
      injection Hparts as <-.
      destruct (Hf _ eq_refl) as (o1 & Hr1 & ->).
      destruct (IH _ eq_refl) as (o2 & Hr2 & Heq).
      exists (o1 ++ o2). split.
      * unfold segments_of_all. cbn [flat_map]. now apply rendered_app.
      * now rewrite concat_empty_cons, concat_empty_app, Heq.
    + rewrite fields_x12_list in Hparts.
      destruct (items_x12 false d items) as [e|xs] eqn:Hxs; [discriminate|].
      destruct (fields_x12 false d fs) as [e|ys] eqn:Hys; [discriminate|].
      injection Hparts as <-.
      destruct (Hl _ eq_refl) as (o1 & Hr1 & Heq1).
      destruct (IH _ eq_refl) as (o2 & Hr2 & Heq).
      exists (o1 ++ o2). split.
      * unfold segments_of_all. cbn [flat_map].
        rewrite segments_of_list. now apply rendered_app.
      * now rewrite !concat_empty_app, Heq, Heq1.
Qed.

Lemma item_x12_flat (d : X12Delimiters) (item : field_instance) :
  flat_statement d item.
Proof.
  induction item as [| s | fields IH | items IH]
    using field_instance_nested_ind; (split; [intros out|]); try exact I.
  - discriminate.
  - cbn [item_x12 segments_of]. intros H. exists [out]. split.
    + now repeat constructor.
    + reflexivity.
  - rewrite item_x12_group, segments_of_group.
    destruct (fields_x12 false d fields) as [e|parts] eqn:Hparts;
      [discriminate|]. intros [= <-].
    now apply fields_x12_flat.
  - discriminate.
  - now apply items_x12_flat.
Qed.

(** X12: With use_new_lines false, whenever X12SegmentGroup.x12 returns, its
    output is the concatenation, in document order, of the outputs of x12 on
    every segment nested in the group (through nested groups and lists),
    each called with the group's delimiters; fields that are None and empty
    groups contribute nothing. *)
Theorem group_x12_concatenates_segments (fields : list field_instance)
  (custom : option X12Delimiters) (out : string) :
  group_x12 fields false custom = inr out ->
  exists outs,
    Forall2 (fun s o => x12 s (Some (or_default custom)) = inr o)
      (segments_of (IGroup fields)) outs
    /\ out = String.concat "" outs.
Proof. intros H. now apply (item_x12_flat (or_default custom) (IGroup fields)). Qed.

Lemma group_x12_concatenates_segments_witness :
  exists outs,
    Forall2 (fun s o => x12 s (Some default_delimiters) = inr o)
      [nm1_with_bar_delimiters; sv1_with_bar_delimiters;
       nm1_with_bar_delimiters] outs
    /\ "NM1*IL*1*DOE*JOHN~SV1*HC:99213*40.00*UN*1~NM1*IL*1*DOE*JOHN~"
       = String.concat "" outs.
Proof.
  apply (group_x12_concatenates_segments
           [ISegment nm1_with_bar_delimiters; INone;
            IList [ISegment sv1_with_bar_delimiters;
                   IGroup [INone; ISegment nm1_with_bar_delimiters]];
            IGroup []]
           None
           "NM1*IL*1*DOE*JOHN~SV1*HC:99213*40.00*UN*1~NM1*IL*1*DOE*JOHN~").
  vm_compute. reflexivity.
Defined.

End GroupProperties.

(* ===================================================================== *)
(** ** Properties of the 837 loop handlers                                *)
(* ===================================================================== *)

Import Parsing.

Section Primitives.
Context (c : X12ParserContext) (h : list object).

Lemma getitem_dict (l : loc) (d : gmap string value) (k : string) (v : value) :
  h !! l = Some (ODict d) -> d !! k = Some v ->
  getitem (VRef l) k (mk_state c h) = inr (v, mk_state c h).
Proof. intros Hl Hk. unfold getitem, bind, deref. cbn [store]. now rewrite Hl, Hk. Qed.

Lemma getitem_last_list (l : loc) (xs : list value) (v : value) :
  h !! l = Some (OList xs) -> last xs = Some v ->
  getitem_last (VRef l) (mk_state c h) = inr (v, mk_state c h).
Proof.
  intros Hl Hv. unfold getitem_last, bind, deref. cbn [store].
  now rewrite Hl, Hv.
Qed.

Lemma contains_dict (l : loc) (d : gmap string value) (k : string) :
  h !! l = Some (ODict d) ->
  contains k (VRef l) (mk_state c h)
  = inr (bool_decide (is_Some (d !! k)), mk_state c h).
Proof. intros Hl. unfold contains, bind, deref. cbn [store]. now rewrite Hl. Qed.

Lemma dict_get_dict (l : loc) (d : gmap string value) (k : string) :
  h !! l = Some (ODict d) ->
  dict_get (VRef l) k (mk_state c h) = inr (d !! k, mk_state c h).
Proof. intros Hl. unfold dict_get, bind, deref. cbn [store]. now rewrite Hl. Qed.

Lemma setitem_dict (l : loc) (d : gmap string value) (k : string) (v : value) :
  h !! l = Some (ODict d) ->
  setitem (VRef l) k v (mk_state c h)
  = inr (tt, mk_state c (<[l := ODict (<[k := v]> d)]> h)).
Proof. intros Hl. unfold setitem, bind, deref. cbn [store]. now rewrite Hl. Qed.

Lemma append_list (l : loc) (xs : list value) (v : value) :
  h !! l = Some (OList xs) ->
  append (VRef l) v (mk_state c h)
  = inr (tt, mk_state c (<[l := OList (xs ++ [v])]> h)).
Proof. intros Hl. unfold append, bind, deref. cbn [store]. now rewrite Hl. Qed.

Lemma alloc_fresh (o : object) :
  alloc o (mk_state c h) = inr (VRef (length h), mk_state c (h ++ [o])).
Proof. reflexivity. Qed.

Lemma lookup_alloc_old (o x : object) (l : loc) :
  h !! l = Some x -> (h ++ [o]) !! l = Some x.
Proof. apply lookup_app_l_Some. Qed.

Lemma lookup_alloc_new (o : object) (n : loc) :
  n = length h -> (h ++ [o]) !! n = Some o.
Proof. intros ->. now apply list_lookup_middle. Qed.

Lemma lookup_update_eq (o x : object) (l : loc) :
  h !! l = Some x -> <[l := o]> h !! l = Some o.
Proof. intros H. apply list_lookup_insert_eq. eapply lookup_lt_Some, H. Qed.

Lemma lookup_update_ne (o x : object) (l l' : loc) :
  l <> l' -> h !! l' = Some x -> <[l := o]> h !! l' = Some x.
Proof. intros Hne H. now rewrite list_lookup_insert_ne. Qed.

End Primitives.

Lemma bind_run {A B} (m : M A) (k : A -> M B) (st st' : state) (a : A) :
  m st = inr (a, st') -> bind m k st = k a st'.
Proof. intros H. unfold bind. now rewrite H. Qed.

Lemma bind_assoc {A B C} (m : M A) (k : A -> M B) (k' : B -> M C) (st : state) :
  bind (bind m k) k' st = bind m (fun a => bind (k a) k') st.
Proof. unfold bind. destruct (m st) as [e|[a st']]; reflexivity. Qed.

Lemma bind_get_context {B} (k : X12ParserContext -> M B) (st : state) :
  bind get_context k st = k (context st) st.
Proof. reflexivity. Qed.

Lemma bind_ret {A B} (a : A) (k : A -> M B) (st : state) :
  bind (ret a) k st = k a st.
Proof. reflexivity. Qed.

Lemma set_loop_context_run (name : TransactionLoops) (v : value)
  (c : X12ParserContext) (h : list object) :
  set_loop_context name v (mk_state c h)
  = inr (tt, mk_state (mk_context (VStr (loop_id name)) v (transaction_data c)
                         (subscriber_record c) (patient_record c)
                         (hl_segment c)) h).
Proof. reflexivity. Qed.

Ltac store_len :=
  repeat first [ rewrite length_app | rewrite length_insert ];
  cbn [length]; lia.

(** Two locations differ when one was allocated before the other, or when
    they hold objects of different kinds. *)
Ltac loc_ne :=
  repeat match goal with
         | H : _ !! ?l = Some _ |- _ =>
             lazymatch goal with
             | _ : l < _ |- _ => fail
             | _ => pose proof (lookup_lt_Some _ _ _ H)
             end
         end;
  first [ store_len | congruence | intros ->; congruence ].

Ltac lookup_tac :=
  first
    [ eassumption
    | apply lookup_alloc_new; store_len
    | apply lookup_alloc_old; lookup_tac
    | eapply lookup_update_eq; lookup_tac
    | eapply lookup_update_ne; [ loc_ne | lookup_tac ] ].

(** Steps of the symbolic execution of a handler. *)
Ltac run_alloc :=
  unfold new_list, new_dict; erewrite bind_run; [ | apply alloc_fresh ].
Ltac run_getitem :=
  erewrite bind_run; [ | eapply getitem_dict; [ lookup_tac | ] ].
Ltac run_setitem :=
  erewrite bind_run; [ | eapply setitem_dict; lookup_tac ].
Ltac run_append :=
  erewrite bind_run; [ | eapply append_list; lookup_tac ].
Ltac run_last :=
  erewrite bind_run;
  [ | eapply getitem_last_list; [ lookup_tac | apply last_snoc ] ].
Ltac run_contains H :=
  erewrite bind_run; [ | apply (contains_dict _ _ _ _ _ H) ].

(** C4, as the code has it: when set_subscriber_payer_name_loop fires (the
    current loop is loop_2010ba), the payer name loop is stored under the
    subscriber record's loop_2010bb key and the cursor moves to that node,
    and the current loop name is left at the SUBSCRIBER_NAME label
    loop_2010ba: it is not set to loop_2010bb. *)
Theorem set_subscriber_payer_name_loop_label (st : state) (seg : value)
  (sub : loc) (d : gmap string value) :
  loop_name (context st) = VStr (loop_id SUBSCRIBER_NAME) ->
  subscriber_record (context st) = VRef sub ->
  store st !! sub = Some (ODict d) ->
  exists st' d' node,
    set_subscriber_payer_name_loop seg st = inr (tt, st')
    /\ store st' !! sub = Some (ODict d')
    /\ d' !! loop_id SUBSCRIBER_PAYER_NAME = Some node
    /\ loop_container (context st') = node
    /\ loop_name (context st') = VStr "loop_2010ba"
    /\ loop_name (context st') <> VStr (loop_id SUBSCRIBER_PAYER_NAME).
Proof.
  intros Hname Hsub Hd. destruct st as [c h]. cbn [context store] in *.
  unfold set_subscriber_payer_name_loop.
  rewrite bind_get_context. cbn [context]. rewrite Hname, Hsub.
  replace (eq_str (VStr (loop_id SUBSCRIBER_NAME)) (loop_id SUBSCRIBER_NAME))
    with true by reflexivity.
  run_contains Hd.
  destruct (d !! loop_id SUBSCRIBER_PAYER_NAME) as [node|] eqn:Hnode.
  - rewrite bool_decide_eq_true_2 by eauto. cbn [negb]. rewrite bind_ret.
    run_getitem; [|exact Hnode]. rewrite set_loop_context_run.
    eexists _, d, node. split; [reflexivity|].
    cbn [context store loop_container loop_name].
    repeat split; try assumption; discriminate.
  - rewrite bool_decide_eq_false_2 by (intros [? ?]; discriminate).
    cbn [negb]. rewrite bind_assoc. run_alloc. rewrite bind_assoc. run_alloc.
    run_setitem. run_getitem; [|apply lookup_insert_eq].
    rewrite set_loop_context_run.
    eexists _, _, _. split; [reflexivity|].
    cbn [context store loop_container loop_name].
    split; [lookup_tac|]. split; [apply lookup_insert_eq|].
    repeat split; discriminate.
Qed.

(** C10: an NM1 segment with the qualifier 87, handled while the current
    loop name contains loop_2010a and the billing provider record already
    has a loop_2010ab entry, changes nothing: the store, and with it the
    billing provider record and its loop_2010ab node, and the parser
    context with its current loop are what they were. *)
Theorem set_pay_to_address_name_loop_existing (st : state) (seg : value)
  (name : string) (bp : loc) (d : gmap string value) (node : value) :
  loop_name (context st) = VStr name ->
  is_substring "loop_2010a" name = true ->
  _get_billing_provider st = inr (VRef bp, st) ->
  store st !! bp = Some (ODict d) ->
  d !! loop_id BILLING_PROVIDER_PAY_TO_ADDRESS = Some node ->
  set_pay_to_address_name_loop seg st = inr (tt, st).
Proof.
  intros Hname Hsub Hbp Hd Hnode. destruct st as [c h]. cbn [context store] in *.
  unfold set_pay_to_address_name_loop.
  rewrite bind_get_context. cbn [context]. rewrite Hname.
  cbn [contains]. rewrite bind_ret, Hsub.
  rewrite (bind_run _ _ _ _ _ Hbp).
  run_contains Hd. rewrite Hnode.
  rewrite bool_decide_eq_true_2 by eauto. reflexivity.
Qed.

Lemma ensure_list (c : X12ParserContext) (h : list object) (l : loc)
  (d : gmap string value) (k : string) (xs : list value) :
  h !! l = Some (ODict d) ->
  (d !! k = None /\ xs = []
   \/ exists cl, d !! k = Some (VRef cl) /\ h !! cl = Some (OList xs)) ->
  exists h1 d1 cl,
    (if negb (bool_decide (is_Some (d !! k)))
     then let* fresh := new_list [] in setitem (VRef l) k fresh
     else ret tt) (mk_state c h) = inr (tt, mk_state c h1)
    /\ h1 !! l = Some (ODict d1)
    /\ d1 !! k = Some (VRef cl)
    /\ h1 !! cl = Some (OList xs)
    /\ length h <= length h1
    /\ (forall k', k' <> k -> d1 !! k' = d !! k')
    /\ (forall l' o, l' <> l -> h !! l' = Some o -> h1 !! l' = Some o).
Proof.
  intros Hl [[Hnone ->]|(cl & Hcl & Hxs)].
  - rewrite Hnone, bool_decide_eq_false_2 by (intros [? ?]; discriminate).
    cbn [negb]. run_alloc. erewrite setitem_dict by lookup_tac.
    eexists _, _, (length h). split; [reflexivity|].
    split; [lookup_tac|]. split; [apply lookup_insert_eq|].
    split; [lookup_tac|]. split; [store_len|]. split.
    + intros k' Hk'. now apply lookup_insert_ne.
    + intros l' o Hne Ho. lookup_tac.
  - rewrite Hcl, bool_decide_eq_true_2 by eauto. cbn [negb].
    exists h, d, cl. repeat split; auto.
Qed.

Lemma set_claim_loop_appends (st : state) (seg : value) (p : loc)
  (pd : gmap string value) (claims : list value) :
  patient_record (context st) = VRef p ->
  store st !! p = Some (ODict pd) ->
  (pd !! loop_id CLAIM_INFORMATION = None /\ claims = []
   \/ exists cl, pd !! loop_id CLAIM_INFORMATION = Some (VRef cl)
                 /\ store st !! cl = Some (OList claims)) ->
  exists st' cl claim pd' fields,
    set_claim_loop seg st = inr (tt, st')
    /\ store st' !! p = Some (ODict pd')
    /\ pd' !! loop_id CLAIM_INFORMATION = Some (VRef cl)
    /\ store st' !! cl = Some (OList (claims ++ [VRef claim]))
    /\ length (store st) <= claim
    /\ store st' !! claim = Some (ODict fields)
    /\ context st'
       = mk_context (VStr (loop_id CLAIM_INFORMATION)) (VRef claim)
           (transaction_data (context st)) (subscriber_record (context st))
           (patient_record (context st)) (hl_segment (context st)).
Proof.
  intros Hp Hpd Hclaims. destruct st as [c h]. cbn [context store] in *.
  unfold set_claim_loop.
  rewrite bind_get_context. cbn [context]. rewrite Hp.
  run_contains Hpd.
  destruct (ensure_list c h p pd (loop_id CLAIM_INFORMATION) claims Hpd Hclaims)
    as (h1 & d1 & cl & Hrun & Hp1 & Hd1 & Hcl1 & Hlen & _ & _).
  rewrite (bind_run _ _ _ _ _ Hrun). clear Hrun.
  run_getitem; [|exact Hd1].
  do 7 run_alloc. run_append. run_getitem; [|exact Hd1]. run_last.
  rewrite set_loop_context_run.
  eexists _, cl, _, d1, _. split; [reflexivity|].
  cbn [context store].
  split; [lookup_tac|]. split; [exact Hd1|]. split; [lookup_tac|].
  split; [store_len|]. split; [lookup_tac|]. now rewrite Hp.
Qed.

Lemma set_subscriber_record_run (v : value) (c : X12ParserContext)
  (h : list object) :
  set_subscriber_record v (mk_state c h)
  = inr (tt, mk_state (mk_context (loop_name c) (loop_container c)
                         (transaction_data c) v (patient_record c)
                         (hl_segment c)) h).
Proof. reflexivity. Qed.

Lemma set_patient_record_run (v : value) (c : X12ParserContext)
  (h : list object) :
  set_patient_record v (mk_state c h)
  = inr (tt, mk_state (mk_context (loop_name c) (loop_container c)
                         (transaction_data c) (subscriber_record c) v
                         (hl_segment c)) h).
Proof. reflexivity. Qed.

Lemma set_subscriber_loop_subscriber_is_patient (st : state) (seg : value)
  (bp hl : loc) (d hd : gmap string value) (subscribers : list value) :
  _get_billing_provider st = inr (VRef bp, st) ->
  store st !! bp = Some (ODict d) ->
  (d !! loop_id SUBSCRIBER = None /\ subscribers = []
   \/ exists sl, d !! loop_id SUBSCRIBER = Some (VRef sl)
                 /\ store st !! sl = Some (OList subscribers)) ->
  hl_segment (context st) = VRef hl ->
  store st !! hl = Some (ODict hd) ->
  (hd !! "hierarchical_child_code" = Some (VStr "0")
   \/ hd !! "hierarchical_child_code" = None) ->
  exists st' sub sl d',
    set_subscriber_loop seg st = inr (tt, st')
    /\ context st'
       = mk_context (VStr (loop_id SUBSCRIBER)) (VRef sub)
           (transaction_data (context st)) (VRef sub) (VRef sub) (VRef hl)
    /\ store st' !! sub = Some (ODict ∅)
    /\ store st' !! bp = Some (ODict d')
    /\ d' !! loop_id SUBSCRIBER = Some (VRef sl)
    /\ store st' !! sl = Some (OList (subscribers ++ [VRef sub])).
Proof.
  intros Hbp Hd Hsubs Hhl Hhd Hchild.
  destruct st as [c h]. cbn [context store] in *.
  unfold set_subscriber_loop.
  rewrite (bind_run _ _ _ _ _ Hbp).
  run_contains Hd.
  destruct (ensure_list c h bp d (loop_id SUBSCRIBER) subscribers Hd Hsubs)
    as (h1 & d1 & sl & Hrun & Hbp1 & Hd1 & Hsl1 & Hlen & Hkeys & Hothers).
  rewrite (bind_run _ _ _ _ _ Hrun). clear Hrun.
  assert (Hhl1 : exists hd1, h1 !! hl = Some (ODict hd1)
             /\ hd1 !! "hierarchical_child_code"
                = hd !! "hierarchical_child_code").
  { destruct (decide (hl = bp)) as [->|Hne].
    - exists d1. split; [exact Hbp1|].
      rewrite Hkeys by discriminate. congruence.
    - exists hd. split; [|reflexivity]. now apply Hothers. }
  destruct Hhl1 as (hd1 & Hhl1 & Hcode).
  run_getitem; [|exact Hd1]. run_alloc. run_append.
  run_getitem; [|exact Hd1]. run_last.
  rewrite (bind_run _ _ _ _ _ (set_subscriber_record_run _ _ _)).
  rewrite bind_get_context. cbn [context subscriber_record].
  rewrite (bind_run _ _ _ _ _ (set_loop_context_run _ _ _ _)).
  rewrite bind_get_context.
  cbn [context subscriber_record hl_segment transaction_data patient_record].
  rewrite Hhl.
  erewrite bind_run; [|eapply dict_get_dict; lookup_tac].
  rewrite Hcode.
  assert (Hzero : eq_str (default (VStr "0")
                   (hd !! "hierarchical_child_code")) "0" = true)
    by (destruct Hchild as [-> | ->]; reflexivity).
  rewrite Hzero, set_patient_record_run.
  eexists _, _, sl, d1. split; [reflexivity|].
  cbn [context store].
  split; [reflexivity|]. split; [lookup_tac|]. split; [lookup_tac|].
  split; [exact Hd1|]. lookup_tac.
Qed.

(** C2: after set_subscriber_loop handles an HL segment whose cached HL
    record has hierarchical_child_code 0, or none, the patient shortcut is
    the very node the subscriber shortcut holds; set_claim_loop, handling a
    following CLM segment, leaves both shortcuts there and appends its new
    claim loop to the loop_2300 list of that subscriber record, and the
    cursor moves to the claim. *)
Theorem subscriber_is_patient_claim_attached (st : state) (seg_hl seg_clm : value)
  (bp hl : loc) (d hd : gmap string value) (subscribers : list value) :
  _get_billing_provider st = inr (VRef bp, st) ->
  store st !! bp = Some (ODict d) ->
  (d !! loop_id SUBSCRIBER = None /\ subscribers = []
   \/ exists sl, d !! loop_id SUBSCRIBER = Some (VRef sl)
                 /\ store st !! sl = Some (OList subscribers)) ->
  hl_segment (context st) = VRef hl ->
  store st !! hl = Some (ODict hd) ->
  (hd !! "hierarchical_child_code" = Some (VStr "0")
   \/ hd !! "hierarchical_child_code" = None) ->
  exists st1 st2 sub claims claim record fields,
    set_subscriber_loop seg_hl st = inr (tt, st1)
    /\ subscriber_record (context st1) = VRef sub
    /\ patient_record (context st1) = subscriber_record (context st1)
    /\ set_claim_loop seg_clm st1 = inr (tt, st2)
    /\ subscriber_record (context st2) = VRef sub
    /\ patient_record (context st2) = subscriber_record (context st2)
    /\ store st2 !! sub = Some (ODict record)
    /\ record !! loop_id CLAIM_INFORMATION = Some (VRef claims)
    /\ store st2 !! claims = Some (OList [VRef claim])
    /\ store st2 !! claim = Some (ODict fields)
    /\ loop_container (context st2) = VRef claim
    /\ loop_name (context st2) = VStr "loop_2300".
Proof.
  intros Hbp Hd Hsubs Hhl Hhd Hchild.
  destruct (set_subscriber_loop_subscriber_is_patient st seg_hl bp hl d hd
              subscribers Hbp Hd Hsubs Hhl Hhd Hchild)
    as (st1 & sub & sl & d' & Hrun1 & Hc1 & Hsub1 & _).
  destruct (set_claim_loop_appends st1 seg_clm sub ∅ []) 
    as (st2 & claims & claim & record & fields & Hrun2 & Hrec & Hkey & Hlist
        & _ & Hfields & Hc2).
  { now rewrite Hc1. }
  { exact Hsub1. }
  { left. split; [apply lookup_empty|reflexivity]. }
  exists st1, st2, sub, claims, claim, record, fields.
  rewrite Hc2, Hc1. cbn.
  repeat split; assumption.
Qed.

(** *** Reads that later writes under one key do not disturb *)

Lemma stable_ret {A} (k : string) (a : A) : stable_read k (ret a).
Proof. intros c h a' st' [= <- <-]. split; [reflexivity|]. now intros. Qed.

Lemma stable_bind {A B} (k : string) (m : M A) (f : A -> M B) :
  stable_read k m -> (forall a, stable_read k (f a)) ->
  stable_read k (bind m f).
Proof.
  intros Hm Hf c h b st'. unfold bind at 1.
  destruct (m (mk_state c h)) as [e|[a st1]] eqn:Hrun; [discriminate|].
  destruct (Hm _ _ _ _ Hrun) as [-> Hm']. intros Hrun'.
  destruct (Hf a _ _ _ _ Hrun') as [-> Hf']. split; [reflexivity|].
  intros c' h' Hfr. unfold bind. rewrite (Hm' c' h' Hfr). now apply Hf'.
Qed.

Lemma stable_getitem (k : string) (v : value) (key : string) :
  key <> k -> stable_read k (getitem v key).
Proof.
  intros Hne c h a st'. destruct v as [|s|l]; try discriminate.
  unfold getitem, bind, deref. cbn [store].
  destruct (h !! l) as [[d|xs]|] eqn:Hl; try discriminate.
  destruct (d !! key) as [x|] eqn:Hx; [|discriminate].
  intros [= <- <-]. split; [reflexivity|]. intros c' h' Hfr.
  destruct (Hfr _ _ Hl) as (d' & Hl' & Hd').
  unfold getitem, bind, deref. cbn [store].
  now rewrite Hl', (Hd' _ Hne), Hx.
Qed.

Lemma stable_getitem_last (k : string) (v : value) :
  stable_read k (getitem_last v).
Proof.
  intros c h a st'. destruct v as [|s|l]; try discriminate.
  - unfold getitem_last. destruct (last_char s); [|discriminate].
    intros [= <- <-]. split; [reflexivity|]. now intros.
  - unfold getitem_last, bind, deref. cbn [store].
    destruct (h !! l) as [[d|xs]|] eqn:Hl; try discriminate.
    destruct (last xs) as [x|] eqn:Hx; [|discriminate].
    intros [= <- <-]. split; [reflexivity|]. intros c' h' Hfr.
    pose proof (Hfr _ _ Hl) as Hl'. cbn beta iota in Hl'.
    unfold getitem_last, bind, deref. cbn [store].
    now rewrite Hl', Hx.
Qed.

Lemma stable_contains (k : string) (v : value) (key : string) :
  key <> k -> stable_read k (contains key v).
Proof.
  intros Hne c h a st'. destruct v as [|s|l]; try discriminate.
  - intros [= <- <-]. split; [reflexivity|]. now intros.
  - unfold contains, bind, deref. cbn [store].
    destruct (h !! l) as [[d|xs]|] eqn:Hl; try discriminate.
    + intros [= <- <-]. split; [reflexivity|]. intros c' h' Hfr.
      destruct (Hfr _ _ Hl) as (d' & Hl' & Hd').
      unfold contains, bind, deref. cbn [store].
      now rewrite Hl', (Hd' _ Hne).
    + intros [= <- <-]. split; [reflexivity|]. intros c' h' Hfr.
      pose proof (Hfr _ _ Hl) as Hl'. cbn beta iota in Hl'.
      unfold contains, bind, deref. cbn [store].
      now rewrite Hl'.
Qed.

Lemma stable_dict_get (k : string) (v : value) (key : string) :
  key <> k -> stable_read k (dict_get v key).
Proof.
  intros Hne c h a st'. destruct v as [|s|l]; try discriminate.
  unfold dict_get, bind, deref. cbn [store].
  destruct (h !! l) as [[d|xs]|] eqn:Hl; try discriminate.
  intros [= <- <-]. split; [reflexivity|]. intros c' h' Hfr.
  destruct (Hfr _ _ Hl) as (d' & Hl' & Hd').
  unfold dict_get, bind, deref. cbn [store].
  now rewrite Hl', (Hd' _ Hne).
Qed.

Lemma stable_is_patient_a_dependent (k : string) (v : value) :
  "hl_segment" <> k -> "hierarchical_level_code" <> k ->
  stable_read k (_is_patient_a_dependent v).
Proof.
  intros H1 H2. unfold _is_patient_a_dependent.
  apply stable_bind; [now apply stable_dict_get|].
  intros [hl|]; [|apply stable_ret].
  apply stable_bind; [now apply stable_dict_get|]. intros code.
  apply stable_ret.
Qed.

Lemma stable_claim_of (patient subscriber : value) :
  stable_read "loop_2430" (claim_of patient subscriber).
Proof.
  unfold claim_of.
  apply stable_bind; [now apply stable_is_patient_a_dependent|].
  intros dependent. apply stable_bind.
  - destruct dependent; [apply stable_ret|].
    apply stable_bind; [now apply stable_contains|].
    intros present. apply stable_ret.
  - intros [|]; (apply stable_bind; [now apply stable_getitem|]);
      intros claims; apply stable_getitem_last.
Qed.

Lemma get_service_line_framed (c c' : X12ParserContext) (h h' : list object)
  (v : value) (st' : state) :
  _get_service_line (mk_state c h) = inr (v, st') ->
  patient_record c' = patient_record c ->
  subscriber_record c' = subscriber_record c ->
  frame "loop_2430" h h' ->
  st' = mk_state c h
  /\ _get_service_line (mk_state c' h') = inr (v, mk_state c' h').
Proof.
  intros Hrun Hp Hs Hfr.
  assert (Hst : forall c0,
             stable_read "loop_2430"
               (let* claim := claim_of (patient_record c0) (subscriber_record c0) in
                let* lines := getitem claim (loop_id CLAIM_SERVICE_LINE) in
                getitem_last lines)).
  { intros c0. apply stable_bind; [apply stable_claim_of|].
    intros claim. apply stable_bind; [now apply stable_getitem|].
    intros lines. apply stable_getitem_last. }
  assert (Hunfold : forall c0 h0,
             _get_service_line (mk_state c0 h0)
             = (let* claim := claim_of (patient_record c0) (subscriber_record c0) in
                let* lines := getitem claim (loop_id CLAIM_SERVICE_LINE) in
                getitem_last lines) (mk_state c0 h0)) by reflexivity.
  rewrite Hunfold in Hrun. destruct (Hst c _ _ _ _ Hrun) as [-> Hrun'].
  split; [reflexivity|]. rewrite Hunfold, Hp, Hs. now apply Hrun'.
Qed.

Lemma frame_alloc_update (k : string) (h h' : list object) (l : loc)
  (d : gmap string value) (v : value) :
  h !! l = Some (ODict d) ->
  (forall l' o, h !! l' = Some o -> h' !! l' = Some o) ->
  frame k h (<[l := ODict (<[k := v]> d)]> h').
Proof.
  intros Hl Hext l' o Ho. destruct (decide (l' = l)) as [->|Hne].
  - rewrite Hl in Ho. injection Ho as <-.
    exists (<[k := v]> d). split.
    + eapply lookup_update_eq. eauto.
    + intros k' Hk'. now apply lookup_insert_ne.
  - destruct o as [d0|xs].
    + exists d0. split; [|reflexivity].
      eapply lookup_update_ne; [congruence|]. eauto.
    + eapply lookup_update_ne; [congruence|]. eauto.
Qed.

Lemma frame_extend (k : string) (h h1 h2 : list object) :
  frame k h h1 ->
  (forall l o, l < length h -> h1 !! l = Some o -> h2 !! l = Some o) ->
  frame k h h2.
Proof.
  intros Hfr Hext l o Ho. specialize (Hfr l o Ho).
  apply lookup_lt_Some in Ho. destruct o as [d|xs].
  - destruct Hfr as (d' & Hl' & Hd'). exists d'. split; eauto.
  - eauto.
Qed.

(** One SVD segment: whatever the service line held under loop_2430, it
    holds a list of one entry afterwards. *)
Lemma set_service_line_adjudication_loop_step (c : X12ParserContext)
  (h : list object) (seg : value) (sl : loc) (d : gmap string value) :
  _get_service_line (mk_state c h) = inr (VRef sl, mk_state c h) ->
  h !! sl = Some (ODict d) ->
  exists c' h' d',
    set_service_line_adjudication_loop seg (mk_state c h)
    = inr (tt, mk_state c' h')
    /\ patient_record c' = patient_record c
    /\ subscriber_record c' = subscriber_record c
    /\ frame "loop_2430" h h'
    /\ h' !! sl = Some (ODict d')
    /\ entries_under (VRef sl) "loop_2430" (mk_state c' h') = Some 1.
Proof.
  intros Hsl Hd. unfold set_service_line_adjudication_loop.
  rewrite (bind_run _ _ _ _ _ Hsl).
  replace (truthy_str (loop_id CLAIM_SERVICE_LINE_LINE_ADJUDICATION_INFORMATION))
    with true by reflexivity.
  rewrite bind_assoc. run_alloc. run_setitem.
  run_getitem; [|apply lookup_insert_eq].
  do 2 run_alloc. run_append.
  run_getitem; [|apply lookup_insert_eq]. run_last.
  rewrite set_loop_context_run.
  eexists _, _, _. split; [reflexivity|].
  split; [reflexivity|]. split; [reflexivity|]. split; [|split].
  - eapply frame_extend.
    + apply (frame_alloc_update "loop_2430" h (h ++ [OList []]) sl d
               (VRef (length h)) Hd).
      intros l' o Ho. lookup_tac.
    + intros l' o Hlt Ho.
      eapply lookup_update_ne; [lia|]. lookup_tac.
  - lookup_tac.
  - unfold entries_under. cbn [store].
    erewrite (lookup_update_ne _ _ _ (length h) sl); [| loc_ne | lookup_tac ].
    change (loop_id CLAIM_SERVICE_LINE_LINE_ADJUDICATION_INFORMATION)
      with "loop_2430".
    cbv beta iota. rewrite lookup_insert_eq.
    erewrite lookup_update_eq by lookup_tac. reflexivity.
Qed.

(** C1, as the code has it: handling n consecutive SVD segments (n >= 1)
    for a service line leaves its loop_2430 list with one entry, not n:
    set_service_line_adjudication_loop creates the list anew each time. *)
Theorem set_service_line_adjudication_loop_overwrites (n : nat) (st : state)
  (seg : value) (sl : loc) (d : gmap string value) :
  _get_service_line st = inr (VRef sl, st) ->
  store st !! sl = Some (ODict d) ->
  exists st',
    repeat_handler (S n) set_service_line_adjudication_loop seg st
    = inr (tt, st')
    /\ entries_under (VRef sl) "loop_2430" st' = Some 1.
Proof.
  revert st d. induction n as [|n IH]; intros [c h] d Hsl Hd;
    cbn [store] in Hd;
    destruct (set_service_line_adjudication_loop_step c h seg sl d Hsl Hd)
      as (c' & h' & d' & Hrun & Hp & Hs & Hfr & Hd' & Hone).
  - exists (mk_state c' h'). split; [|exact Hone].
    cbn [repeat_handler]. now rewrite (bind_run _ _ _ _ _ Hrun).
  - destruct (get_service_line_framed c c' h h' _ _ Hsl Hp Hs Hfr)
      as [_ Hsl'].
    destruct (IH (mk_state c' h') d' Hsl' Hd') as (st' & Hrest & Hentries).
    exists st'. split; [|exact Hentries].
    change (repeat_handler (S (S n)) set_service_line_adjudication_loop seg)
      with (bind (set_service_line_adjudication_loop seg)
              (fun _ => repeat_handler (S n)
                          set_service_line_adjudication_loop seg)).
    now rewrite (bind_run _ _ _ _ _ Hrun).
Qed.

Lemma set_claim_entity_loop_dn (st : state) (sg : loc) (name : string)
  (sd : gmap string value) (cl : loc) (cd : gmap string value) :
  loop_name (context st) = VStr name ->
  store st !! sg = Some (ODict sd) ->
  sd !! "entity_identifier_code" = Some (VStr "DN") ->
  claim_entity_guard name = true ->
  _get_claim st = inr (VRef cl, st) ->
  store st !! cl = Some (ODict cd) ->
  exists st' cd' node,
    set_claim_entity_loop (VRef sg) st = inr (tt, st')
    /\ store st' !! cl = Some (ODict cd')
    /\ cd' !! "loop_2310a" = Some node
    /\ (cd !! "loop_2310a" = Some node
        \/ cd !! "loop_2310a" = None
           /\ exists nl fields, node = VRef nl /\ length (store st) <= nl
                                /\ store st' !! nl = Some (ODict fields))
    /\ loop_container (context st') = node
    /\ loop_name (context st') = VStr "loop_2310a".
Proof.
  intros Hname Hsg Hid Hguard Hclaim Hcd.
  destruct st as [c h]. cbn [context store] in *.
  unfold set_claim_entity_loop.
  rewrite bind_get_context. cbn [context]. rewrite Hname.
  cbn [contains]. rewrite bind_ret.
  assert (Hg : (if is_substring "loop_2300" name then ret true
                else ret (is_substring "loop_2310" name))
               = (ret true : M bool)).
  { unfold claim_entity_guard in Hguard.
    destruct (is_substring "loop_2300" name); [reflexivity|].
    cbn [orb] in Hguard. now rewrite Hguard. }
  rewrite Hg, bind_ret.
  erewrite bind_run; [|eapply dict_get_dict; exact Hsg].
  rewrite Hid.
  cbn [default from_option id eq_str String.eqb Ascii.eqb Bool.eqb andb orb
         negb truthy_str loop_id].
  rewrite (bind_run _ _ _ _ _ Hclaim).
  run_contains Hcd.
  destruct (cd !! "loop_2310a") as [node|] eqn:Hnode.
  - rewrite bool_decide_eq_true_2 by eauto. cbn [negb]. rewrite bind_ret.
    run_getitem; [|exact Hnode]. rewrite set_loop_context_run.
    eexists _, cd, node. split; [reflexivity|].
    cbn [context store loop_container loop_name].
    repeat split; auto.
  - rewrite bool_decide_eq_false_2 by (intros [? ?]; discriminate).
    cbn [negb]. 
    replace (loop_eqb CLAIM_REFERRING_PROVIDER_NAME CLAIM_REFERRING_PROVIDER_NAME)
      with true by reflexivity.
    cbn [negb]. rewrite bind_assoc. run_alloc. rewrite bind_assoc. run_alloc.
    rewrite bind_assoc. run_alloc. run_setitem.
    run_getitem; [|apply lookup_insert_eq].
    rewrite set_loop_context_run.
    eexists _, _, _. split; [reflexivity|].
    cbn [context store loop_container loop_name].
    split; [lookup_tac|]. split; [apply lookup_insert_eq|].
    split; [|split; reflexivity].
    right. split; [reflexivity|]. eexists _, _. split; [reflexivity|].
    split; [store_len|]. lookup_tac.
Qed.

Lemma set_service_line_entities_loop_dn (st : state) (sg : loc) (name : string)
  (sd : gmap string value) (sl : loc) (ld : gmap string value) :
  loop_name (context st) = VStr name ->
  store st !! sg = Some (ODict sd) ->
  sd !! "entity_identifier_code" = Some (VStr "DN") ->
  service_line_entity_guard name = true ->
  _get_service_line st = inr (VRef sl, st) ->
  store st !! sl = Some (ODict ld) ->
  exists st' ld' nl fields,
    set_service_line_entities_loop (VRef sg) st = inr (tt, st')
    /\ store st' !! sl = Some (ODict ld')
    /\ ld' !! "loop_2420f" = Some (VRef nl)
    /\ length (store st) <= nl
    /\ store st' !! nl = Some (ODict fields)
    /\ loop_container (context st') = VRef nl
    /\ loop_name (context st') = VStr "loop_2420f".
Proof.
  intros Hname Hsg Hid Hguard Hline Hld.
  destruct st as [c h]. cbn [context store] in *.
  unfold set_service_line_entities_loop.
  rewrite bind_get_context. cbn [context]. rewrite Hname.
  cbn [contains]. rewrite bind_ret.
  unfold service_line_entity_guard in Hguard. rewrite Hguard.
  erewrite bind_run; [|eapply dict_get_dict; exact Hsg].
  rewrite Hid.
  cbn [default from_option id eq_str String.eqb Ascii.eqb Bool.eqb andb orb
         negb truthy_str loop_id].
  rewrite (bind_run _ _ _ _ _ Hline).
  do 2 run_alloc. run_setitem. run_getitem; [|apply lookup_insert_eq].
  rewrite set_loop_context_run.
  eexists _, _, _, _. split; [reflexivity|].
  cbn [context store loop_container loop_name].
  split; [lookup_tac|]. split; [apply lookup_insert_eq|].
  split; [store_len|]. split; [lookup_tac|]. split; reflexivity.
Qed.

Lemma entity_guards_disjoint (l : TransactionLoops) :
  claim_entity_guard (loop_id l) && service_line_entity_guard (loop_id l)
  = false.
Proof. destruct l; reflexivity. Qed.

Lemma set_claim_entity_loop_skips (st : state) (seg : value) (name : string) :
  loop_name (context st) = VStr name ->
  claim_entity_guard name = false ->
  set_claim_entity_loop seg st = inr (tt, st).
Proof.
  intros Hname Hguard. destruct st as [c h]. cbn [context] in Hname.
  unfold set_claim_entity_loop.
  rewrite bind_get_context. cbn [context]. rewrite Hname.
  cbn [contains]. rewrite bind_ret.
  unfold claim_entity_guard in Hguard.
  apply orb_false_iff in Hguard as [-> Hsecond].
  rewrite bind_ret, Hsecond. reflexivity.
Qed.

Lemma set_service_line_entities_loop_skips (st : state) (seg : value)
  (name : string) :
  loop_name (context st) = VStr name ->
  service_line_entity_guard name = false ->
  set_service_line_entities_loop seg st = inr (tt, st).
Proof.
  intros Hname Hguard. destruct st as [c h]. cbn [context] in Hname.
  unfold set_service_line_entities_loop.
  rewrite bind_get_context. cbn [context]. rewrite Hname.
  cbn [contains]. rewrite bind_ret.
  unfold service_line_entity_guard in Hguard. rewrite Hguard. reflexivity.
Qed.

(** C3: an NM1 segment with the qualifier DN opens loop_2310a on the
    current claim and moves the cursor to it when the current loop name
    contains loop_2300 or loop_2310, and opens loop_2420f on the current
    service line and moves the cursor to it when the current loop name
    contains loop_24; no loop of the transaction satisfies both guards, and
    a handler whose guard fails leaves the state alone. *)
Theorem nm1_dn_disambiguation (st : state) (sg : loc)
  (sd : gmap string value) (name : string) :
  loop_name (context st) = VStr name ->
  store st !! sg = Some (ODict sd) ->
  sd !! "entity_identifier_code" = Some (VStr "DN") ->
  (claim_entity_guard name = true ->
   forall cl cd,
     _get_claim st = inr (VRef cl, st) ->
     store st !! cl = Some (ODict cd) ->
     exists st' cd' node,
       set_claim_entity_loop (VRef sg) st = inr (tt, st')
       /\ store st' !! cl = Some (ODict cd')
       /\ cd' !! "loop_2310a" = Some node
       /\ (cd !! "loop_2310a" = Some node
           \/ cd !! "loop_2310a" = None
              /\ exists nl fields, node = VRef nl /\ length (store st) <= nl
                                   /\ store st' !! nl = Some (ODict fields))
       /\ loop_container (context st') = node
       /\ loop_name (context st') = VStr "loop_2310a")
  /\ (service_line_entity_guard name = true ->
      forall sl ld,
        _get_service_line st = inr (VRef sl, st) ->
        store st !! sl = Some (ODict ld) ->
        exists st' ld' nl fields,
          set_service_line_entities_loop (VRef sg) st = inr (tt, st')
          /\ store st' !! sl = Some (ODict ld')
          /\ ld' !! "loop_2420f" = Some (VRef nl)
          /\ length (store st) <= nl
          /\ store st' !! nl = Some (ODict fields)
          /\ loop_container (context st') = VRef nl
          /\ loop_name (context st') = VStr "loop_2420f")
  /\ (forall l : TransactionLoops,
        claim_entity_guard (loop_id l) && service_line_entity_guard (loop_id l)
        = false)
  /\ (claim_entity_guard name = false ->
      set_claim_entity_loop (VRef sg) st = inr (tt, st))
  /\ (service_line_entity_guard name = false ->
      set_service_line_entities_loop (VRef sg) st = inr (tt, st)).
Proof.
  intros Hname Hsg Hid. split; [|split; [|split; [|split]]].
  - intros Hguard cl cd Hclaim Hcd.
    exact (set_claim_entity_loop_dn st sg name sd cl cd Hname Hsg Hid Hguard
             Hclaim Hcd).
  - intros Hguard sl ld Hline Hld.
    exact (set_service_line_entities_loop_dn st sg name sd sl ld Hname Hsg Hid
             Hguard Hline Hld).
  - exact entity_guards_disjoint.
  - now apply set_claim_entity_loop_skips.
  - now apply set_service_line_entities_loop_skips.
Qed.

(** *** The theorems at the example document tree *)

Lemma set_service_line_adjudication_loop_overwrites_witness :
  exists st',
    repeat_handler 2 set_service_line_adjudication_loop VNone
      (example_state CLAIM_SERVICE_LINE 12) = inr (tt, st')
    /\ entries_under (VRef 12) "loop_2430" st' = Some 1.
Proof.
  apply (set_service_line_adjudication_loop_overwrites 1
           (example_state CLAIM_SERVICE_LINE 12) VNone 12 ∅);
    reflexivity.
Defined.

Lemma subscriber_is_patient_claim_attached_witness :
  exists st1 st2 sub claims claim record fields,
    set_subscriber_loop (VRef 7) (example_state BILLING_PROVIDER_NAME 3)
    = inr (tt, st1)
    /\ subscriber_record (context st1) = VRef sub
    /\ patient_record (context st1) = subscriber_record (context st1)
    /\ set_claim_loop VNone st1 = inr (tt, st2)
    /\ subscriber_record (context st2) = VRef sub
    /\ patient_record (context st2) = subscriber_record (context st2)
    /\ store st2 !! sub = Some (ODict record)
    /\ record !! loop_id CLAIM_INFORMATION = Some (VRef claims)
    /\ store st2 !! claims = Some (OList [VRef claim])
    /\ store st2 !! claim = Some (ODict fields)
    /\ loop_container (context st2) = VRef claim
    /\ loop_name (context st2) = VStr "loop_2300".
Proof.
  apply (subscriber_is_patient_claim_attached
           (example_state BILLING_PROVIDER_NAME 3) (VRef 7) VNone 2 7
           (list_to_map [("loop_2010aa", VRef 3); ("loop_2010ab", VRef 4);
                         ("loop_2000b", VRef 5)])
           (list_to_map [("hierarchical_id_number", VStr "2");
                         ("hierarchical_parent_id_number", VStr "1");
                         ("hierarchical_level_code", VStr "22");
                         ("hierarchical_child_code", VStr "0")])
           [VRef 6]).
  - reflexivity.
  - reflexivity.
  - right. exists 5. split; reflexivity.
  - reflexivity.
  - reflexivity.
  - left. reflexivity.
Defined.

Lemma nm1_dn_disambiguation_witness :
  (exists st' cd' node,
     set_claim_entity_loop (VRef 13) (example_state CLAIM_INFORMATION 10)
     = inr (tt, st')
     /\ store st' !! 10 = Some (ODict cd')
     /\ cd' !! "loop_2310a" = Some node
     /\ loop_container (context st') = node
     /\ loop_name (context st') = VStr "loop_2310a")
  /\ (exists st' ld' nl,
        set_service_line_entities_loop (VRef 13)
          (example_state CLAIM_SERVICE_LINE 12) = inr (tt, st')
        /\ store st' !! 12 = Some (ODict ld')
        /\ ld' !! "loop_2420f" = Some (VRef nl)
        /\ loop_container (context st') = VRef nl
        /\ loop_name (context st') = VStr "loop_2420f").
Proof.
  split.
  - destruct (proj1 (nm1_dn_disambiguation
                       (example_state CLAIM_INFORMATION 10) 13
                       (list_to_map [("entity_identifier_code", VStr "DN")])
                       "loop_2300" eq_refl eq_refl eq_refl)
                eq_refl 10 (list_to_map [("loop_2400", VRef 11)])
                eq_refl eq_refl)
      as (st' & cd' & node & Hrun & Hcl & Hkey & _ & Hcont & Hname).
    exists st', cd', node. repeat split; assumption.
  - destruct (proj1 (proj2 (nm1_dn_disambiguation
                       (example_state CLAIM_SERVICE_LINE 12) 13
                       (list_to_map [("entity_identifier_code", VStr "DN")])
                       "loop_2400" eq_refl eq_refl eq_refl))
                eq_refl 12 ∅ eq_refl eq_refl)
      as (st' & ld' & nl & fields & Hrun & Hsl & Hkey & _ & _ & Hcont & Hname).
    exists st', ld', nl. repeat split; assumption.
Defined.

Lemma set_subscriber_payer_name_loop_label_witness :
  exists st' d' node,
    set_subscriber_payer_name_loop VNone (example_state SUBSCRIBER_NAME 8)
    = inr (tt, st')
    /\ store st' !! 6 = Some (ODict d')
    /\ d' !! loop_id SUBSCRIBER_PAYER_NAME = Some node
    /\ loop_container (context st') = node
    /\ loop_name (context st') = VStr "loop_2010ba"
    /\ loop_name (context st') <> VStr (loop_id SUBSCRIBER_PAYER_NAME).
Proof.
  apply (set_subscriber_payer_name_loop_label
           (example_state SUBSCRIBER_NAME 8) VNone 6
           (list_to_map [("hl_segment", VRef 7); ("loop_2010ba", VRef 8);
                         ("loop_2300", VRef 9)]));
    reflexivity.
Defined.

Lemma set_pay_to_address_name_loop_existing_witness :
  set_pay_to_address_name_loop VNone
    (example_state BILLING_PROVIDER_PAY_TO_ADDRESS 4)
  = inr (tt, example_state BILLING_PROVIDER_PAY_TO_ADDRESS 4).
Proof.
  apply (set_pay_to_address_name_loop_existing
           (example_state BILLING_PROVIDER_PAY_TO_ADDRESS 4) VNone
           "loop_2010ab" 2
           (list_to_map [("loop_2010aa", VRef 3); ("loop_2010ab", VRef 4);
                         ("loop_2000b", VRef 5)])
           (VRef 4));
    reflexivity.
Defined.

(** Scenario S2 run from the start of a transaction: HL*20, HL*22 with
    child code 0, CLM, LX and two SVD segments.  The patient shortcut is the
    subscriber record, the claim hangs off it, and the service line keeps a
    single adjudication entry. *)
Example subscriber_is_patient_scenario :
  exists st sl,
    (set_billing_provider_loop VNone ;; set_subscriber_loop (VRef 3) ;;
     set_claim_loop VNone ;; set_service_line_loop VNone ;;
     set_service_line_adjudication_loop VNone ;;
     set_service_line_adjudication_loop VNone ;;
     _get_service_line) initial_state = inr (sl, st)
    /\ patient_record (context st) = subscriber_record (context st)
    /\ entries_under (subscriber_record (context st)) "loop_2300" st = Some 1
    /\ entries_under sl "loop_2430" st = Some 1.
Proof. eexists _, _. split; [vm_compute; reflexivity|]. repeat split. Qed.

(* ===================================================================== *)
(** ** Further properties of the 837 loop handlers                    *)
(* ===================================================================== *)

(* --------------------------------------------------------------------- *)
(** *** Billing providers and subscribers *)
(* --------------------------------------------------------------------- *)

Ltac decide_identifier :=
  cbn [default from_option id eq_str String.eqb Ascii.eqb Bool.eqb andb orb
         negb truthy_str loop_id loop_eqb].

(** Objects of the old store other than the one written are where they
    were. *)
Ltac frame_tac :=
  let l := fresh "l" in
  let Hl := fresh "Hl" in
  let Hne := fresh "Hne" in
  intros l Hl Hne; cbn [store];
  repeat (rewrite list_lookup_insert_ne by congruence);
  repeat (rewrite lookup_app_l by store_len);
  reflexivity.

Lemma get_billing_provider_run (c : X12ParserContext) (h : list object)
  (td pl : loc) (tdd : gmap string value) (providers : list value)
  (bp : value) :
  transaction_data c = VRef td ->
  h !! td = Some (ODict tdd) ->
  tdd !! loop_id BILLING_PROVIDER = Some (VRef pl) ->
  h !! pl = Some (OList providers) ->
  last providers = Some bp ->
  _get_billing_provider (mk_state c h) = inr (bp, mk_state c h).
Proof.
  intros Htd Hd Hk Hpl Hlast. unfold _get_billing_provider.
  rewrite bind_get_context. cbn [context]. rewrite Htd.
  erewrite bind_run; [|eapply getitem_dict; eauto].
  eapply getitem_last_list; eauto.
Qed.

(** X13: set_billing_provider_loop appends a fresh empty record to the
    loop_2000a list of the transaction data (creating the list when absent,
    keeping earlier providers), moves the cursor to it under the name
    loop_2000a, leaves the subscriber and patient shortcuts alone, and
    _get_billing_provider then returns the new record. *)
Theorem set_billing_provider_loop_appends (st : state) (seg : value)
  (td : loc) (tdd : gmap string value) (providers : list value) :
  transaction_data (context st) = VRef td ->
  store st !! td = Some (ODict tdd) ->
  (tdd !! loop_id BILLING_PROVIDER = None /\ providers = []
   \/ exists pl, tdd !! loop_id BILLING_PROVIDER = Some (VRef pl)
                 /\ store st !! pl = Some (OList providers)) ->
  exists st' pl bp tdd',
    set_billing_provider_loop seg st = inr (tt, st')
    /\ store st' !! td = Some (ODict tdd')
    /\ tdd' !! loop_id BILLING_PROVIDER = Some (VRef pl)
    /\ store st' !! pl = Some (OList (providers ++ [VRef bp]))
    /\ length (store st) <= bp
    /\ store st' !! bp = Some (ODict ∅)
    /\ context st'
       = mk_context (VStr "loop_2000a") (VRef bp)
           (transaction_data (context st)) (subscriber_record (context st))
           (patient_record (context st)) (hl_segment (context st))
    /\ _get_billing_provider st' = inr (VRef bp, st').
Proof.
  intros Htd Hd Hproviders. destruct st as [c h]. cbn [context store] in *.
  unfold set_billing_provider_loop.
  rewrite bind_get_context. cbn [context]. rewrite Htd.
  run_contains Hd.
  destruct (ensure_list c h td tdd (loop_id BILLING_PROVIDER) providers Hd
              Hproviders)
    as (h1 & d1 & pl & Hrun & Htd1 & Hd1 & Hpl1 & Hlen & _ & _).
  rewrite (bind_run _ _ _ _ _ Hrun). clear Hrun.
  run_getitem; [|exact Hd1]. run_alloc. run_append.
  run_getitem; [|exact Hd1]. run_last.
  rewrite set_loop_context_run.
  eexists _, pl, _, d1. split; [reflexivity|].
  cbn [context store].
  split; [lookup_tac|]. split; [exact Hd1|]. split; [lookup_tac|].
  split; [store_len|]. split; [lookup_tac|]. split; [now rewrite Htd|].
  eapply get_billing_provider_run; cbn [transaction_data];
    [exact Htd | lookup_tac | exact Hd1 | lookup_tac | apply last_snoc].
Qed.

Lemma set_billing_provider_loop_appends_witness :
  exists st' pl bp tdd',
    set_billing_provider_loop VNone initial_state = inr (tt, st')
    /\ store st' !! 0 = Some (ODict tdd')
    /\ tdd' !! loop_id BILLING_PROVIDER = Some (VRef pl)
    /\ store st' !! pl = Some (OList ([] ++ [VRef bp]))
    /\ length (store initial_state) <= bp
    /\ store st' !! bp = Some (ODict ∅)
    /\ context st'
       = mk_context (VStr "loop_2000a") (VRef bp)
           (transaction_data (context initial_state))
           (subscriber_record (context initial_state))
           (patient_record (context initial_state))
           (hl_segment (context initial_state))
    /\ _get_billing_provider st' = inr (VRef bp, st').
Proof.
  apply (set_billing_provider_loop_appends initial_state VNone 0
           (list_to_map [("header", VRef 1); ("footer", VRef 2)]) []).
  - reflexivity.
  - reflexivity.
  - left. split; reflexivity.
Defined.

(** [set_subscriber_loop] in full: the patient shortcut follows the
    subscriber only when the cached child code is 0 or absent. *)
Lemma set_subscriber_loop_run (st : state) (seg : value)
  (bp hl : loc) (d hd : gmap string value) (subscribers : list value) :
  _get_billing_provider st = inr (VRef bp, st) ->
  store st !! bp = Some (ODict d) ->
  (d !! loop_id SUBSCRIBER = None /\ subscribers = []
   \/ exists sl, d !! loop_id SUBSCRIBER = Some (VRef sl)
                 /\ store st !! sl = Some (OList subscribers)) ->
  hl_segment (context st) = VRef hl ->
  store st !! hl = Some (ODict hd) ->
  exists st' sub sl d',
    set_subscriber_loop seg st = inr (tt, st')
    /\ context st'
       = mk_context (VStr (loop_id SUBSCRIBER)) (VRef sub)
           (transaction_data (context st)) (VRef sub)
           (if eq_str (default (VStr "0") (hd !! "hierarchical_child_code"))
                 "0"
            then VRef sub else patient_record (context st))
           (VRef hl)
    /\ length (store st) <= sub
    /\ store st' !! sub = Some (ODict ∅)
    /\ store st' !! bp = Some (ODict d')
    /\ d' !! loop_id SUBSCRIBER = Some (VRef sl)
    /\ store st' !! sl = Some (OList (subscribers ++ [VRef sub])).
Proof.
  intros Hbp Hd Hsubs Hhl Hhd.
  destruct st as [c h]. cbn [context store] in *.
  unfold set_subscriber_loop.
  rewrite (bind_run _ _ _ _ _ Hbp).
  run_contains Hd.
  destruct (ensure_list c h bp d (loop_id SUBSCRIBER) subscribers Hd Hsubs)
    as (h1 & d1 & sl & Hrun & Hbp1 & Hd1 & Hsl1 & Hlen & Hkeys & Hothers).
  rewrite (bind_run _ _ _ _ _ Hrun). clear Hrun.
  assert (Hhl1 : exists hd1, h1 !! hl = Some (ODict hd1)
             /\ hd1 !! "hierarchical_child_code"
                = hd !! "hierarchical_child_code").
  { destruct (decide (hl = bp)) as [->|Hne].
    - exists d1. split; [exact Hbp1|].
      rewrite Hkeys by discriminate. congruence.
    - exists hd. split; [|reflexivity]. now apply Hothers. }
  destruct Hhl1 as (hd1 & Hhl1 & Hcode).
  run_getitem; [|exact Hd1]. run_alloc. run_append.
  run_getitem; [|exact Hd1]. run_last.
  rewrite (bind_run _ _ _ _ _ (set_subscriber_record_run _ _ _)).
  rewrite bind_get_context. cbn [context subscriber_record].
  rewrite (bind_run _ _ _ _ _ (set_loop_context_run _ _ _ _)).
  rewrite bind_get_context.
  cbn [context subscriber_record hl_segment transaction_data patient_record].
  rewrite Hhl.
  erewrite bind_run; [|eapply dict_get_dict; lookup_tac].
  rewrite Hcode.
  destruct (eq_str (default (VStr "0") (hd !! "hierarchical_child_code")) "0").
  - rewrite set_patient_record_run.
    eexists _, _, sl, d1. split; [reflexivity|]. cbn [context store].
    split; [reflexivity|]. split; [store_len|].
    split; [lookup_tac|]. split; [lookup_tac|].
    split; [exact Hd1|]. lookup_tac.
  - eexists _, _, sl, d1. split; [reflexivity|]. cbn [context store].
    split; [reflexivity|]. split; [store_len|].
    split; [lookup_tac|]. split; [lookup_tac|].
    split; [exact Hd1|]. lookup_tac.
Qed.

(** X14: When the cached HL segment has a hierarchical_child_code other than
    0, set_subscriber_loop opens a fresh subscriber record and points the
    subscriber shortcut and the cursor at it, and leaves the patient
    shortcut at what it was (the previous patient, not the new subscriber). *)
Theorem set_subscriber_loop_keeps_patient_shortcut (st : state) (seg : value)
  (bp hl : loc) (d hd : gmap string value) (subscribers : list value)
  (code : value) :
  _get_billing_provider st = inr (VRef bp, st) ->
  store st !! bp = Some (ODict d) ->
  (d !! loop_id SUBSCRIBER = None /\ subscribers = []
   \/ exists sl, d !! loop_id SUBSCRIBER = Some (VRef sl)
                 /\ store st !! sl = Some (OList subscribers)) ->
  hl_segment (context st) = VRef hl ->
  store st !! hl = Some (ODict hd) ->
  hd !! "hierarchical_child_code" = Some code ->
  eq_str code "0" = false ->
  exists st' sub,
    set_subscriber_loop seg st = inr (tt, st')
    /\ subscriber_record (context st') = VRef sub
    /\ length (store st) <= sub
    /\ loop_container (context st') = VRef sub
    /\ patient_record (context st') = patient_record (context st).
Proof.
  intros Hbp Hd Hsubs Hhl Hhd Hcode Hnz.
  destruct (set_subscriber_loop_run st seg bp hl d hd subscribers Hbp Hd Hsubs
              Hhl Hhd)
    as (st' & sub & sl & d' & Hrun & Hc & Hfresh & _).
  exists st', sub. split; [exact Hrun|].
  rewrite Hc, Hcode. cbn [default from_option id]. rewrite Hnz. cbn.
  repeat split; auto.
Qed.

(* --------------------------------------------------------------------- *)
(** *** The current claim *)
(* --------------------------------------------------------------------- *)

Lemma ensure_list_frame (c : X12ParserContext) (h : list object) (l : loc)
  (d : gmap string value) (k : string) (xs : list value) :
  h !! l = Some (ODict d) ->
  (d !! k = None /\ xs = []
   \/ exists cl, d !! k = Some (VRef cl) /\ h !! cl = Some (OList xs)) ->
  exists h1 d1 cl,
    (if negb (bool_decide (is_Some (d !! k)))
     then let* fresh := new_list [] in setitem (VRef l) k fresh
     else ret tt) (mk_state c h) = inr (tt, mk_state c h1)
    /\ h1 !! l = Some (ODict d1)
    /\ d1 !! k = Some (VRef cl)
    /\ h1 !! cl = Some (OList xs)
    /\ length h <= length h1
    /\ (forall k', k' <> k -> d1 !! k' = d !! k')
    /\ (forall l' o, l' <> l -> h !! l' = Some o -> h1 !! l' = Some o)
    /\ (d !! k = None -> length h <= cl).
Proof.
  intros Hl [[Hnone ->]|(cl & Hcl & Hxs)].
  - rewrite Hnone, bool_decide_eq_false_2 by (intros [? ?]; discriminate).
    cbn [negb]. run_alloc. erewrite setitem_dict by lookup_tac.
    eexists _, _, (length h). split; [reflexivity|].
    split; [lookup_tac|]. split; [apply lookup_insert_eq|].
    split; [lookup_tac|]. split; [store_len|]. split; [|split].
    + intros k' Hk'. now apply lookup_insert_ne.
    + intros l' o Hne Ho. lookup_tac.
    + intros _. lia.
  - rewrite Hcl, bool_decide_eq_true_2 by eauto. cbn [negb].
    exists h, d, cl. repeat split; auto. congruence.
Qed.

(** [set_claim_loop] with what it leaves alone. *)
Lemma set_claim_loop_run (st : state) (seg : value) (p : loc)
  (pd : gmap string value) (claims : list value) :
  patient_record (context st) = VRef p ->
  store st !! p = Some (ODict pd) ->
  (pd !! loop_id CLAIM_INFORMATION = None /\ claims = []
   \/ exists cl, pd !! loop_id CLAIM_INFORMATION = Some (VRef cl)
                 /\ store st !! cl = Some (OList claims)) ->
  exists st' cl claim pd' fields,
    set_claim_loop seg st = inr (tt, st')
    /\ store st' !! p = Some (ODict pd')
    /\ pd' !! loop_id CLAIM_INFORMATION = Some (VRef cl)
    /\ store st' !! cl = Some (OList (claims ++ [VRef claim]))
    /\ length (store st) <= claim
    /\ store st' !! claim = Some (ODict fields)
    /\ context st'
       = mk_context (VStr (loop_id CLAIM_INFORMATION)) (VRef claim)
           (transaction_data (context st)) (subscriber_record (context st))
           (patient_record (context st)) (hl_segment (context st))
    /\ (forall k, k <> loop_id CLAIM_INFORMATION -> pd' !! k = pd !! k)
    /\ (forall l d, l <> p -> store st !! l = Some (ODict d) ->
                    store st' !! l = Some (ODict d)).
Proof.
  intros Hp Hpd Hclaims. destruct st as [c h]. cbn [context store] in *.
  unfold set_claim_loop.
  rewrite bind_get_context. cbn [context]. rewrite Hp.
  run_contains Hpd.
  destruct (ensure_list_frame c h p pd (loop_id CLAIM_INFORMATION) claims Hpd
              Hclaims)
    as (h1 & d1 & cl & Hrun & Hp1 & Hd1 & Hcl1 & Hlen & Hkeys & Hothers & _).
  rewrite (bind_run _ _ _ _ _ Hrun). clear Hrun.
  run_getitem; [|exact Hd1].
  do 7 run_alloc. run_append. run_getitem; [|exact Hd1]. run_last.
  rewrite set_loop_context_run.
  eexists _, cl, _, d1, _. split; [reflexivity|].
  cbn [context store].
  split; [lookup_tac|]. split; [exact Hd1|]. split; [lookup_tac|].
  split; [store_len|]. split; [lookup_tac|]. split; [now rewrite Hp|].
  split; [exact Hkeys|].
  intros l d Hne Hl. pose proof (Hothers _ _ Hne Hl) as Hl1. lookup_tac.
Qed.

Lemma is_patient_a_dependent_run (c : X12ParserContext) (h : list object)
  (p : loc) (pd : gmap string value) (b : bool) :
  h !! p = Some (ODict pd) ->
  dependent_flag h pd = Some b ->
  _is_patient_a_dependent (VRef p) (mk_state c h) = inr (b, mk_state c h).
Proof.
  intros Hpd Hb. unfold _is_patient_a_dependent, dependent_flag in *.
  erewrite bind_run; [|eapply dict_get_dict; eauto].
  destruct (pd !! "hl_segment") as [[| |hl]|]; try discriminate.
  - destruct (h !! hl) as [[hd|]|] eqn:Hhl; try discriminate.
    injection Hb as <-.
    erewrite bind_run; [|eapply dict_get_dict; eauto]. reflexivity.
  - now injection Hb as <-.
Qed.

Lemma get_claim_from_patient (c : X12ParserContext) (h : list object)
  (p cl : loc) (pd : gmap string value) (claims : list value) (claim : value) :
  patient_record c = VRef p ->
  h !! p = Some (ODict pd) ->
  dependent_flag h pd = Some true ->
  pd !! loop_id CLAIM_INFORMATION = Some (VRef cl) ->
  h !! cl = Some (OList claims) ->
  last claims = Some claim ->
  _get_claim (mk_state c h) = inr (claim, mk_state c h).
Proof.
  intros Hp Hpd Hflag Hcl Hclaims Hlast.
  pose proof (is_patient_a_dependent_run c h p pd true Hpd Hflag) as Hdep.
  unfold _get_claim. rewrite bind_get_context. cbn [context]. rewrite Hp.
  rewrite (bind_run _ _ _ _ _ Hdep), bind_ret.
  erewrite bind_run; [|eapply getitem_dict; eauto].
  eapply getitem_last_list; eauto.
Qed.

Lemma get_claim_from_subscriber (c : X12ParserContext) (h : list object)
  (p s cl : loc) (pd sd : gmap string value) (claims : list value)
  (claim : value) :
  patient_record c = VRef p ->
  h !! p = Some (ODict pd) ->
  dependent_flag h pd = Some false ->
  subscriber_record c = VRef s ->
  h !! s = Some (ODict sd) ->
  sd !! loop_id CLAIM_INFORMATION = Some (VRef cl) ->
  h !! cl = Some (OList claims) ->
  last claims = Some claim ->
  _get_claim (mk_state c h) = inr (claim, mk_state c h).
Proof.
  intros Hp Hpd Hflag Hs Hsd Hcl Hclaims Hlast.
  pose proof (is_patient_a_dependent_run c h p pd false Hpd Hflag) as Hdep.
  unfold _get_claim. rewrite bind_get_context. cbn [context].
  rewrite Hp, Hs, (bind_run _ _ _ _ _ Hdep). rewrite bind_assoc.
  run_contains Hsd. rewrite Hcl.
  rewrite bool_decide_eq_true_2 by eauto. rewrite bind_ret. cbn [negb].
  erewrite bind_run; [|eapply getitem_dict; eauto].
  eapply getitem_last_list; eauto.
Qed.

(** X15: _get_claim returns the last claim of the patient record when the
    patient is a dependent (level code 23); otherwise the last claim of the
    subscriber record when that has a loop_2300 key, else the last claim of
    the patient record, and raises KeyError loop_2300 when neither record
    has the key. *)
Theorem get_claim_selection (st : state) (p : loc) (pd : gmap string value)
  (dependent : bool) :
  patient_record (context st) = VRef p ->
  store st !! p = Some (ODict pd) ->
  dependent_flag (store st) pd = Some dependent ->
  (dependent = true ->
   forall cl claims claim,
     pd !! loop_id CLAIM_INFORMATION = Some (VRef cl) ->
     store st !! cl = Some (OList claims) ->
     last claims = Some claim ->
     _get_claim st = inr (claim, st))
  /\ (dependent = false ->
      forall s sd,
        subscriber_record (context st) = VRef s ->
        store st !! s = Some (ODict sd) ->
        (forall cl claims claim,
           sd !! loop_id CLAIM_INFORMATION = Some (VRef cl) ->
           store st !! cl = Some (OList claims) ->
           last claims = Some claim ->
           _get_claim st = inr (claim, st))
        /\ (forall cl claims claim,
              sd !! loop_id CLAIM_INFORMATION = None ->
              pd !! loop_id CLAIM_INFORMATION = Some (VRef cl) ->
              store st !! cl = Some (OList claims) ->
              last claims = Some claim ->
              _get_claim st = inr (claim, st))
        /\ (sd !! loop_id CLAIM_INFORMATION = None ->
            pd !! loop_id CLAIM_INFORMATION = None ->
            _get_claim st = inl (KeyError (loop_id CLAIM_INFORMATION)))).
Proof.
  intros Hp Hpd Hflag. destruct st as [c h]. cbn [context store] in *.
  split.
  - intros -> cl claims claim Hcl Hclaims Hlast.
    eapply get_claim_from_patient; eauto.
  - intros -> s sd Hs Hsd.
    pose proof (is_patient_a_dependent_run c h p pd false Hpd Hflag) as Hdep.
    split; [|split].
    + intros cl claims claim Hcl Hclaims Hlast.
      eapply get_claim_from_subscriber; eauto.
    + intros cl claims claim Hsnone Hcl Hclaims Hlast.
      unfold _get_claim. rewrite bind_get_context. cbn [context].
      rewrite Hp, Hs, (bind_run _ _ _ _ _ Hdep). rewrite bind_assoc.
      run_contains Hsd. rewrite Hsnone.
      rewrite bool_decide_eq_false_2 by (intros [? ?]; discriminate).
      rewrite bind_ret. cbn [negb].
      erewrite bind_run; [|eapply getitem_dict; eauto].
      eapply getitem_last_list; eauto.
    + intros Hsnone Hpnone.
      unfold _get_claim. rewrite bind_get_context. cbn [context].
      rewrite Hp, Hs, (bind_run _ _ _ _ _ Hdep). rewrite bind_assoc.
      run_contains Hsd. rewrite Hsnone.
      rewrite bool_decide_eq_false_2 by (intros [? ?]; discriminate).
      rewrite bind_ret. cbn [negb].
      unfold getitem, bind, deref. cbn [store]. now rewrite Hpd, Hpnone.
Qed.

Lemma get_claim_selection_witness :
  _get_claim (dependent_state CLAIM_INFORMATION 10 8)
  = inr (VRef 10, dependent_state CLAIM_INFORMATION 10 8)
  /\ _get_claim (example_state CLAIM_INFORMATION 10)
     = inr (VRef 10, example_state CLAIM_INFORMATION 10).
Proof.
  split.
  - apply (proj1 (get_claim_selection
                    (dependent_state CLAIM_INFORMATION 10 8) 7
                    (list_to_map [("hl_segment", VRef 8);
                                  ("loop_2300", VRef 9)])
                    true eq_refl eq_refl eq_refl)
             eq_refl 9 [VRef 10] (VRef 10)); reflexivity.
  - apply (proj1 (proj2 (get_claim_selection
                    (example_state CLAIM_INFORMATION 10) 6
                    (list_to_map [("hl_segment", VRef 7);
                                  ("loop_2010ba", VRef 8);
                                  ("loop_2300", VRef 9)])
                    false eq_refl eq_refl eq_refl)
                  eq_refl 6
                  (list_to_map [("hl_segment", VRef 7);
                                ("loop_2010ba", VRef 8);
                                ("loop_2300", VRef 9)])
                  eq_refl eq_refl)
             9 [VRef 10] (VRef 10)); reflexivity.
Defined.

(** X16: For a subscriber who is the patient, set_claim_loop appends a fresh
    claim to the record's loop_2300 list (keeping earlier claims), moves the
    cursor to it, and _get_claim then returns the claim just opened. *)
Theorem set_claim_loop_then_get_claim (st : state) (seg : value) (p : loc)
  (pd : gmap string value) (claims : list value) (dependent : bool) :
  patient_record (context st) = VRef p ->
  subscriber_record (context st) = VRef p ->
  store st !! p = Some (ODict pd) ->
  dependent_flag (store st) pd = Some dependent ->
  (pd !! loop_id CLAIM_INFORMATION = None /\ claims = []
   \/ exists cl, pd !! loop_id CLAIM_INFORMATION = Some (VRef cl)
                 /\ store st !! cl = Some (OList claims)) ->
  exists st' cl claim pd',
    set_claim_loop seg st = inr (tt, st')
    /\ store st' !! p = Some (ODict pd')
    /\ pd' !! loop_id CLAIM_INFORMATION = Some (VRef cl)
    /\ store st' !! cl = Some (OList (claims ++ [VRef claim]))
    /\ length (store st) <= claim
    /\ loop_container (context st') = VRef claim
    /\ _get_claim st' = inr (VRef claim, st').
Proof.
  intros Hp Hs Hpd Hflag Hclaims.
  destruct (set_claim_loop_run st seg p pd claims Hp Hpd Hclaims)
    as (st' & cl & claim & pd' & fields & Hrun & Hp' & Hcl & Hlist & Hfresh
        & Hfields & Hc & Hkeys & Hothers).
  exists st', cl, claim, pd'. split; [exact Hrun|].
  split; [exact Hp'|]. split; [exact Hcl|]. split; [exact Hlist|].
  split; [exact Hfresh|]. split; [now rewrite Hc|].
  assert (Hflag' : dependent_flag (store st') pd' = Some dependent).
  { unfold dependent_flag in *. rewrite Hkeys by discriminate.
    destruct (pd !! "hl_segment") as [[| |hl]|]; try discriminate; [|exact Hflag].
    destruct (store st !! hl) as [[hd|]|] eqn:Hhl; try discriminate.
    destruct (decide (hl = p)) as [->|Hne].
    - rewrite Hp'. rewrite Hpd in Hhl. injection Hhl as <-.
      now rewrite Hkeys by discriminate.
    - now rewrite (Hothers _ _ Hne Hhl). }
  assert (Hp2 : patient_record (context st') = VRef p) by now rewrite Hc.
  assert (Hs2 : subscriber_record (context st') = VRef p) by now rewrite Hc.
  destruct st' as [c' h']. cbn [context store] in *.
  destruct dependent.
  - eapply get_claim_from_patient; eauto. apply last_snoc.
  - eapply get_claim_from_subscriber; eauto. apply last_snoc.
Qed.

Lemma set_claim_loop_then_get_claim_witness :
  exists st' cl claim pd',
    set_claim_loop VNone (example_state CLAIM_INFORMATION 10) = inr (tt, st')
    /\ store st' !! 6 = Some (ODict pd')
    /\ pd' !! loop_id CLAIM_INFORMATION = Some (VRef cl)
    /\ store st' !! cl = Some (OList ([VRef 10] ++ [VRef claim]))
    /\ length (store (example_state CLAIM_INFORMATION 10)) <= claim
    /\ loop_container (context st') = VRef claim
    /\ _get_claim st' = inr (VRef claim, st').
Proof.
  apply (set_claim_loop_then_get_claim (example_state CLAIM_INFORMATION 10)
           VNone 6
           (list_to_map [("hl_segment", VRef 7); ("loop_2010ba", VRef 8);
                         ("loop_2300", VRef 9)])
           [VRef 10] false).
  - reflexivity.
  - reflexivity.
  - reflexivity.
  - reflexivity.
  - right. exists 9. split; reflexivity.
Defined.

(* --------------------------------------------------------------------- *)
(** *** Loops kept as lists *)
(* --------------------------------------------------------------------- *)

Lemma set_patient_loop_run (st : state) (seg : value) (s : loc)
  (sd : gmap string value) (patients : list value) :
  subscriber_record (context st) = VRef s ->
  store st !! s = Some (ODict sd) ->
  (sd !! loop_id PATIENT_LOOP = None /\ patients = []
   \/ exists pl, sd !! loop_id PATIENT_LOOP = Some (VRef pl)
                 /\ store st !! pl = Some (OList patients)) ->
  exists st' p pl sd',
    set_patient_loop seg st = inr (tt, st')
    /\ context st'
       = mk_context (VStr (loop_id PATIENT_LOOP)) (VRef p)
           (transaction_data (context st)) (VRef s) (VRef p)
           (hl_segment (context st))
    /\ length (store st) <= p
    /\ store st' !! p = Some (ODict ∅)
    /\ store st' !! s = Some (ODict sd')
    /\ sd' !! loop_id PATIENT_LOOP = Some (VRef pl)
    /\ store st' !! pl = Some (OList (patients ++ [VRef p]))
    /\ (forall k, k <> loop_id PATIENT_LOOP -> sd' !! k = sd !! k).
Proof.
  intros Hs Hsd Hpatients. destruct st as [c h]. cbn [context store] in *.
  unfold set_patient_loop.
  rewrite bind_get_context. cbn [context]. rewrite Hs.
  run_contains Hsd.
  destruct (ensure_list c h s sd (loop_id PATIENT_LOOP) patients Hsd Hpatients)
    as (h1 & d1 & pl & Hrun & Hs1 & Hd1 & Hpl1 & Hlen & Hkeys & _).
  rewrite (bind_run _ _ _ _ _ Hrun). clear Hrun.
  run_getitem; [|exact Hd1]. run_alloc. run_append.
  run_getitem; [|exact Hd1]. run_last.
  rewrite (bind_run _ _ _ _ _ (set_patient_record_run _ _ _)).
  rewrite bind_get_context. cbn [context patient_record].
  rewrite set_loop_context_run.
  eexists _, _, pl, d1. split; [reflexivity|]. cbn [context store].
  cbn [transaction_data subscriber_record patient_record hl_segment].
  split; [now rewrite Hs|]. split; [store_len|].
  split; [lookup_tac|]. split; [lookup_tac|].
  split; [exact Hd1|]. split; [lookup_tac|exact Hkeys].
Qed.

(** X17: set_patient_loop appends a fresh patient record to the subscriber's
    loop_2000c list and makes it the patient record, leaving the subscriber
    shortcut alone; a following set_claim_loop puts the claim under
    loop_2300 of that patient record and leaves the subscriber record as it
    was, so the subscriber gets no claim. *)
Theorem dependent_claim_attached_to_patient (st : state)
  (seg_hl seg_clm : value) (s : loc) (sd : gmap string value)
  (patients : list value) :
  subscriber_record (context st) = VRef s ->
  store st !! s = Some (ODict sd) ->
  (sd !! loop_id PATIENT_LOOP = None /\ patients = []
   \/ exists pl, sd !! loop_id PATIENT_LOOP = Some (VRef pl)
                 /\ store st !! pl = Some (OList patients)) ->
  exists st1 st2 p pl sd' claims claim record,
    set_patient_loop seg_hl st = inr (tt, st1)
    /\ patient_record (context st1) = VRef p
    /\ subscriber_record (context st1) = VRef s
    /\ p <> s
    /\ store st1 !! s = Some (ODict sd')
    /\ sd' !! loop_id PATIENT_LOOP = Some (VRef pl)
    /\ store st1 !! pl = Some (OList (patients ++ [VRef p]))
    /\ sd' !! loop_id CLAIM_INFORMATION = sd !! loop_id CLAIM_INFORMATION
    /\ set_claim_loop seg_clm st1 = inr (tt, st2)
    /\ store st2 !! s = Some (ODict sd')
    /\ store st2 !! p = Some (ODict record)
    /\ record !! loop_id CLAIM_INFORMATION = Some (VRef claims)
    /\ store st2 !! claims = Some (OList [VRef claim])
    /\ loop_container (context st2) = VRef claim
    /\ patient_record (context st2) = VRef p.
Proof.
  intros Hs Hsd Hpatients.
  destruct (set_patient_loop_run st seg_hl s sd patients Hs Hsd Hpatients)
    as (st1 & p & pl & sd' & Hrun1 & Hc1 & Hfresh & Hp1 & Hs1 & Hkey & Hlist
        & Hkeys).
  assert (Hne : p <> s).
  { apply lookup_lt_Some in Hsd. lia. }
  destruct (set_claim_loop_run st1 seg_clm p ∅ [])
    as (st2 & claims & claim & record & fields & Hrun2 & Hrec & Hclaims
        & Hclist & _ & _ & Hc2 & _ & Hothers).
  { now rewrite Hc1. }
  { exact Hp1. }
  { left. split; [apply lookup_empty|reflexivity]. }
  exists st1, st2, p, pl, sd', claims, claim, record.
  rewrite Hc2, Hc1. cbn [patient_record subscriber_record loop_container].
  repeat split; auto.
Qed.

Lemma dependent_claim_attached_to_patient_witness :
  exists st1 st2 p pl sd' claims claim record,
    set_patient_loop VNone (dependent_state SUBSCRIBER_NAME 4 8)
    = inr (tt, st1)
    /\ patient_record (context st1) = VRef p
    /\ subscriber_record (context st1) = VRef 4
    /\ p <> 4
    /\ store st1 !! 4 = Some (ODict sd')
    /\ sd' !! loop_id PATIENT_LOOP = Some (VRef pl)
    /\ store st1 !! pl = Some (OList ([VRef 7] ++ [VRef p]))
    /\ sd' !! loop_id CLAIM_INFORMATION
       = (list_to_map [("hl_segment", VRef 5); ("loop_2000c", VRef 6)]
          : gmap string value) !! loop_id CLAIM_INFORMATION
    /\ set_claim_loop VNone st1 = inr (tt, st2)
    /\ store st2 !! 4 = Some (ODict sd')
    /\ store st2 !! p = Some (ODict record)
    /\ record !! loop_id CLAIM_INFORMATION = Some (VRef claims)
    /\ store st2 !! claims = Some (OList [VRef claim])
    /\ loop_container (context st2) = VRef claim
    /\ patient_record (context st2) = VRef p.
Proof.
  apply (dependent_claim_attached_to_patient
           (dependent_state SUBSCRIBER_NAME 4 8) VNone VNone 4
           (list_to_map [("hl_segment", VRef 5); ("loop_2000c", VRef 6)])
           [VRef 7]).
  - reflexivity.
  - reflexivity.
  - right. exists 6. split; reflexivity.
Defined.

(** X18: set_service_line_loop appends a fresh service line to the loop_2400
    list of the current claim (creating the list when absent, keeping
    earlier lines and the claim's other keys), and moves the cursor to it
    under the name loop_2400 without touching the shortcuts. *)
Theorem set_service_line_loop_appends (st : state) (seg : value) (cl : loc)
  (cd : gmap string value) (lines : list value) :
  _get_claim st = inr (VRef cl, st) ->
  store st !! cl = Some (ODict cd) ->
  (cd !! loop_id CLAIM_SERVICE_LINE = None /\ lines = []
   \/ exists ll, cd !! loop_id CLAIM_SERVICE_LINE = Some (VRef ll)
                 /\ store st !! ll = Some (OList lines)) ->
  exists st' ll line cd' fields,
    set_service_line_loop seg st = inr (tt, st')
    /\ store st' !! cl = Some (ODict cd')
    /\ cd' !! loop_id CLAIM_SERVICE_LINE = Some (VRef ll)
    /\ store st' !! ll = Some (OList (lines ++ [VRef line]))
    /\ length (store st) <= line
    /\ store st' !! line = Some (ODict fields)
    /\ (forall k, k <> loop_id CLAIM_SERVICE_LINE -> cd' !! k = cd !! k)
    /\ context st'
       = mk_context (VStr "loop_2400") (VRef line)
           (transaction_data (context st)) (subscriber_record (context st))
           (patient_record (context st)) (hl_segment (context st)).
Proof.
  intros Hclaim Hcd Hlines. destruct st as [c h]. cbn [context store] in *.
  unfold set_service_line_loop.
  rewrite (bind_run _ _ _ _ _ Hclaim).
  run_contains Hcd.
  destruct (ensure_list c h cl cd (loop_id CLAIM_SERVICE_LINE) lines Hcd Hlines)
    as (h1 & d1 & ll & Hrun & Hcl1 & Hd1 & Hll1 & Hlen & Hkeys & _).
  rewrite (bind_run _ _ _ _ _ Hrun). clear Hrun.
  run_getitem; [|exact Hd1].
  do 10 run_alloc. run_append. run_getitem; [|exact Hd1]. run_last.
  rewrite set_loop_context_run.
  eexists _, ll, _, d1, _. split; [reflexivity|]. cbn [context store].
  split; [lookup_tac|]. split; [exact Hd1|]. split; [lookup_tac|].
  split; [store_len|]. split; [lookup_tac|]. split; [exact Hkeys|].
  reflexivity.
Qed.

Lemma set_service_line_loop_appends_witness :
  exists st' ll line cd' fields,
    set_service_line_loop VNone (example_state CLAIM_INFORMATION 10)
    = inr (tt, st')
    /\ store st' !! 10 = Some (ODict cd')
    /\ cd' !! loop_id CLAIM_SERVICE_LINE = Some (VRef ll)
    /\ store st' !! ll = Some (OList ([VRef 12] ++ [VRef line]))
    /\ length (store (example_state CLAIM_INFORMATION 10)) <= line
    /\ store st' !! line = Some (ODict fields)
    /\ (forall k, k <> loop_id CLAIM_SERVICE_LINE ->
                  cd' !! k
                  = (list_to_map [("loop_2400", VRef 11)] : gmap string value)
                      !! k)
    /\ context st'
       = mk_context (VStr "loop_2400") (VRef line)
           (transaction_data (context (example_state CLAIM_INFORMATION 10)))
           (subscriber_record (context (example_state CLAIM_INFORMATION 10)))
           (patient_record (context (example_state CLAIM_INFORMATION 10)))
           (hl_segment (context (example_state CLAIM_INFORMATION 10))).
Proof.
  apply (set_service_line_loop_appends (example_state CLAIM_INFORMATION 10)
           VNone 10 (list_to_map [("loop_2400", VRef 11)]) [VRef 12]).
  - reflexivity.
  - reflexivity.
  - right. exists 11. split; reflexivity.
Defined.

(** X19: set_form_identification_loop appends a fresh record with an empty
    frm_segment list to the loop_2440 list of the current service line,
    creating the list when absent and keeping earlier entries, and moves the
    cursor to the new record under the name loop_2440. *)
Theorem set_form_identification_loop_appends (st : state) (seg : value)
  (sl : loc) (ld : gmap string value) (forms : list value) :
  _get_service_line st = inr (VRef sl, st) ->
  store st !! sl = Some (ODict ld) ->
  (ld !! "loop_2440" = None /\ forms = []
   \/ exists fl, ld !! "loop_2440" = Some (VRef fl)
                 /\ store st !! fl = Some (OList forms)) ->
  exists st' fl form frm ld',
    set_form_identification_loop seg st = inr (tt, st')
    /\ store st' !! sl = Some (ODict ld')
    /\ ld' !! "loop_2440" = Some (VRef fl)
    /\ store st' !! fl = Some (OList (forms ++ [VRef form]))
    /\ length (store st) <= form
    /\ store st' !! form
       = Some (ODict (list_to_map [("frm_segment", VRef frm)]))
    /\ store st' !! frm = Some (OList [])
    /\ loop_container (context st') = VRef form
    /\ loop_name (context st') = VStr "loop_2440".
Proof.
  intros Hline Hld Hforms. destruct st as [c h]. cbn [context store] in *.
  unfold set_form_identification_loop.
  rewrite (bind_run _ _ _ _ _ Hline). cbv zeta.
  change (loop_id CLAIM_SERVICE_LINE_LINE_FORM_IDENTIFICATION)
    with "loop_2440".
  do 2 run_alloc.
  erewrite bind_run; [|eapply contains_dict; lookup_tac].
  destruct Hforms as [[Hnone ->]|(fl & Hfl & Hlist)].
  - rewrite Hnone, bool_decide_eq_false_2 by (intros [? ?]; discriminate).
    cbn [negb]. rewrite bind_assoc. run_alloc. run_setitem.
    run_getitem; [|apply lookup_insert_eq].
    erewrite bind_run;
      [|eapply getitem_last_list; [lookup_tac|reflexivity]].
    rewrite set_loop_context_run.
    eexists _, _, _, _, _. split; [reflexivity|]. cbn [context store].
    split; [lookup_tac|]. split; [apply lookup_insert_eq|].
    split; [lookup_tac|]. split; [store_len|].
    split; [lookup_tac|]. split; [lookup_tac|]. split; reflexivity.
  - rewrite Hfl, bool_decide_eq_true_2 by eauto. cbn [negb].
    rewrite bind_assoc. run_getitem; [|exact Hfl]. run_append.
    run_getitem; [|exact Hfl]. run_last.
    rewrite set_loop_context_run.
    eexists _, fl, _, _, _. split; [reflexivity|]. cbn [context store].
    split; [lookup_tac|]. split; [exact Hfl|].
    split; [lookup_tac|]. split; [store_len|].
    split; [lookup_tac|]. split; [lookup_tac|]. split; reflexivity.
Qed.

(* --------------------------------------------------------------------- *)
(** *** Entities of a claim *)
(* --------------------------------------------------------------------- *)

(** X20: Under its guard, set_claim_entity_loop maps DN and P3 to
    loop_2310a, 82 to loop_2310b, 77 to loop_2310c and DQ to loop_2310d;
    when the claim already has that loop the store is unchanged and the
    cursor moves to the existing record; otherwise a fresh record with an
    empty ref_segment list is stored under the key, with an nm1_segment list
    exactly for loop_2310a. *)
Theorem set_claim_entity_loop_reuses_record (st : state) (sg : loc)
  (name q : string) (loop : TransactionLoops) (sd : gmap string value)
  (cl : loc) (cd : gmap string value) :
  loop_name (context st) = VStr name ->
  claim_entity_guard name = true ->
  store st !! sg = Some (ODict sd) ->
  sd !! "entity_identifier_code" = Some (VStr q) ->
  In (q, loop) claim_entity_loops ->
  _get_claim st = inr (VRef cl, st) ->
  store st !! cl = Some (ODict cd) ->
  exists st' node,
    set_claim_entity_loop (VRef sg) st = inr (tt, st')
    /\ loop_container (context st') = node
    /\ loop_name (context st') = VStr (loop_id loop)
    /\ (cd !! loop_id loop = Some node /\ store st' = store st
        \/ cd !! loop_id loop = None
           /\ exists nl rl fields,
               node = VRef nl /\ length (store st) <= nl
               /\ store st' !! cl
                  = Some (ODict (<[loop_id loop := VRef nl]> cd))
               /\ store st' !! nl = Some (ODict fields)
               /\ fields !! "ref_segment" = Some (VRef rl)
               /\ store st' !! rl = Some (OList [])
               /\ (is_Some (fields !! "nm1_segment")
                   <-> loop = CLAIM_REFERRING_PROVIDER_NAME)).
Proof.
  intros Hname Hguard Hsg Hid Hin Hclaim Hcd.
  destruct st as [c h]. cbn [context store] in *.
  unfold set_claim_entity_loop.
  rewrite bind_get_context. cbn [context]. rewrite Hname.
  cbn [contains]. rewrite bind_ret.
  assert (Hg : (if is_substring "loop_2300" name then ret true
                else ret (is_substring "loop_2310" name))
               = (ret true : M bool)).
  { unfold claim_entity_guard in Hguard.
    destruct (is_substring "loop_2300" name); [reflexivity|].
    cbn [orb] in Hguard. now rewrite Hguard. }
  rewrite Hg, bind_ret.
  erewrite bind_run; [|eapply dict_get_dict; exact Hsg].
  rewrite Hid.
  cbn [claim_entity_loops In] in Hin.
  destruct Hin as [E|[E|[E|[E|[E|[]]]]]]; inversion E; subst q loop; clear E;
    decide_identifier;
    rewrite (bind_run _ _ _ _ _ Hclaim);
    run_contains Hcd;
    match goal with
    | |- context [bool_decide (is_Some (cd !! ?k))] =>
        destruct (cd !! k) as [node|] eqn:Hnode
    end;
    try (rewrite bool_decide_eq_true_2 by eauto; cbn [negb];
         rewrite bind_ret; (run_getitem; [|exact Hnode]);
         rewrite set_loop_context_run;
         eexists _, node; split; [reflexivity|];
         cbn [context store loop_container loop_name];
         split; [reflexivity|]; split; [reflexivity|];
         left; split; reflexivity);
    rewrite bool_decide_eq_false_2 by (intros [? ?]; discriminate);
    cbn [negb]; decide_identifier;
    repeat (rewrite bind_assoc; run_alloc); run_setitem;
    (run_getitem; [|apply lookup_insert_eq]);
    rewrite set_loop_context_run;
    eexists _, _; (split; [reflexivity|]);
    cbn [context store loop_container loop_name];
    (split; [reflexivity|]); (split; [reflexivity|]);
    right; (split; [reflexivity|]);
    eexists _, _, _; (split; [reflexivity|]);
    (split; [store_len|]); (split; [lookup_tac|]); (split; [lookup_tac|]);
    (split; [reflexivity|]); (split; [lookup_tac|]);
    (split; [intros [? Hx]; first [reflexivity | discriminate Hx]
            | intros Hx; first [ discriminate Hx | eexists; reflexivity ]]).
Qed.

(* --------------------------------------------------------------------- *)
(** *** Entities of a service line, and unmapped qualifiers *)
(* --------------------------------------------------------------------- *)

Lemma set_claim_entity_loop_reuses_record_witness :
  exists st' node,
    set_claim_entity_loop (VRef 17) (claim_state CLAIM_INFORMATION 7)
    = inr (tt, st')
    /\ loop_container (context st') = node
    /\ loop_name (context st') = VStr "loop_2310b"
    /\ node = VRef 8
    /\ store st' = claim_store.
Proof.
  destruct (set_claim_entity_loop_reuses_record
              (claim_state CLAIM_INFORMATION 7) 17 "loop_2300" "82"
              CLAIM_RENDERING_PROVIDER_NAME
              (list_to_map [("entity_identifier_code", VStr "82")]) 7
              (list_to_map [("loop_2310b", VRef 8); ("loop_2320", VRef 9);
                            ("loop_2400", VRef 12)]))
    as (st' & node & Hrun & Hnode & Hname & Hcase);
    try reflexivity.
  { cbn. tauto. }
  exists st', node. destruct Hcase as [[Hold Hstore]|[Hold _]].
  - repeat split; try assumption. vm_compute in Hold. congruence.
  - vm_compute in Hold. discriminate Hold.
Defined.

(** X21: Under its guard, set_service_line_entities_loop maps 82, QB, 77,
    DQ, DK to loop_2420a..e and DN, P3 to loop_2420f, and always binds that
    key of the current service line to a fresh record holding an empty
    ref_segment list, dropping any record the key had; no other object of
    the store changes. *)
Theorem set_service_line_entities_loop_replaces (st : state) (sg : loc)
  (name q : string) (loop : TransactionLoops) (sd : gmap string value)
  (sl : loc) (ld : gmap string value) :
  loop_name (context st) = VStr name ->
  service_line_entity_guard name = true ->
  store st !! sg = Some (ODict sd) ->
  sd !! "entity_identifier_code" = Some (VStr q) ->
  In (q, loop) service_line_entity_loops ->
  _get_service_line st = inr (VRef sl, st) ->
  store st !! sl = Some (ODict ld) ->
  exists st' nl rl,
    set_service_line_entities_loop (VRef sg) st = inr (tt, st')
    /\ length (store st) <= nl
    /\ store st' !! sl = Some (ODict (<[loop_id loop := VRef nl]> ld))
    /\ store st' !! nl = Some (ODict (list_to_map [("ref_segment", VRef rl)]))
    /\ store st' !! rl = Some (OList [])
    /\ (forall l, l < length (store st) -> l <> sl ->
                  store st' !! l = store st !! l)
    /\ loop_container (context st') = VRef nl
    /\ loop_name (context st') = VStr (loop_id loop).
Proof.
  intros Hname Hguard Hsg Hid Hin Hline Hld.
  destruct st as [c h]. cbn [context store] in *.
  unfold set_service_line_entities_loop.
  rewrite bind_get_context. cbn [context]. rewrite Hname.
  cbn [contains]. rewrite bind_ret.
  unfold service_line_entity_guard in Hguard. rewrite Hguard.
  erewrite bind_run; [|eapply dict_get_dict; exact Hsg].
  rewrite Hid.
  cbn [service_line_entity_loops In] in Hin.
  destruct Hin as [E|[E|[E|[E|[E|[E|[E|[]]]]]]]]; inversion E; subst q loop;
    clear E; decide_identifier;
    rewrite (bind_run _ _ _ _ _ Hline);
    do 2 run_alloc; run_setitem; (run_getitem; [|apply lookup_insert_eq]);
    rewrite set_loop_context_run;
    eexists _, (length (h ++ [OList []])), (length h);
    (split; [reflexivity|]);
    cbn [context store loop_container loop_name];
    (split; [store_len|]); (split; [lookup_tac|]); (split; [lookup_tac|]);
    (split; [lookup_tac|]); (split; [frame_tac|]); split; reflexivity.
Qed.

Lemma set_service_line_entities_loop_replaces_witness :
  exists st' nl rl,
    set_service_line_entities_loop (VRef 17) (claim_state CLAIM_SERVICE_LINE 13)
    = inr (tt, st')
    /\ length claim_store <= nl
    /\ store st' !! 13
       = Some (ODict (<["loop_2420a" := VRef nl]>
                        (list_to_map [("loop_2420a", VRef 14);
                                      ("loop_2440", VRef 15)])))
    /\ store st' !! nl = Some (ODict (list_to_map [("ref_segment", VRef rl)]))
    /\ store st' !! rl = Some (OList [])
    /\ (forall l, l < length claim_store -> l <> 13 ->
                  store st' !! l = claim_store !! l)
    /\ loop_container (context st') = VRef nl
    /\ loop_name (context st') = VStr "loop_2420a".
Proof.
  apply (set_service_line_entities_loop_replaces
           (claim_state CLAIM_SERVICE_LINE 13) 17 "loop_2400" "82"
           CLAIM_SERVICE_LINE_RENDERING_PROVIDER_NAME
           (list_to_map [("entity_identifier_code", VStr "82")]) 13
           (list_to_map [("loop_2420a", VRef 14); ("loop_2440", VRef 15)]));
    try reflexivity.
  cbn. tauto.
Defined.

Lemma unmapped_identifier_default (table : list (string * TransactionLoops))
  (sd : gmap string value) (q : string) :
  unmapped_identifier table sd ->
  In q (map fst table) ->
  eq_str (default VNone (sd !! "entity_identifier_code")) q = false.
Proof.
  intros Hun Hin. specialize (Hun q Hin).
  destruct (sd !! "entity_identifier_code") as [[|s|l]|]; try reflexivity.
  cbn [default from_option id eq_str].
  destruct (String.eqb_spec s q) as [->|]; [congruence|reflexivity].
Qed.

(** X22: When its guard holds and the segment's entity_identifier_code is
    missing or is none of the handler's qualifiers, each of
    set_claim_entity_loop, set_service_line_entities_loop and
    set_other_subscriber_entities_loop raises ValueError. *)
Theorem entity_loops_reject_unmapped_identifier (st : state) (sg : loc)
  (name : string) (sd : gmap string value) :
  loop_name (context st) = VStr name ->
  store st !! sg = Some (ODict sd) ->
  (claim_entity_guard name = true ->
   unmapped_identifier claim_entity_loops sd ->
   set_claim_entity_loop (VRef sg) st = inl ValueError)
  /\ (service_line_entity_guard name = true ->
      unmapped_identifier service_line_entity_loops sd ->
      set_service_line_entities_loop (VRef sg) st = inl ValueError)
  /\ (other_subscriber_entity_guard name = true ->
      unmapped_identifier other_subscriber_entity_loops sd ->
      set_other_subscriber_entities_loop (VRef sg) st = inl ValueError).
Proof.
  intros Hname Hsg. destruct st as [c h]. cbn [context store] in *.
  split; [|split]; intros Hguard Hun.
  - unfold set_claim_entity_loop.
    rewrite bind_get_context. cbn [context]. rewrite Hname.
    cbn [contains]. rewrite bind_ret.
    assert (Hg : (if is_substring "loop_2300" name then ret true
                  else ret (is_substring "loop_2310" name))
                 = (ret true : M bool)).
    { unfold claim_entity_guard in Hguard.
      destruct (is_substring "loop_2300" name); [reflexivity|].
      cbn [orb] in Hguard. now rewrite Hguard. }
    rewrite Hg, bind_ret.
    erewrite bind_run; [|eapply dict_get_dict; exact Hsg].
    cbv zeta.
    rewrite !(unmapped_identifier_default claim_entity_loops sd _ Hun)
      by (cbn; tauto).
    reflexivity.
  - unfold set_service_line_entities_loop.
    rewrite bind_get_context. cbn [context]. rewrite Hname.
    cbn [contains]. rewrite bind_ret.
    unfold service_line_entity_guard in Hguard. rewrite Hguard.
    erewrite bind_run; [|eapply dict_get_dict; exact Hsg].
    cbv zeta.
    rewrite !(unmapped_identifier_default service_line_entity_loops sd _ Hun)
      by (cbn; tauto).
    reflexivity.
  - unfold set_other_subscriber_entities_loop.
    rewrite bind_get_context. cbn [context]. rewrite Hname.
    cbn [contains]. rewrite bind_ret.
    assert (Hg : (if is_substring "loop_2320" name then ret true
                  else ret (is_substring "loop_2330" name))
                 = (ret true : M bool)).
    { unfold other_subscriber_entity_guard in Hguard.
      destruct (is_substring "loop_2320" name); [reflexivity|].
      cbn [orb] in Hguard. now rewrite Hguard. }
    rewrite Hg, bind_ret.
    erewrite bind_run; [|eapply dict_get_dict; exact Hsg].
    cbv zeta.
    rewrite !(unmapped_identifier_default other_subscriber_entity_loops sd _
                Hun) by (cbn; tauto).
    reflexivity.
Qed.

(* --------------------------------------------------------------------- *)
(** *** Other subscribers *)
(* --------------------------------------------------------------------- *)

Lemma entity_loops_reject_unmapped_identifier_witness :
  set_claim_entity_loop (VRef 18) (claim_state CLAIM_INFORMATION 7)
  = inl ValueError
  /\ set_claim_entity_loop (VRef 19) (claim_state CLAIM_INFORMATION 7)
     = inl ValueError
  /\ set_service_line_entities_loop (VRef 20)
       (claim_state CLAIM_SERVICE_LINE 13) = inl ValueError
  /\ set_other_subscriber_entities_loop (VRef 18)
       (claim_state CLAIM_OTHER_SUBSCRIBER_INFORMATION 11) = inl ValueError.
Proof.
  split; [|split; [|split]].
  - apply (proj1 (entity_loops_reject_unmapped_identifier
                    (claim_state CLAIM_INFORMATION 7) 18 "loop_2300"
                    (list_to_map [("entity_identifier_code", VStr "ZZ")])
                    eq_refl eq_refl)); [reflexivity|].
    intros q Hq. vm_compute in Hq. vm_compute. intuition congruence.
  - apply (proj1 (entity_loops_reject_unmapped_identifier
                    (claim_state CLAIM_INFORMATION 7) 19 "loop_2300" ∅
                    eq_refl eq_refl)); [reflexivity|].
    intros q Hq. vm_compute. discriminate.
  - apply (proj1 (proj2 (entity_loops_reject_unmapped_identifier
                    (claim_state CLAIM_SERVICE_LINE 13) 20 "loop_2400"
                    (list_to_map [("entity_identifier_code", VStr "PW")])
                    eq_refl eq_refl))); [reflexivity|].
    intros q Hq. vm_compute in Hq. vm_compute. intuition congruence.
  - apply (proj2 (proj2 (entity_loops_reject_unmapped_identifier
                    (claim_state CLAIM_OTHER_SUBSCRIBER_INFORMATION 11) 18
                    "loop_2320"
                    (list_to_map [("entity_identifier_code", VStr "ZZ")])
                    eq_refl eq_refl))); [reflexivity|].
    intros q Hq. vm_compute in Hq. vm_compute. intuition congruence.
Defined.

(** X23: When the current loop name contains loop_23,
    set_other_subscriber_loop appends a fresh record with empty cas_segment
    and amt_segment lists to the loop_2320 list of the current claim
    (creating the list when absent, keeping earlier entries and the claim's
    other keys) and moves the cursor to it under the name loop_2320. *)
Theorem set_other_subscriber_loop_appends (st : state) (seg : value)
  (name : string) (cl : loc) (cd : gmap string value) (others : list value) :
  loop_name (context st) = VStr name ->
  claim_ambulance_guard name = true ->
  _get_claim st = inr (VRef cl, st) ->
  store st !! cl = Some (ODict cd) ->
  (cd !! "loop_2320" = None /\ others = []
   \/ exists ol, cd !! "loop_2320" = Some (VRef ol)
                 /\ store st !! ol = Some (OList others)) ->
  exists st' ol os cas amt cd',
    set_other_subscriber_loop seg st = inr (tt, st')
    /\ store st' !! cl = Some (ODict cd')
    /\ cd' !! "loop_2320" = Some (VRef ol)
    /\ (forall k, k <> "loop_2320" -> cd' !! k = cd !! k)
    /\ store st' !! ol = Some (OList (others ++ [VRef os]))
    /\ length (store st) <= os
    /\ store st' !! os
       = Some (ODict (list_to_map [("cas_segment", VRef cas);
                                   ("amt_segment", VRef amt)]))
    /\ store st' !! cas = Some (OList [])
    /\ store st' !! amt = Some (OList [])
    /\ loop_container (context st') = VRef os
    /\ loop_name (context st') = VStr "loop_2320".
Proof.
  intros Hname Hguard Hclaim Hcd Hothers.
  destruct st as [c h]. cbn [context store] in *.
  unfold set_other_subscriber_loop.
  rewrite bind_get_context. cbn [context]. rewrite Hname.
  cbn [contains]. rewrite bind_ret.
  unfold claim_ambulance_guard in Hguard. rewrite Hguard.
  rewrite (bind_run _ _ _ _ _ Hclaim).
  change (loop_id CLAIM_OTHER_SUBSCRIBER_INFORMATION) with "loop_2320".
  run_contains Hcd.
  destruct (ensure_list c h cl cd "loop_2320" others Hcd Hothers)
    as (h1 & d1 & ol & Hrun & Hcl1 & Hd1 & Hol1 & Hlen & Hkeys & _).
  rewrite (bind_run _ _ _ _ _ Hrun). clear Hrun.
  run_getitem; [|exact Hd1].
  do 3 run_alloc. run_append. run_getitem; [|exact Hd1]. run_last.
  rewrite set_loop_context_run.
  eexists _, ol, (length ((h1 ++ [OList []]) ++ [OList []])),
    (length h1), (length (h1 ++ [OList []])), d1.
  split; [reflexivity|]. cbn [context store loop_container loop_name].
  split; [lookup_tac|]. split; [exact Hd1|]. split; [exact Hkeys|].
  split; [lookup_tac|]. split; [store_len|]. split; [lookup_tac|].
  split; [lookup_tac|]. split; [lookup_tac|]. split; reflexivity.
Qed.

Lemma set_other_subscriber_loop_appends_witness :
  exists st' ol os cas amt cd',
    set_other_subscriber_loop VNone (claim_state CLAIM_INFORMATION 7)
    = inr (tt, st')
    /\ store st' !! 7 = Some (ODict cd')
    /\ cd' !! "loop_2320" = Some (VRef ol)
    /\ (forall k, k <> "loop_2320" ->
          cd' !! k
          = (list_to_map [("loop_2310b", VRef 8); ("loop_2320", VRef 9);
                          ("loop_2400", VRef 12)] : gmap string value) !! k)
    /\ store st' !! ol = Some (OList ([VRef 10; VRef 11] ++ [VRef os]))
    /\ length claim_store <= os
    /\ store st' !! os
       = Some (ODict (list_to_map [("cas_segment", VRef cas);
                                   ("amt_segment", VRef amt)]))
    /\ store st' !! cas = Some (OList [])
    /\ store st' !! amt = Some (OList [])
    /\ loop_container (context st') = VRef os
    /\ loop_name (context st') = VStr "loop_2320".
Proof.
  apply (set_other_subscriber_loop_appends (claim_state CLAIM_INFORMATION 7)
           VNone "loop_2300" 7
           (list_to_map [("loop_2310b", VRef 8); ("loop_2320", VRef 9);
                         ("loop_2400", VRef 12)]) [VRef 10; VRef 11]);
    try reflexivity.
  right. exists 9. split; reflexivity.
Defined.

Lemma get_other_subscriber_run (c : X12ParserContext) (h : list object)
  (cl ol : loc) (cd : gmap string value) (others : list value) (v : value) :
  _get_claim (mk_state c h) = inr (VRef cl, mk_state c h) ->
  h !! cl = Some (ODict cd) ->
  cd !! "loop_2320" = Some (VRef ol) ->
  h !! ol = Some (OList (others ++ [v])) ->
  _get_other_subscriber (mk_state c h)
  = inr (v, mk_state c ((h ++ [ODict ∅]) ++ [OList [VRef (length h)]])).
Proof.
  intros Hclaim Hcd Hol Hlist. unfold _get_other_subscriber.
  rewrite (bind_run _ _ _ _ _ Hclaim). do 2 run_alloc.
  erewrite bind_run; [|eapply dict_get_dict; lookup_tac].
  change (loop_id CLAIM_OTHER_SUBSCRIBER_INFORMATION) with "loop_2320".
  rewrite Hol. cbn [default from_option id].
  eapply getitem_last_list; [lookup_tac|apply last_snoc].
Qed.

(** X24: Under its guard, set_other_subscriber_entities_loop maps PR, DN/P3,
    82, 77, DQ, 85 to loop_2330b..g and binds that key of the last other
    subscriber of the current claim to a fresh record with an empty
    ref_segment list; every other object of the store, the earlier other
    subscribers included, is unchanged. *)
Theorem set_other_subscriber_entities_loop_writes_last (st : state)
  (sg : loc) (name q : string) (loop : TransactionLoops)
  (sd : gmap string value) (cl ol os : loc) (cd od : gmap string value)
  (others : list value) :
  loop_name (context st) = VStr name ->
  other_subscriber_entity_guard name = true ->
  store st !! sg = Some (ODict sd) ->
  sd !! "entity_identifier_code" = Some (VStr q) ->
  In (q, loop) other_subscriber_entity_loops ->
  _get_claim st = inr (VRef cl, st) ->
  store st !! cl = Some (ODict cd) ->
  cd !! "loop_2320" = Some (VRef ol) ->
  store st !! ol = Some (OList (others ++ [VRef os])) ->
  store st !! os = Some (ODict od) ->
  exists st' nl rl,
    set_other_subscriber_entities_loop (VRef sg) st = inr (tt, st')
    /\ length (store st) <= nl
    /\ store st' !! os = Some (ODict (<[loop_id loop := VRef nl]> od))
    /\ store st' !! nl = Some (ODict (list_to_map [("ref_segment", VRef rl)]))
    /\ store st' !! rl = Some (OList [])
    /\ (forall l, l < length (store st) -> l <> os ->
                  store st' !! l = store st !! l)
    /\ loop_container (context st') = VRef nl
    /\ loop_name (context st') = VStr (loop_id loop).
Proof.
  intros Hname Hguard Hsg Hid Hin Hclaim Hcd Hol Hlist Hos.
  destruct st as [c h]. cbn [context store] in *.
  unfold set_other_subscriber_entities_loop.
  rewrite bind_get_context. cbn [context]. rewrite Hname.
  cbn [contains]. rewrite bind_ret.
  assert (Hg : (if is_substring "loop_2320" name then ret true
                else ret (is_substring "loop_2330" name))
               = (ret true : M bool)).
  { unfold other_subscriber_entity_guard in Hguard.
    destruct (is_substring "loop_2320" name); [reflexivity|].
    cbn [orb] in Hguard. now rewrite Hguard. }
  rewrite Hg, bind_ret.
  erewrite bind_run; [|eapply dict_get_dict; exact Hsg].
  rewrite Hid.
  pose proof (get_other_subscriber_run c h cl ol cd others (VRef os) Hclaim
                Hcd Hol Hlist) as Hget.
  cbn [other_subscriber_entity_loops In] in Hin.
  destruct Hin as [E|[E|[E|[E|[E|[E|[E|[]]]]]]]]; inversion E; subst q loop;
    clear E; decide_identifier;
    rewrite (bind_run _ _ _ _ _ Hget);
    do 2 run_alloc; run_setitem; (run_getitem; [|apply lookup_insert_eq]);
    rewrite set_loop_context_run;
    eexists _,
      (length (((h ++ [ODict ∅]) ++ [OList [VRef (length h)]])
               ++ [OList []])),
      (length ((h ++ [ODict ∅]) ++ [OList [VRef (length h)]]));
    (split; [reflexivity|]);
    cbn [context store loop_container loop_name];
    (split; [store_len|]); (split; [lookup_tac|]); (split; [lookup_tac|]);
    (split; [lookup_tac|]); (split; [frame_tac|]); split; reflexivity.
Qed.

Lemma set_other_subscriber_entities_loop_writes_last_witness :
  exists st' nl rl,
    set_other_subscriber_entities_loop (VRef 17)
      (claim_state CLAIM_OTHER_SUBSCRIBER_INFORMATION 11) = inr (tt, st')
    /\ length claim_store <= nl
    /\ store st' !! 11 = Some (ODict (<["loop_2330d" := VRef nl]> ∅))
    /\ store st' !! nl = Some (ODict (list_to_map [("ref_segment", VRef rl)]))
    /\ store st' !! rl = Some (OList [])
    /\ (forall l, l < length claim_store -> l <> 11 ->
                  store st' !! l = claim_store !! l)
    /\ loop_container (context st') = VRef nl
    /\ loop_name (context st') = VStr "loop_2330d".
Proof.
  apply (set_other_subscriber_entities_loop_writes_last
           (claim_state CLAIM_OTHER_SUBSCRIBER_INFORMATION 11) 17 "loop_2320"
           "82" CLAIM_OTHER_SUBSCRIBER_OTHER_PAYER_RENDERING_PROVIDER_NAME
           (list_to_map [("entity_identifier_code", VStr "82")]) 7 9 11
           (list_to_map [("loop_2310b", VRef 8); ("loop_2320", VRef 9);
                         ("loop_2400", VRef 12)]) ∅ [VRef 10]);
    try reflexivity.
  cbn. tauto.
Defined.

(* --------------------------------------------------------------------- *)
(** *** Ambulance loops and the header *)
(* --------------------------------------------------------------------- *)

Lemma eq_str_default (o : option value) (q : string) :
  eq_str (default VNone o) q = bool_decide (o = Some (VStr q)).
Proof.
  destruct o as [[|s|l]|]; cbn [default from_option id eq_str];
    try (symmetry; apply bool_decide_eq_false_2; congruence).
  destruct (String.eqb_spec s q) as [->|Hne].
  - symmetry. now apply bool_decide_eq_true_2.
  - symmetry. apply bool_decide_eq_false_2. congruence.
Qed.

(** X25: An ambulance NM1 segment opens the pick-up loop when its qualifier
    is PW and the drop-off loop for any other or missing qualifier:
    loop_2310e/f on the current claim when the loop name contains loop_23,
    loop_2420g/h on the current service line when it contains loop_24, each
    time bound to a fresh empty record; a handler whose guard fails changes
    nothing, and no loop of the transaction satisfies both guards. *)
Theorem nm1_ambulance_loops (st : state) (sg : loc) (name : string)
  (sd : gmap string value) :
  loop_name (context st) = VStr name ->
  store st !! sg = Some (ODict sd) ->
  let pickup :=
    bool_decide (sd !! "entity_identifier_code" = Some (VStr "PW")) in
  (claim_ambulance_guard name = true ->
   forall cl cd,
     _get_claim st = inr (VRef cl, st) ->
     store st !! cl = Some (ODict cd) ->
     exists st' nl,
       set_ambulance_loop (VRef sg) st = inr (tt, st')
       /\ length (store st) <= nl
       /\ store st' !! cl
          = Some (ODict (<[(if pickup then "loop_2310e" else "loop_2310f")
                           := VRef nl]> cd))
       /\ store st' !! nl = Some (ODict ∅)
       /\ loop_container (context st') = VRef nl
       /\ loop_name (context st')
          = VStr (if pickup then "loop_2310e" else "loop_2310f"))
  /\ (service_line_entity_guard name = true ->
      forall sl ld,
        _get_service_line st = inr (VRef sl, st) ->
        store st !! sl = Some (ODict ld) ->
        exists st' nl,
          set_ambulance_service_line_loop (VRef sg) st = inr (tt, st')
          /\ length (store st) <= nl
          /\ store st' !! sl
             = Some (ODict (<[(if pickup then "loop_2420g" else "loop_2420h")
                              := VRef nl]> ld))
          /\ store st' !! nl = Some (ODict ∅)
          /\ loop_container (context st') = VRef nl
          /\ loop_name (context st')
             = VStr (if pickup then "loop_2420g" else "loop_2420h"))
  /\ (claim_ambulance_guard name = false ->
      set_ambulance_loop (VRef sg) st = inr (tt, st))
  /\ (service_line_entity_guard name = false ->
      set_ambulance_service_line_loop (VRef sg) st = inr (tt, st))
  /\ (forall l : TransactionLoops,
        claim_ambulance_guard (loop_id l)
        && service_line_entity_guard (loop_id l) = false).
Proof.
  intros Hname Hsg pickup. destruct st as [c h]. cbn [context store] in *.
  split; [|split; [|split; [|split]]].
  - intros Hguard cl cd Hclaim Hcd.
    unfold set_ambulance_loop.
    rewrite bind_get_context. cbn [context]. rewrite Hname.
    cbn [contains]. rewrite bind_ret.
    unfold claim_ambulance_guard in Hguard. rewrite Hguard.
    rewrite (bind_run _ _ _ _ _ Hclaim).
    erewrite bind_run; [|eapply dict_get_dict; exact Hsg].
    cbv zeta. rewrite eq_str_default. fold pickup.
    destruct pickup; cbn [loop_id];
      run_alloc; run_setitem; (run_getitem; [|apply lookup_insert_eq]);
      rewrite set_loop_context_run;
      eexists _, (length h); (split; [reflexivity|]);
      cbn [context store loop_container loop_name];
      (split; [store_len|]); (split; [lookup_tac|]); (split; [lookup_tac|]);
      split; reflexivity.
  - intros Hguard sl ld Hline Hld.
    unfold set_ambulance_service_line_loop.
    rewrite bind_get_context. cbn [context]. rewrite Hname.
    cbn [contains]. rewrite bind_ret.
    unfold service_line_entity_guard in Hguard. rewrite Hguard.
    rewrite (bind_run _ _ _ _ _ Hline).
    erewrite bind_run; [|eapply dict_get_dict; exact Hsg].
    cbv zeta. rewrite eq_str_default. fold pickup.
    destruct pickup; cbn [loop_id];
      run_alloc; run_setitem; (run_getitem; [|apply lookup_insert_eq]);
      rewrite set_loop_context_run;
      eexists _, (length h); (split; [reflexivity|]);
      cbn [context store loop_container loop_name];
      (split; [store_len|]); (split; [lookup_tac|]); (split; [lookup_tac|]);
      split; reflexivity.
  - intros Hguard. unfold set_ambulance_loop.
    rewrite bind_get_context. cbn [context]. rewrite Hname.
    cbn [contains]. rewrite bind_ret.
    unfold claim_ambulance_guard in Hguard. now rewrite Hguard.
  - intros Hguard. unfold set_ambulance_service_line_loop.
    rewrite bind_get_context. cbn [context]. rewrite Hname.
    cbn [contains]. rewrite bind_ret.
    unfold service_line_entity_guard in Hguard. now rewrite Hguard.
  - intros l. destruct l; reflexivity.
Qed.

Lemma nm1_ambulance_loops_witness :
  (exists st' nl,
     set_ambulance_loop (VRef 20) (claim_state CLAIM_INFORMATION 7)
     = inr (tt, st')
     /\ loop_container (context st') = VRef nl
     /\ loop_name (context st') = VStr "loop_2310e")
  /\ (exists st' nl,
        set_ambulance_service_line_loop (VRef 19)
          (claim_state CLAIM_SERVICE_LINE 13) = inr (tt, st')
        /\ loop_container (context st') = VRef nl
        /\ loop_name (context st') = VStr "loop_2420h").
Proof.
  split.
  - destruct (proj1 (nm1_ambulance_loops (claim_state CLAIM_INFORMATION 7) 20
                       "loop_2300"
                       (list_to_map [("entity_identifier_code", VStr "PW")])
                       eq_refl eq_refl)
                eq_refl 7
                (list_to_map [("loop_2310b", VRef 8); ("loop_2320", VRef 9);
                              ("loop_2400", VRef 12)])
                eq_refl eq_refl)
      as (st' & nl & Hrun & _ & _ & _ & Hcont & Hname).
    exists st', nl. repeat split; assumption.
  - destruct (proj1 (proj2 (nm1_ambulance_loops
                       (claim_state CLAIM_SERVICE_LINE 13) 19 "loop_2400" ∅
                       eq_refl eq_refl))
                eq_refl 13
                (list_to_map [("loop_2420a", VRef 14); ("loop_2440", VRef 15)])
                eq_refl eq_refl)
      as (st' & nl & Hrun & _ & _ & _ & Hcont & Hname).
    exists st', nl. repeat split; assumption.
Defined.

(** X26: From the header loop, a receiver NM1 is ignored until a submitter
    NM1 has opened loop_1000a; set_submitter_name_loop stores a record with
    an empty per_segment list under loop_1000a, a second submitter NM1 is
    then ignored, and set_receiver_name_loop stores an empty record under
    loop_1000b beside it and moves the cursor there. *)
Theorem header_name_loops_in_order (st : state) (seg seg' : value) (t : loc)
  (td : gmap string value) :
  loop_name (context st) = VStr "header" ->
  transaction_data (context st) = VRef t ->
  store st !! t = Some (ODict td) ->
  exists st1 st2 sub per rcv,
    set_receiver_name_loop seg' st = inr (tt, st)
    /\ set_submitter_name_loop seg st = inr (tt, st1)
    /\ length (store st) <= sub
    /\ store st1 !! t = Some (ODict (<["loop_1000a" := VRef sub]> td))
    /\ store st1 !! sub
       = Some (ODict (list_to_map [("per_segment", VRef per)]))
    /\ store st1 !! per = Some (OList [])
    /\ loop_container (context st1) = VRef sub
    /\ loop_name (context st1) = VStr "loop_1000a"
    /\ set_submitter_name_loop seg st1 = inr (tt, st1)
    /\ set_receiver_name_loop seg' st1 = inr (tt, st2)
    /\ length (store st1) <= rcv
    /\ store st2 !! t
       = Some (ODict (<["loop_1000b" := VRef rcv]>
                        (<["loop_1000a" := VRef sub]> td)))
    /\ store st2 !! rcv = Some (ODict ∅)
    /\ store st2 !! sub = store st1 !! sub
    /\ loop_container (context st2) = VRef rcv
    /\ loop_name (context st2) = VStr "loop_1000b".
Proof.
  intros Hname Ht Htd. destruct st as [c h]. cbn [context store] in *.
  eexists _, _, (length (h ++ [OList []])), (length h), _.
  split.
  { unfold set_receiver_name_loop. rewrite bind_get_context. cbn [context].
    rewrite Hname. reflexivity. }
  split.
  { unfold set_submitter_name_loop. rewrite bind_get_context. cbn [context].
    rewrite Hname, Ht. cbn [eq_str loop_id String.eqb Ascii.eqb Bool.eqb andb].
    do 2 run_alloc. run_setitem. run_getitem; [|apply lookup_insert_eq].
    rewrite set_loop_context_run. reflexivity. }
  cbn [context store loop_container loop_name transaction_data].
  split; [store_len|]. split; [lookup_tac|]. split; [lookup_tac|].
  split; [lookup_tac|]. split; [reflexivity|]. split; [reflexivity|].
  split.
  { unfold set_submitter_name_loop. rewrite bind_get_context. reflexivity. }
  split.
  { unfold set_receiver_name_loop. rewrite bind_get_context. cbn [context].
    cbn [loop_name transaction_data eq_str loop_id String.eqb Ascii.eqb
           Bool.eqb andb].
    rewrite Ht.
    run_alloc. run_setitem. run_getitem; [|apply lookup_insert_eq].
    rewrite set_loop_context_run. reflexivity. }
  cbn [context store loop_container loop_name].
  split; [apply le_n|]. split; [lookup_tac|]. split; [lookup_tac|].
  split.
  { assert (t < length h) by (eapply lookup_lt_Some, Htd).
    rewrite list_lookup_insert_ne by store_len.
    rewrite lookup_app_l by store_len. reflexivity. }
  split; reflexivity.
Qed.

Lemma header_name_loops_in_order_witness :
  exists st1 st2 sub per rcv,
    set_receiver_name_loop VNone initial_state = inr (tt, initial_state)
    /\ set_submitter_name_loop VNone initial_state = inr (tt, st1)
    /\ length (store initial_state) <= sub
    /\ store st1 !! 0
       = Some (ODict (<["loop_1000a" := VRef sub]>
                        (list_to_map [("header", VRef 1);
                                      ("footer", VRef 2)])))
    /\ store st1 !! sub
       = Some (ODict (list_to_map [("per_segment", VRef per)]))
    /\ store st1 !! per = Some (OList [])
    /\ loop_container (context st1) = VRef sub
    /\ loop_name (context st1) = VStr "loop_1000a"
    /\ set_submitter_name_loop VNone st1 = inr (tt, st1)
    /\ set_receiver_name_loop VNone st1 = inr (tt, st2)
    /\ length (store st1) <= rcv
    /\ store st2 !! 0
       = Some (ODict (<["loop_1000b" := VRef rcv]>
                        (<["loop_1000a" := VRef sub]>
                           (list_to_map [("header", VRef 1);
                                         ("footer", VRef 2)]))))
    /\ store st2 !! rcv = Some (ODict ∅)
    /\ store st2 !! sub = store st1 !! sub
    /\ loop_container (context st2) = VRef rcv
    /\ loop_name (context st2) = VStr "loop_1000b".
Proof.
  apply (header_name_loops_in_order initial_state VNone VNone 0
           (list_to_map [("header", VRef 1); ("footer", VRef 2)]));
    reflexivity.
Defined.

Lemma set_form_identification_loop_appends_witness :
  exists st' fl form frm ld',
    set_form_identification_loop VNone (claim_state CLAIM_SERVICE_LINE 13)
    = inr (tt, st')
    /\ store st' !! 13 = Some (ODict ld')
    /\ ld' !! "loop_2440" = Some (VRef fl)
    /\ store st' !! fl = Some (OList ([] ++ [VRef form]))
    /\ length claim_store <= form
    /\ store st' !! form
       = Some (ODict (list_to_map [("frm_segment", VRef frm)]))
    /\ store st' !! frm = Some (OList [])
    /\ loop_container (context st') = VRef form
    /\ loop_name (context st') = VStr "loop_2440".
Proof.
  apply (set_form_identification_loop_appends
           (claim_state CLAIM_SERVICE_LINE 13) VNone 13
           (list_to_map [("loop_2420a", VRef 14); ("loop_2440", VRef 15)]) []);
    try reflexivity.
  right. exists 15. split; reflexivity.
Defined.

Lemma set_subscriber_loop_keeps_patient_shortcut_witness :
  exists st' sub,
    set_subscriber_loop VNone (dependent_state BILLING_PROVIDER 2 5)
    = inr (tt, st')
    /\ subscriber_record (context st') = VRef sub
    /\ length dependent_store <= sub
    /\ loop_container (context st') = VRef sub
    /\ patient_record (context st') = VRef 7.
Proof.
  apply (set_subscriber_loop_keeps_patient_shortcut
           (dependent_state BILLING_PROVIDER 2 5) VNone 2 5
           (list_to_map [("loop_2000b", VRef 3)])
           (list_to_map [("hierarchical_level_code", VStr "22");
                         ("hierarchical_child_code", VStr "1")])
           [VRef 4] (VStr "1"));
    try reflexivity.
  right. exists 3. split; reflexivity.
Defined.

(* --------------------------------------------------------------------- *)
(** *** Name loops *)
(* --------------------------------------------------------------------- *)

(** X27: When the loop name contains loop_2010a and the current billing
    provider has no loop_2010ac, set_pay_to_plan_name_loop stores a fresh
    record with an empty ref_segment list under that key, changes no other
    object, and moves the cursor to it; handling a second such segment right
    after changes nothing. *)
Theorem set_pay_to_plan_name_loop_once (st : state) (seg seg' : value)
  (name : string) (t pl bp : loc) (td d : gmap string value)
  (providers : list value) :
  loop_name (context st) = VStr name ->
  is_substring "loop_2010a" name = true ->
  transaction_data (context st) = VRef t ->
  store st !! t = Some (ODict td) ->
  td !! "loop_2000a" = Some (VRef pl) ->
  store st !! pl = Some (OList (providers ++ [VRef bp])) ->
  store st !! bp = Some (ODict d) ->
  d !! "loop_2010ac" = None ->
  exists st' nl rl,
    set_pay_to_plan_name_loop seg st = inr (tt, st')
    /\ length (store st) <= nl
    /\ store st' !! bp = Some (ODict (<["loop_2010ac" := VRef nl]> d))
    /\ store st' !! nl = Some (ODict (list_to_map [("ref_segment", VRef rl)]))
    /\ store st' !! rl = Some (OList [])
    /\ (forall l, l < length (store st) -> l <> bp ->
                  store st' !! l = store st !! l)
    /\ loop_container (context st') = VRef nl
    /\ loop_name (context st') = VStr "loop_2010ac"
    /\ set_pay_to_plan_name_loop seg' st' = inr (tt, st').
Proof.
  intros Hname Hsub Ht Htd Hpl Hlist Hbp Hnone.
  destruct st as [c h]. cbn [context store] in *.
  pose proof (get_billing_provider_run c h t pl td (providers ++ [VRef bp])
                (VRef bp) Ht Htd Hpl Hlist (last_snoc _ _)) as Hget.
  eexists _, (length (h ++ [OList []])), (length h).
  split.
  { unfold set_pay_to_plan_name_loop.
    rewrite bind_get_context. cbn [context]. rewrite Hname.
    cbn [contains]. rewrite bind_ret, Hsub.
    rewrite (bind_run _ _ _ _ _ Hget).
    change (loop_id BILLING_PROVIDER_PAY_TO_PLAN_NAME) with "loop_2010ac".
    run_contains Hbp. rewrite Hnone.
    rewrite bool_decide_eq_false_2 by (intros [? ?]; discriminate).
    cbn [negb]. do 2 run_alloc. run_setitem.
    run_getitem; [|apply lookup_insert_eq].
    rewrite set_loop_context_run. reflexivity. }
  cbn [context store loop_container loop_name].
  split; [store_len|]. split; [lookup_tac|]. split; [lookup_tac|].
  split; [lookup_tac|]. split; [frame_tac|].
  split; [reflexivity|]. split; [reflexivity|].
  unfold set_pay_to_plan_name_loop.
  rewrite bind_get_context. cbn [context loop_name loop_id contains].
  rewrite bind_ret.
  replace (is_substring "loop_2010a" "loop_2010ac") with true by reflexivity.
  assert (Hpl_ne : pl <> bp) by congruence.
  assert (Hget' :
    _get_billing_provider
      (mk_state
         (mk_context (VStr "loop_2010ac") (VRef (length (h ++ [OList []])))
            (transaction_data c) (subscriber_record c) (patient_record c)
            (hl_segment c))
         (<[bp := ODict (<["loop_2010ac" := VRef (length (h ++ [OList []]))]> d)]>
            ((h ++ [OList []])
             ++ [ODict (list_to_map [("ref_segment", VRef (length h))])])))
    = inr (VRef bp, mk_state
         (mk_context (VStr "loop_2010ac") (VRef (length (h ++ [OList []])))
            (transaction_data c) (subscriber_record c) (patient_record c)
            (hl_segment c))
         (<[bp := ODict (<["loop_2010ac" := VRef (length (h ++ [OList []]))]> d)]>
            ((h ++ [OList []])
             ++ [ODict (list_to_map [("ref_segment", VRef (length h))])])))).
  { destruct (decide (t = bp)) as [->|Hne].
    - rewrite Hbp in Htd. injection Htd as <-.
      eapply (get_billing_provider_run _ _ bp pl
                (<["loop_2010ac" := VRef (length (h ++ [OList []]))]> d));
        [exact Ht|lookup_tac| |lookup_tac|apply last_snoc].
      rewrite lookup_insert_ne by discriminate. exact Hpl.
    - eapply (get_billing_provider_run _ _ t pl td);
        [exact Ht|lookup_tac|exact Hpl|lookup_tac|apply last_snoc]. }
  rewrite (bind_run _ _ _ _ _ Hget').
  erewrite bind_run; [|eapply contains_dict; lookup_tac].
  change (loop_id BILLING_PROVIDER_PAY_TO_PLAN_NAME) with "loop_2010ac".
  rewrite lookup_insert_eq.
  rewrite bool_decide_eq_true_2 by eauto. reflexivity.
Qed.

Lemma set_pay_to_plan_name_loop_once_witness :
  exists st' nl rl,
    set_pay_to_plan_name_loop VNone (example_state BILLING_PROVIDER_NAME 3)
    = inr (tt, st')
    /\ length example_store <= nl
    /\ store st' !! 2
       = Some (ODict (<["loop_2010ac" := VRef nl]>
                        (list_to_map [("loop_2010aa", VRef 3);
                                      ("loop_2010ab", VRef 4);
                                      ("loop_2000b", VRef 5)])))
    /\ store st' !! nl = Some (ODict (list_to_map [("ref_segment", VRef rl)]))
    /\ store st' !! rl = Some (OList [])
    /\ (forall l, l < length example_store -> l <> 2 ->
                  store st' !! l = example_store !! l)
    /\ loop_container (context st') = VRef nl
    /\ loop_name (context st') = VStr "loop_2010ac"
    /\ set_pay_to_plan_name_loop VNone st' = inr (tt, st').
Proof.
  apply (set_pay_to_plan_name_loop_once
           (example_state BILLING_PROVIDER_NAME 3) VNone VNone "loop_2010aa"
           0 1 2 (list_to_map [("loop_2000a", VRef 1)])
           (list_to_map [("loop_2010aa", VRef 3); ("loop_2010ab", VRef 4);
                         ("loop_2000b", VRef 5)]) []);
    reflexivity.
Defined.

(** X28: set_patient_name_loop has no guard: it binds loop_2010ca of the
    patient record to a fresh record with an empty ref_segment list
    (replacing any earlier one), changes no other object, moves the cursor
    there and keeps both shortcuts; when no patient record is set (None) it
    raises TypeError. *)
Theorem set_patient_name_loop_effect (st : state) (seg : value) :
  match patient_record (context st) with
  | VRef p =>
      forall pd, store st !! p = Some (ODict pd) ->
        exists st' nl rl,
          set_patient_name_loop seg st = inr (tt, st')
          /\ length (store st) <= nl
          /\ store st' !! p = Some (ODict (<["loop_2010ca" := VRef nl]> pd))
          /\ store st' !! nl
             = Some (ODict (list_to_map [("ref_segment", VRef rl)]))
          /\ store st' !! rl = Some (OList [])
          /\ (forall l, l < length (store st) -> l <> p ->
                        store st' !! l = store st !! l)
          /\ loop_container (context st') = VRef nl
          /\ loop_name (context st') = VStr "loop_2010ca"
          /\ patient_record (context st') = VRef p
          /\ subscriber_record (context st') = subscriber_record (context st)
  | _ => set_patient_name_loop seg st = inl TypeError
  end.
Proof.
  destruct st as [c h]. cbn [context store].
  destruct (patient_record c) as [|s|p] eqn:Hp.
  - unfold set_patient_name_loop. rewrite bind_get_context. cbn [context].
    rewrite Hp. do 2 run_alloc. reflexivity.
  - unfold set_patient_name_loop. rewrite bind_get_context. cbn [context].
    rewrite Hp. do 2 run_alloc. reflexivity.
  - intros pd Hpd.
    eexists _, (length (h ++ [OList []])), (length h).
    split.
    { unfold set_patient_name_loop. rewrite bind_get_context. cbn [context].
      rewrite Hp. change (loop_id PATIENT_LOOP_NAME) with "loop_2010ca".
      do 2 run_alloc. run_setitem. run_getitem; [|apply lookup_insert_eq].
      rewrite set_loop_context_run. reflexivity. }
    cbn [context store loop_container loop_name patient_record
           subscriber_record].
    split; [store_len|]. split; [lookup_tac|]. split; [lookup_tac|].
    split; [lookup_tac|]. split; [frame_tac|]. repeat split. exact Hp.
Qed.

Lemma set_patient_name_loop_effect_witness :
  (exists st' nl rl,
     set_patient_name_loop VNone (dependent_state PATIENT_LOOP 7 8)
     = inr (tt, st')
     /\ length dependent_store <= nl
     /\ store st' !! 7
        = Some (ODict (<["loop_2010ca" := VRef nl]>
                         (list_to_map [("hl_segment", VRef 8);
                                       ("loop_2300", VRef 9)])))
     /\ store st' !! nl
        = Some (ODict (list_to_map [("ref_segment", VRef rl)]))
     /\ store st' !! rl = Some (OList [])
     /\ (forall l, l < length dependent_store -> l <> 7 ->
                   store st' !! l = dependent_store !! l)
     /\ loop_container (context st') = VRef nl
     /\ loop_name (context st') = VStr "loop_2010ca"
     /\ patient_record (context st') = VRef 7
     /\ subscriber_record (context st') = VRef 4)
  /\ set_patient_name_loop VNone initial_state = inl TypeError.
Proof.
  split.
  - exact (set_patient_name_loop_effect (dependent_state PATIENT_LOOP 7 8)
             VNone
             (list_to_map [("hl_segment", VRef 8); ("loop_2300", VRef 9)])
             eq_refl).
  - exact (set_patient_name_loop_effect initial_state VNone).
Defined.

(** X29: set_other_subscriber_name_loop fires only when the loop name is
    exactly loop_2320 (a name such as loop_2330b is ignored); it then binds
    loop_2330a of the last other subscriber of the current claim to a fresh
    empty record, changes no other object, and moves the cursor there. *)
Theorem set_other_subscriber_name_loop_exact_guard (st : state)
  (seg : value) (name : string) :
  loop_name (context st) = VStr name ->
  (name <> "loop_2320" -> set_other_subscriber_name_loop seg st = inr (tt, st))
  /\ (name = "loop_2320" ->
      forall cl ol os cd od others,
        _get_claim st = inr (VRef cl, st) ->
        store st !! cl = Some (ODict cd) ->
        cd !! "loop_2320" = Some (VRef ol) ->
        store st !! ol = Some (OList (others ++ [VRef os])) ->
        store st !! os = Some (ODict od) ->
        exists st' nl,
          set_other_subscriber_name_loop seg st = inr (tt, st')
          /\ length (store st) <= nl
          /\ store st' !! os = Some (ODict (<["loop_2330a" := VRef nl]> od))
          /\ store st' !! nl = Some (ODict ∅)
          /\ (forall l, l < length (store st) -> l <> os ->
                        store st' !! l = store st !! l)
          /\ loop_container (context st') = VRef nl
          /\ loop_name (context st') = VStr "loop_2330a").
Proof.
  intros Hname. destruct st as [c h]. cbn [context store] in *.
  split.
  - intros Hne. unfold set_other_subscriber_name_loop.
    rewrite bind_get_context. cbn [context]. rewrite Hname.
    cbn [eq_str loop_id].
    destruct (String.eqb_spec name "loop_2320"); [contradiction|reflexivity].
  - intros -> cl ol os cd od others Hclaim Hcd Hol Hlist Hos.
    pose proof (get_other_subscriber_run c h cl ol cd others (VRef os) Hclaim
                  Hcd Hol Hlist) as Hget.
    eexists _, (length ((h ++ [ODict ∅]) ++ [OList [VRef (length h)]])).
    split.
    { unfold set_other_subscriber_name_loop.
      rewrite bind_get_context. cbn [context]. rewrite Hname.
      cbn [eq_str loop_id String.eqb Ascii.eqb Bool.eqb andb].
      rewrite (bind_run _ _ _ _ _ Hget).
      run_alloc. run_setitem. run_getitem; [|apply lookup_insert_eq].
      rewrite set_loop_context_run. reflexivity. }
    cbn [context store loop_container loop_name].
    split; [store_len|]. split; [lookup_tac|]. split; [lookup_tac|].
    split; [frame_tac|]. split; reflexivity.
Qed.

Lemma set_other_subscriber_name_loop_exact_guard_witness :
  set_other_subscriber_name_loop VNone
    (claim_state CLAIM_OTHER_SUBSCRIBER_OTHER_PAYER_NAME 11)
  = inr (tt, claim_state CLAIM_OTHER_SUBSCRIBER_OTHER_PAYER_NAME 11)
  /\ exists st' nl,
       set_other_subscriber_name_loop VNone
         (claim_state CLAIM_OTHER_SUBSCRIBER_INFORMATION 11) = inr (tt, st')
       /\ store st' !! 11 = Some (ODict (<["loop_2330a" := VRef nl]> ∅))
       /\ loop_container (context st') = VRef nl
       /\ loop_name (context st') = VStr "loop_2330a".
Proof.
  split.
  - apply (proj1 (set_other_subscriber_name_loop_exact_guard
                    (claim_state CLAIM_OTHER_SUBSCRIBER_OTHER_PAYER_NAME 11)
                    VNone "loop_2330b" eq_refl)).
    discriminate.
  - destruct (proj2 (set_other_subscriber_name_loop_exact_guard
                       (claim_state CLAIM_OTHER_SUBSCRIBER_INFORMATION 11)
                       VNone "loop_2320" eq_refl)
                eq_refl 7 9 11
                (list_to_map [("loop_2310b", VRef 8); ("loop_2320", VRef 9);
                              ("loop_2400", VRef 12)]) ∅ [VRef 10]
                eq_refl eq_refl eq_refl eq_refl eq_refl)
      as (st' & nl & Hrun & _ & Hos & _ & _ & Hcont & Hname).
    exists st', nl. repeat split; assumption.
Defined.

(** X30: set_drug_identification_loop does nothing unless the loop name
    contains loop_24; then it binds loop_2410 of the current service line to
    a fresh empty record, whatever the key held, changes no other object,
    and moves the cursor there. *)
Theorem set_drug_identification_loop_replaces (st : state) (seg : value)
  (name : string) :
  loop_name (context st) = VStr name ->
  (service_line_entity_guard name = false ->
   set_drug_identification_loop seg st = inr (tt, st))
  /\ (service_line_entity_guard name = true ->
      forall sl ld,
        _get_service_line st = inr (VRef sl, st) ->
        store st !! sl = Some (ODict ld) ->
        exists st' nl,
          set_drug_identification_loop seg st = inr (tt, st')
          /\ length (store st) <= nl
          /\ store st' !! sl = Some (ODict (<["loop_2410" := VRef nl]> ld))
          /\ store st' !! nl = Some (ODict ∅)
          /\ (forall l, l < length (store st) -> l <> sl ->
                        store st' !! l = store st !! l)
          /\ loop_container (context st') = VRef nl
          /\ loop_name (context st') = VStr "loop_2410").
Proof.
  intros Hname. destruct st as [c h]. cbn [context store] in *.
  unfold service_line_entity_guard. split.
  - intros Hguard. unfold set_drug_identification_loop.
    rewrite bind_get_context. cbn [context]. rewrite Hname.
    cbn [contains]. rewrite bind_ret. now rewrite Hguard.
  - intros Hguard sl ld Hline Hld.
    eexists _, (length h). split.
    { unfold set_drug_identification_loop.
      rewrite bind_get_context. cbn [context]. rewrite Hname.
      cbn [contains]. rewrite bind_ret, Hguard.
      rewrite (bind_run _ _ _ _ _ Hline).
      change (loop_id CLAIM_SERVICE_LINE_DRUG_IDENTIFICATION_NAME)
        with "loop_2410".
      run_alloc. run_setitem. run_getitem; [|apply lookup_insert_eq].
      rewrite set_loop_context_run. reflexivity. }
    cbn [context store loop_container loop_name].
    split; [store_len|]. split; [lookup_tac|]. split; [lookup_tac|].
    split; [frame_tac|]. split; reflexivity.
Qed.

Lemma set_drug_identification_loop_replaces_witness :
  set_drug_identification_loop VNone (claim_state CLAIM_INFORMATION 7)
  = inr (tt, claim_state CLAIM_INFORMATION 7)
  /\ exists st' nl,
       set_drug_identification_loop VNone (claim_state CLAIM_SERVICE_LINE 13)
       = inr (tt, st')
       /\ store st' !! 13
          = Some (ODict (<["loop_2410" := VRef nl]>
                           (list_to_map [("loop_2420a", VRef 14);
                                         ("loop_2440", VRef 15)])))
       /\ loop_container (context st') = VRef nl
       /\ loop_name (context st') = VStr "loop_2410".
Proof.
  split.
  - apply (proj1 (set_drug_identification_loop_replaces
                    (claim_state CLAIM_INFORMATION 7) VNone "loop_2300"
                    eq_refl)).
    reflexivity.
  - destruct (proj2 (set_drug_identification_loop_replaces
                       (claim_state CLAIM_SERVICE_LINE 13) VNone "loop_2400"
                       eq_refl)
                eq_refl 13
                (list_to_map [("loop_2420a", VRef 14); ("loop_2440", VRef 15)])
                eq_refl eq_refl)
      as (st' & nl & Hrun & _ & Hsl & _ & _ & Hcont & Hname).
    exists st', nl. repeat split; assumption.
Defined.
